(** * jx: the [context] and [init] commands

  A shallow embedding of [pkg/jx/cmd/context.go] (package [cmd], the
  context switcher) and of the [init] command that follows it in the same
  file (package [initcmd], the cluster bootstrap), together with the
  properties of the two commands.

  Go code that talks to the cluster, to the terminal or to the file system
  is modelled as a computation that emits one event per outside call and
  receives the answer of that call from an environment.  The environment
  answers as a function of everything that happened before the call, so
  quantifying over environments covers every behaviour of the outside
  world, flaky or not. *)

From stdpp Require Import base numbers list strings gmap sorting.

Local Open Scope Z_scope.

(** ** Go values shared by both packages *)

(** The double quote character, for the messages that contain one. *)
Definition dquote : string :=
String (Ascii.Ascii false true false false false true false false) EmptyString.

(** Go's [error] values.  [fmt.Errorf] and [errors.New] keep their format
  string and arguments, [errors.Wrap] keeps its cause, errors built by the
  [util] package keep their constructor, and an error that comes back from
  an outside call is opaque. *)
Inductive error : Type :=
| ExternalError (what : string)
| MissingOption (name : string)
| InvalidArg (value : string) (options : list string)
| Errorf (format : string) (args : list Arg)
| Wrap (cause : error) (message : string)
with Arg : Type :=
| Str (s : string)
| Int (n : Z)
| ErrArg (e : error).

(** A Go [error] result: [None] is [nil]. *)
Abbreviation goerror := (option error).
Abbreviation nil_error := (@None error).

(** [time.Duration] counts nanoseconds. *)
Definition Duration := Z.
Definition time_Second : Duration := 1000000000.
Definition time_Minute : Duration := 60 * time_Second.

(** [strings.Index s substr]: the index of the first instance of [substr] in
  [s], or -1. *)
Fixpoint strings_Index_from (i : Z) (s substr : string) : Z :=
if String.prefix substr s then i
else match s with
     | EmptyString => -1
     | String _ s' => strings_Index_from (i + 1) s' substr
     end.
Definition strings_Index (s substr : string) : Z := strings_Index_from 0 s substr.

(** [sort.Strings]: ascending byte-wise lexicographic order. *)
Definition sort_Strings (a : list string) : list string := merge_sort String.le a.

(** ** The effect monad

  A computation reads the history of events so far, updates a state [St],
  emits events, and yields a value, or no value when a loop ran out of
  fuel.  The answers of the outside world are functions of the history. *)
Section Effect.
Context {St Ev : Type}.

Record Out (A : Type) : Type := mkOut {
  value : option A;
  state : St;
  emitted : list Ev
}.
Global Arguments mkOut {A} _ _ _.
Global Arguments value {A} _.
Global Arguments state {A} _.
Global Arguments emitted {A} _.

Definition M (A : Type) : Type := list Ev → St → Out A.

Definition ret {A} (a : A) : M A := fun _ s => mkOut (Some a) s [].

(** The events [evs] happened before the outcome [r]. *)
Definition prepend {A} (evs : list Ev) (r : Out A) : Out A :=
  match r with
  | mkOut v s evs' => mkOut v s (evs ++ evs')
  end.

Definition bind {A B} (m : M A) (k : A → M B) : M B :=
  fun h s =>
    match m h s with
    | mkOut None s' evs => mkOut None s' evs
    | mkOut (Some a) s' evs => prepend evs (k a (h ++ evs) s')
    end.

(** An outside call: the event is emitted, the outside world answers. *)
Definition call {A} (ev : Ev) (answer : list Ev → A) : M A :=
  fun h s => mkOut (Some (answer h)) s [ev].

(** An outside action without an answer. *)
Definition emit (ev : Ev) : M unit := fun _ s => mkOut (Some tt) s [ev].

(** An answer of the outside world that leaves no event behind (the order
    in which the runtime ranges over a map). *)
Definition consult {A} (answer : list Ev → A) : M A :=
  fun h s => mkOut (Some (answer h)) s [].

Definition get : M St := fun _ s => mkOut (Some s) s [].
Definition put (s : St) : M unit := fun _ _ => mkOut (Some tt) s [].
Definition modify (f : St → St) : M unit := fun _ s => mkOut (Some tt) (f s) [].

(** A Go [for { ... }] loop: the body either continues with a new loop
    state ([inl]) or breaks with a value ([inr]). *)
Fixpoint loop {L A} (fuel : nat) (body : L → M (L + A)) (l : L) : M A :=
  match fuel with
  | O => fun _ s => mkOut None s []
  | S fuel' =>
      bind (body l) (fun r =>
        match r with
        | inl l' => loop fuel' body l'
        | inr a => ret a
        end)
  end.
End Effect.
Global Arguments M : clear implicits.
Global Arguments Out : clear implicits.

(** The monad is used through stdpp's [mret]/[mbind] and their notations
  [x ← m; k] and [m;; k]. *)
Global Instance M_ret {St Ev} : MRet (M St Ev) := fun A a => ret a.
Global Instance M_bind {St Ev} : MBind (M St Ev) := fun A B k m => bind m k.

(** [if err != nil { return err }] *)
Notation "'check' e ; k" := (match e with Some x => mret (Some x) | None => k end)
(at level 20, e at level 100, k at level 200, only parsing) : stdpp_scope.
(** [err := m; if err != nil { return err }] *)
Notation "'try' m ; k" :=
(m ≫= (λ e, match e with Some x => mret (Some x) | None => k end))
(at level 20, m at level 100, k at level 200, only parsing) : stdpp_scope.

(** [inv I φ m]: started in a state that satisfies [I], the computation [m]
  ends in a state that satisfies [I] and emits only events that satisfy
  [φ], whatever the history and whether it yields a value or not. *)
Definition inv {St Ev A} (I : St → Prop) (φ : Ev → Prop) (m : M St Ev A) : Prop :=
∀ h s, I s → I (state (m h s)) ∧ Forall φ (emitted (m h s)).

(** ** Package [cmd]: the context switcher *)
Module cmd.

(** The kube configuration ([clientcmd/api]), as far as the command reads
    it.  A Go map to pointers is a finite map to options: [Some None] is a
    key bound to a nil pointer. *)
Record Context : Type := {
  Cluster : string;
  Namespace : string;
  AuthInfo : string
}.

Record ClusterInfo : Type := { Server : string }.

Record Config : Type := {
  Contexts : gmap string (option Context);
  CurrentContext : string;
  Clusters : gmap string (option ClusterInfo)
}.

Definition set_CurrentContext (name : string) (c : Config) : Config :=
  {| Contexts := Contexts c; CurrentContext := name; Clusters := Clusters c |}.

(** [ContextOptions], with the fields of the embedded [CommonOptions] that
    [Run] reads. *)
Record ContextOptions : Type := {
  Args : list string;
  BatchMode : bool;
  Filter : string
}.

(** The persisted kube configuration; [None] is a nil [*api.Config]. *)
Definition Persisted : Type := option Config.

Inductive Event : Type :=
| EvLoadConfig
| EvSelect (message : string) (options : list string) (default : string)
| EvModifyConfig (newConfig : Config)
| EvFprintf (format : string) (args : list string).

Record Env : Type := {
  (** whether [kube.LoadConfig] fails *)
  kube_LoadConfig_err : list Event → goerror;
  (** the order in which [range] visits the entries of the context map *)
  range_Contexts :
    list Event → gmap string (option Context) → list (string * option Context);
  (** the operator's answer to the select prompt *)
  survey_AskOne : list Event → list string → string → string * goerror;
  (** whether [clientcmd.ModifyConfig] fails *)
  clientcmd_ModifyConfig_err : list Event → Config → goerror;
  util_ColorInfo : string → string;
  kube_Server : Config → Context → string;
  kube_CurrentNamespace : Config → string;
  kube_CurrentServer : Config → string
}.

(** Go visits every entry of a map exactly once, in an order of its own. *)
Definition range_visits_each_entry_once (env : Env) : Prop :=
  ∀ h m, range_Contexts env h m ≡ₚ map_to_list m.

Abbreviation M := (M Persisted Event).

Section WithEnv.
Variable env : Env.

(** [kube.LoadConfig]: the persisted configuration, or an error. *)
Definition kube_LoadConfig : M (option Config * goerror) :=
  err ← call EvLoadConfig (kube_LoadConfig_err env);
  config ← get;
  mret (config, err).

(** [clientcmd.ModifyConfig(po, newConfig, false)]: the configuration is
    rewritten unless the write fails. *)
Definition clientcmd_ModifyConfig (newConfig : Config) : M goerror :=
  err ← call (EvModifyConfig newConfig)
             (λ h, clientcmd_ModifyConfig_err env h newConfig);
  match err with
  | Some e => mret (Some e)
  | None => put (Some newConfig);; mret None
  end.

(** Modelled from the spec: [util.StringArrayIndex] is not among the
    sources; the positional name must exist in the candidate set, so the
    index of the first equal element is returned, and -1 when there is
    none. *)
Fixpoint util_StringArrayIndex_from (i : Z) (array : list string) (value : string) : Z :=
  match array with
  | [] => -1
  | v :: rest =>
      if decide (v = value) then i else util_StringArrayIndex_from (i + 1) rest value
  end.
Definition util_StringArrayIndex (array : list string) (value : string) : Z :=
  util_StringArrayIndex_from 0 array value.

(** context.go, lines 128-144 *)
Definition PickContext (names : list string) (defaultValue : string)
  : M (string * goerror) :=
  match names with
  | [] => mret ("", None)
  | [name] => mret (name, None)
  | _ =>
      call (EvSelect "Change kubernetes context:" names defaultValue)
           (λ h, survey_AskOne env h names defaultValue)
  end.

(** context.go, lines 80-87: the body of the [range] loop, folded over the
    entries in the order of the visit. *)
Definition Run_collect (filter : string) (contextNames : list string)
    (entry : string * option Context) : list string :=
  let '(k, v) := entry in
  if decide (k ≠ "" ∧ v ≠ None) then
    if decide (filter = "" ∨ strings_Index k filter >= 0) then contextNames ++ [k]
    else contextNames
  else contextNames.

(** context.go, lines 107-125 *)
Definition Run_switch (config : Config) (ctxName : string) : M goerror :=
  let info := util_ColorInfo env in
  if decide (ctxName ≠ "" ∧ ctxName ≠ CurrentContext config) then
    match Contexts config !! ctxName ≫= id with
    | None => mret (Some (Errorf "Could not find kubernetes context %s" [Str ctxName]))
    | Some ctx =>
        let newConfig := set_CurrentContext ctxName config in
        err ← clientcmd_ModifyConfig newConfig;
        match err with
        | Some e => mret (Some (Errorf "Failed to update the kube config %s" [ErrArg e]))
        | None =>
            let server := kube_Server env config ctx in
            emit (EvFprintf
                    "Now using namespace '%s' from context named '%s' on server '%s'.\n"
                    [info (Namespace ctx); info (CurrentContext newConfig); info server]);;
            mret None
        end
    end
  else
    let ns := kube_CurrentNamespace env config in
    let server := kube_CurrentServer env config in
    emit (EvFprintf "Using namespace '%s' from context named '%s' on server '%s'.\n"
                    [info ns; info (CurrentContext config); info server]);;
    mret None.

(** context.go, lines 99-106, then the switch *)
Definition Run_pick (o : ContextOptions) (config : Config)
    (contextNames : list string) (ctxName : string) : M goerror :=
  if decide (ctxName = "" ∧ BatchMode o = false) then
    let defaultCtxName := CurrentContext config in
    '(pick, err) ← PickContext contextNames defaultCtxName;
    check err;
    Run_switch config pick
  else Run_switch config ctxName.

(** context.go, lines 80-88: the sorted candidate names, from the entries
    in the order of the visit. *)
Definition Run_contextNames (filter : string)
    (entries : list (string * option Context)) : list string :=
  sort_Strings (foldl (Run_collect filter) [] entries).

(** context.go, lines 70-126 *)
Definition Run (o : ContextOptions) : M goerror :=
  '(config, err) ← kube_LoadConfig;
  check err;
  match config with
  | None =>
      mret (Some (Errorf "No kubernetes contexts available! Try create or connect to cluster?" []))
  | Some config =>
      if decide (size (Contexts config) = 0%nat) then
        mret (Some (Errorf "No kubernetes contexts available! Try create or connect to cluster?" []))
      else
        entries ← consult (λ h, range_Contexts env h (Contexts config));
        let contextNames := Run_contextNames (Filter o) entries in
        match Args o with
        | ctxName :: _ =>
            if decide (util_StringArrayIndex contextNames ctxName < 0) then
              mret (Some (InvalidArg ctxName contextNames))
            else Run_pick o config contextNames ctxName
        | [] => Run_pick o config contextNames ""
        end
  end.

End WithEnv.
(** ** Example inputs *)

(** A kube configuration with two contexts and a key bound to nil; the
    current context is [prod]. *)
Definition example_config : Config :=
  {| Contexts :=
       <["staging" := Some {| Cluster := "c1"; Namespace := "ns-staging"; AuthInfo := "jane" |}]>
         (<["prod" := Some {| Cluster := "c2"; Namespace := "ns-prod"; AuthInfo := "jane" |}]>
            (<["broken" := None]> ∅));
     CurrentContext := "prod";
     Clusters := <["c1" := Some {| Server := "https://c1" |}]>
                   (<["c2" := Some {| Server := "https://c2" |}]> ∅) |}.

(** A terminal and a file system: the configuration loads, the map is
    visited in the order of [map_to_list], the operator gives [answer] to the
    prompt, and the write of the configuration ends with [write]. *)
Definition example_env (answer : string * goerror) (write : goerror) : Env :=
  {| kube_LoadConfig_err := λ _, None;
     range_Contexts := λ _ m, map_to_list m;
     survey_AskOne := λ _ _ _, answer;
     clientcmd_ModifyConfig_err := λ _ _, write;
     util_ColorInfo := λ s, s;
     kube_Server := λ config ctx,
       default "" (Server <$> (Clusters config !! Cluster ctx ≫= id));
     kube_CurrentNamespace := λ config,
       default "" (Namespace <$> (Contexts config !! CurrentContext config ≫= id));
     kube_CurrentServer := λ config,
       default ""
         (Server <$> ((Contexts config !! CurrentContext config ≫= id) ≫=
                      (λ ctx, Clusters config !! Cluster ctx ≫= id))) |}.

End cmd.

(** ** Package [initcmd]: the cluster bootstrap *)
Module initcmd.

(** [InitFlags], field for field. *)
#[projections(primitive)] Record InitFlags : Type := {
  Domain : string;
  Provider : string;
  Namespace : string;
  UserClusterRole : string;
  TillerClusterRole : string;
  IngressClusterRole : string;
  TillerNamespace : string;
  IngressNamespace : string;
  IngressService : string;
  IngressDeployment : string;
  ExternalIP : string;
  VersionsRepository : string;
  VersionsGitRef : string;
  DraftClient : bool;
  HelmClient : bool;
  Helm3 : bool;
  HelmBin : string;
  RecreateExistingDraftRepos : bool;
  NoTiller : bool;
  RemoteTiller : bool;
  GlobalTiller : bool;
  SkipIngress : bool;
  SkipTiller : bool;
  SkipClusterRole : bool;
  OnPremise : bool;
  Http : bool;
  NoGitValidate : bool;
  ExternalDNS : bool
}.

(** Assignments to the fields that the command writes. *)
Definition set_Domain (v : string) (f : InitFlags) : InitFlags :=
  {| Domain := v; Provider := Provider f; Namespace := Namespace f; UserClusterRole :=
     UserClusterRole f; TillerClusterRole := TillerClusterRole f; IngressClusterRole
     := IngressClusterRole f; TillerNamespace := TillerNamespace f; IngressNamespace
     := IngressNamespace f; IngressService := IngressService f; IngressDeployment :=
     IngressDeployment f; ExternalIP := ExternalIP f; VersionsRepository :=
     VersionsRepository f; VersionsGitRef := VersionsGitRef f; DraftClient :=
     DraftClient f; HelmClient := HelmClient f; Helm3 := Helm3 f; HelmBin := HelmBin
     f; RecreateExistingDraftRepos := RecreateExistingDraftRepos f; NoTiller :=
     NoTiller f; RemoteTiller := RemoteTiller f; GlobalTiller := GlobalTiller f;
     SkipIngress := SkipIngress f; SkipTiller := SkipTiller f; SkipClusterRole :=
     SkipClusterRole f; OnPremise := OnPremise f; Http := Http f; NoGitValidate :=
     NoGitValidate f; ExternalDNS := ExternalDNS f |}.
Definition set_Provider (v : string) (f : InitFlags) : InitFlags :=
  {| Domain := Domain f; Provider := v; Namespace := Namespace f; UserClusterRole :=
     UserClusterRole f; TillerClusterRole := TillerClusterRole f; IngressClusterRole
     := IngressClusterRole f; TillerNamespace := TillerNamespace f; IngressNamespace
     := IngressNamespace f; IngressService := IngressService f; IngressDeployment :=
     IngressDeployment f; ExternalIP := ExternalIP f; VersionsRepository :=
     VersionsRepository f; VersionsGitRef := VersionsGitRef f; DraftClient :=
     DraftClient f; HelmClient := HelmClient f; Helm3 := Helm3 f; HelmBin := HelmBin
     f; RecreateExistingDraftRepos := RecreateExistingDraftRepos f; NoTiller :=
     NoTiller f; RemoteTiller := RemoteTiller f; GlobalTiller := GlobalTiller f;
     SkipIngress := SkipIngress f; SkipTiller := SkipTiller f; SkipClusterRole :=
     SkipClusterRole f; OnPremise := OnPremise f; Http := Http f; NoGitValidate :=
     NoGitValidate f; ExternalDNS := ExternalDNS f |}.
Definition set_Namespace (v : string) (f : InitFlags) : InitFlags :=
  {| Domain := Domain f; Provider := Provider f; Namespace := v; UserClusterRole :=
     UserClusterRole f; TillerClusterRole := TillerClusterRole f; IngressClusterRole
     := IngressClusterRole f; TillerNamespace := TillerNamespace f; IngressNamespace
     := IngressNamespace f; IngressService := IngressService f; IngressDeployment :=
     IngressDeployment f; ExternalIP := ExternalIP f; VersionsRepository :=
     VersionsRepository f; VersionsGitRef := VersionsGitRef f; DraftClient :=
     DraftClient f; HelmClient := HelmClient f; Helm3 := Helm3 f; HelmBin := HelmBin
     f; RecreateExistingDraftRepos := RecreateExistingDraftRepos f; NoTiller :=
     NoTiller f; RemoteTiller := RemoteTiller f; GlobalTiller := GlobalTiller f;
     SkipIngress := SkipIngress f; SkipTiller := SkipTiller f; SkipClusterRole :=
     SkipClusterRole f; OnPremise := OnPremise f; Http := Http f; NoGitValidate :=
     NoGitValidate f; ExternalDNS := ExternalDNS f |}.
Definition set_TillerNamespace (v : string) (f : InitFlags) : InitFlags :=
  {| Domain := Domain f; Provider := Provider f; Namespace := Namespace f;
     UserClusterRole := UserClusterRole f; TillerClusterRole := TillerClusterRole f;
     IngressClusterRole := IngressClusterRole f; TillerNamespace := v;
     IngressNamespace := IngressNamespace f; IngressService := IngressService f;
     IngressDeployment := IngressDeployment f; ExternalIP := ExternalIP f;
     VersionsRepository := VersionsRepository f; VersionsGitRef := VersionsGitRef f;
     DraftClient := DraftClient f; HelmClient := HelmClient f; Helm3 := Helm3 f;
     HelmBin := HelmBin f; RecreateExistingDraftRepos := RecreateExistingDraftRepos f;
     NoTiller := NoTiller f; RemoteTiller := RemoteTiller f; GlobalTiller :=
     GlobalTiller f; SkipIngress := SkipIngress f; SkipTiller := SkipTiller f;
     SkipClusterRole := SkipClusterRole f; OnPremise := OnPremise f; Http := Http f;
     NoGitValidate := NoGitValidate f; ExternalDNS := ExternalDNS f |}.
Definition set_IngressNamespace (v : string) (f : InitFlags) : InitFlags :=
  {| Domain := Domain f; Provider := Provider f; Namespace := Namespace f;
     UserClusterRole := UserClusterRole f; TillerClusterRole := TillerClusterRole f;
     IngressClusterRole := IngressClusterRole f; TillerNamespace := TillerNamespace f;
     IngressNamespace := v; IngressService := IngressService f; IngressDeployment :=
     IngressDeployment f; ExternalIP := ExternalIP f; VersionsRepository :=
     VersionsRepository f; VersionsGitRef := VersionsGitRef f; DraftClient :=
     DraftClient f; HelmClient := HelmClient f; Helm3 := Helm3 f; HelmBin := HelmBin
     f; RecreateExistingDraftRepos := RecreateExistingDraftRepos f; NoTiller :=
     NoTiller f; RemoteTiller := RemoteTiller f; GlobalTiller := GlobalTiller f;
     SkipIngress := SkipIngress f; SkipTiller := SkipTiller f; SkipClusterRole :=
     SkipClusterRole f; OnPremise := OnPremise f; Http := Http f; NoGitValidate :=
     NoGitValidate f; ExternalDNS := ExternalDNS f |}.
Definition set_IngressService (v : string) (f : InitFlags) : InitFlags :=
  {| Domain := Domain f; Provider := Provider f; Namespace := Namespace f;
     UserClusterRole := UserClusterRole f; TillerClusterRole := TillerClusterRole f;
     IngressClusterRole := IngressClusterRole f; TillerNamespace := TillerNamespace f;
     IngressNamespace := IngressNamespace f; IngressService := v; IngressDeployment :=
     IngressDeployment f; ExternalIP := ExternalIP f; VersionsRepository :=
     VersionsRepository f; VersionsGitRef := VersionsGitRef f; DraftClient :=
     DraftClient f; HelmClient := HelmClient f; Helm3 := Helm3 f; HelmBin := HelmBin
     f; RecreateExistingDraftRepos := RecreateExistingDraftRepos f; NoTiller :=
     NoTiller f; RemoteTiller := RemoteTiller f; GlobalTiller := GlobalTiller f;
     SkipIngress := SkipIngress f; SkipTiller := SkipTiller f; SkipClusterRole :=
     SkipClusterRole f; OnPremise := OnPremise f; Http := Http f; NoGitValidate :=
     NoGitValidate f; ExternalDNS := ExternalDNS f |}.
Definition set_IngressDeployment (v : string) (f : InitFlags) : InitFlags :=
  {| Domain := Domain f; Provider := Provider f; Namespace := Namespace f;
     UserClusterRole := UserClusterRole f; TillerClusterRole := TillerClusterRole f;
     IngressClusterRole := IngressClusterRole f; TillerNamespace := TillerNamespace f;
     IngressNamespace := IngressNamespace f; IngressService := IngressService f;
     IngressDeployment := v; ExternalIP := ExternalIP f; VersionsRepository :=
     VersionsRepository f; VersionsGitRef := VersionsGitRef f; DraftClient :=
     DraftClient f; HelmClient := HelmClient f; Helm3 := Helm3 f; HelmBin := HelmBin
     f; RecreateExistingDraftRepos := RecreateExistingDraftRepos f; NoTiller :=
     NoTiller f; RemoteTiller := RemoteTiller f; GlobalTiller := GlobalTiller f;
     SkipIngress := SkipIngress f; SkipTiller := SkipTiller f; SkipClusterRole :=
     SkipClusterRole f; OnPremise := OnPremise f; Http := Http f; NoGitValidate :=
     NoGitValidate f; ExternalDNS := ExternalDNS f |}.
Definition set_ExternalIP (v : string) (f : InitFlags) : InitFlags :=
  {| Domain := Domain f; Provider := Provider f; Namespace := Namespace f;
     UserClusterRole := UserClusterRole f; TillerClusterRole := TillerClusterRole f;
     IngressClusterRole := IngressClusterRole f; TillerNamespace := TillerNamespace f;
     IngressNamespace := IngressNamespace f; IngressService := IngressService f;
     IngressDeployment := IngressDeployment f; ExternalIP := v; VersionsRepository :=
     VersionsRepository f; VersionsGitRef := VersionsGitRef f; DraftClient :=
     DraftClient f; HelmClient := HelmClient f; Helm3 := Helm3 f; HelmBin := HelmBin
     f; RecreateExistingDraftRepos := RecreateExistingDraftRepos f; NoTiller :=
     NoTiller f; RemoteTiller := RemoteTiller f; GlobalTiller := GlobalTiller f;
     SkipIngress := SkipIngress f; SkipTiller := SkipTiller f; SkipClusterRole :=
     SkipClusterRole f; OnPremise := OnPremise f; Http := Http f; NoGitValidate :=
     NoGitValidate f; ExternalDNS := ExternalDNS f |}.
Definition set_HelmClient (v : bool) (f : InitFlags) : InitFlags :=
  {| Domain := Domain f; Provider := Provider f; Namespace := Namespace f;
     UserClusterRole := UserClusterRole f; TillerClusterRole := TillerClusterRole f;
     IngressClusterRole := IngressClusterRole f; TillerNamespace := TillerNamespace f;
     IngressNamespace := IngressNamespace f; IngressService := IngressService f;
     IngressDeployment := IngressDeployment f; ExternalIP := ExternalIP f;
     VersionsRepository := VersionsRepository f; VersionsGitRef := VersionsGitRef f;
     DraftClient := DraftClient f; HelmClient := v; Helm3 := Helm3 f; HelmBin :=
     HelmBin f; RecreateExistingDraftRepos := RecreateExistingDraftRepos f; NoTiller
     := NoTiller f; RemoteTiller := RemoteTiller f; GlobalTiller := GlobalTiller f;
     SkipIngress := SkipIngress f; SkipTiller := SkipTiller f; SkipClusterRole :=
     SkipClusterRole f; OnPremise := OnPremise f; Http := Http f; NoGitValidate :=
     NoGitValidate f; ExternalDNS := ExternalDNS f |}.
Definition set_NoTiller (v : bool) (f : InitFlags) : InitFlags :=
  {| Domain := Domain f; Provider := Provider f; Namespace := Namespace f;
     UserClusterRole := UserClusterRole f; TillerClusterRole := TillerClusterRole f;
     IngressClusterRole := IngressClusterRole f; TillerNamespace := TillerNamespace f;
     IngressNamespace := IngressNamespace f; IngressService := IngressService f;
     IngressDeployment := IngressDeployment f; ExternalIP := ExternalIP f;
     VersionsRepository := VersionsRepository f; VersionsGitRef := VersionsGitRef f;
     DraftClient := DraftClient f; HelmClient := HelmClient f; Helm3 := Helm3 f;
     HelmBin := HelmBin f; RecreateExistingDraftRepos := RecreateExistingDraftRepos f;
     NoTiller := v; RemoteTiller := RemoteTiller f; GlobalTiller := GlobalTiller f;
     SkipIngress := SkipIngress f; SkipTiller := SkipTiller f; SkipClusterRole :=
     SkipClusterRole f; OnPremise := OnPremise f; Http := Http f; NoGitValidate :=
     NoGitValidate f; ExternalDNS := ExternalDNS f |}.
Definition set_GlobalTiller (v : bool) (f : InitFlags) : InitFlags :=
  {| Domain := Domain f; Provider := Provider f; Namespace := Namespace f;
     UserClusterRole := UserClusterRole f; TillerClusterRole := TillerClusterRole f;
     IngressClusterRole := IngressClusterRole f; TillerNamespace := TillerNamespace f;
     IngressNamespace := IngressNamespace f; IngressService := IngressService f;
     IngressDeployment := IngressDeployment f; ExternalIP := ExternalIP f;
     VersionsRepository := VersionsRepository f; VersionsGitRef := VersionsGitRef f;
     DraftClient := DraftClient f; HelmClient := HelmClient f; Helm3 := Helm3 f;
     HelmBin := HelmBin f; RecreateExistingDraftRepos := RecreateExistingDraftRepos f;
     NoTiller := NoTiller f; RemoteTiller := RemoteTiller f; GlobalTiller := v;
     SkipIngress := SkipIngress f; SkipTiller := SkipTiller f; SkipClusterRole :=
     SkipClusterRole f; OnPremise := OnPremise f; Http := Http f; NoGitValidate :=
     NoGitValidate f; ExternalDNS := ExternalDNS f |}.
Definition set_SkipTiller (v : bool) (f : InitFlags) : InitFlags :=
  {| Domain := Domain f; Provider := Provider f; Namespace := Namespace f;
     UserClusterRole := UserClusterRole f; TillerClusterRole := TillerClusterRole f;
     IngressClusterRole := IngressClusterRole f; TillerNamespace := TillerNamespace f;
     IngressNamespace := IngressNamespace f; IngressService := IngressService f;
     IngressDeployment := IngressDeployment f; ExternalIP := ExternalIP f;
     VersionsRepository := VersionsRepository f; VersionsGitRef := VersionsGitRef f;
     DraftClient := DraftClient f; HelmClient := HelmClient f; Helm3 := Helm3 f;
     HelmBin := HelmBin f; RecreateExistingDraftRepos := RecreateExistingDraftRepos f;
     NoTiller := NoTiller f; RemoteTiller := RemoteTiller f; GlobalTiller :=
     GlobalTiller f; SkipIngress := SkipIngress f; SkipTiller := v; SkipClusterRole :=
     SkipClusterRole f; OnPremise := OnPremise f; Http := Http f; NoGitValidate :=
     NoGitValidate f; ExternalDNS := ExternalDNS f |}.

(** [InitOptions]: the flags, and the fields of the embedded
    [CommonOptions] that the command reads or writes. *)
#[projections(primitive)] Record InitOptions : Type := {
  Flags : InitFlags;
  Username : string;
  BatchMode : bool;
  AdvancedMode : bool;
  CommonOptions_Domain : string
}.

Definition set_Flags (v : InitFlags) (o : InitOptions) : InitOptions :=
  {| Flags := v; Username := Username o; BatchMode := BatchMode o;
     AdvancedMode := AdvancedMode o; CommonOptions_Domain := CommonOptions_Domain o |}.
Definition set_Username (v : string) (o : InitOptions) : InitOptions :=
  {| Flags := Flags o; Username := v; BatchMode := BatchMode o;
     AdvancedMode := AdvancedMode o; CommonOptions_Domain := CommonOptions_Domain o |}.
Definition set_CommonOptions_Domain (v : string) (o : InitOptions) : InitOptions :=
  {| Flags := Flags o; Username := Username o; BatchMode := BatchMode o;
     AdvancedMode := AdvancedMode o; CommonOptions_Domain := v |}.

(** [opts.InitHelmConfig] *)
Record InitHelmConfig : Type := {
  cfg_Namespace : string;
  cfg_OnlyHelmClient : bool;
  cfg_Helm3 : bool;
  cfg_SkipTiller : bool;
  cfg_GlobalTiller : bool;
  cfg_TillerNamespace : string;
  cfg_TillerRole : string
}.

(** [helm.InstallChartOptions] *)
Record InstallChartOptions : Type := {
  Chart : string;
  ReleaseName : string;
  Version : string;
  Ns : string;
  SetValues : list string;
  ValueFiles : list string;
  HelmUpdate : bool
}.

(** [rbacv1.ClusterRoleBinding], as far as it is filled in *)
Record Subject : Type := {
  subject_APIGroup : string; subject_Kind : string; subject_Name : string
}.
Record RoleRef : Type := {
  roleref_APIGroup : string; roleref_Kind : string; roleref_Name : string
}.
Record ClusterRoleBinding : Type := {
  crb_Name : string;
  crb_Subjects : list Subject;
  crb_RoleRef : RoleRef
}.

Inductive Level : Type := Debug | Info | Warn | Error | Fatal.

(** What the command does to the outside world, one event per call, with
    the arguments of the call. *)
Inductive Event : Type :=
| EvLog (level : Level) (format : string) (args : list Arg)
| EvSleep (d : Duration)
| EvReportFailedAttempt (e : error)
| EvGetCloudProvider (provider : string)
| EvGitUsername
| EvGitEmail
| EvPickValue (message : string)
| EvGitSetUsername (name : string)
| EvGitSetEmail (email : string)
| EvKubeClient
| EvGetClusterUserName
| EvGetClusterRoleBinding (name : string)
| EvCreateClusterRoleBinding (binding : ClusterRoleBinding)
| EvInput (message default : string)
| EvConfirm (message : string) (default : bool)
| EvGetKubeClusterID
| EvGetClusterID
| EvWaitForDeploymentToBeCreatedAndReady (name ns : string) (timeout : Duration)
| EvKubeClientAndNamespace
| EvInitHelm (cfg : InitHelmConfig)
| EvInitBuildPacks
| EvEnsureNamespaceCreated (ns : string) (labels : list (string * string))
| EvDeploymentPodCount (name ns : string)
| EvAppendMyValues (valuesFiles : list string)
| EvTempFile (dir pattern : string)
| EvWriteFile (fileName data : string)
| EvGetVersionNumber (chartName repo gitRef : string)
| EvInstallChartWithOptions (options : InstallChartOptions)
| EvWaitForDeploymentToBeReady (name ns : string) (timeout : Duration)
| EvLoadConfig
| EvWaitForExternalIP (service ns : string) (timeout : Duration)
| EvGetDomain (domain provider ns service externalIP : string).

Abbreviation History := (list Event).

(** The packages the command imports: their constants, their pure helpers,
    and the answers of the calls that reach the cluster, the terminal, git
    or the file system.  A Go call that returns a value and an error
    answers with a pair. *)
Record Env : Type := {
  (* constants of [cloud] and [opts] *)
  cloud_ICP : string;
  cloud_IKS : string;
  cloud_OPENSHIFT : string;
  cloud_ALIBABA : string;
  cloud_AWS : string;
  cloud_EKS : string;
  cloud_OKE : string;
  cloud_GKE : string;
  opts_DefaultIngressServiceName : string;
  (* pure helpers *)
  util_ColorInfo : string → string;
  util_QuestionAnswer : string → string → string;
  util_YesNo : bool → string;
  naming_ToValidName : string → string;
  strings_ToLower : string → string;
  kube_CurrentServer : cmd.Config → string;
  util_UrlHostNameWithoutPort : string → string * goerror;
  Helm_HelmBinary : string;
  (* outside calls *)
  GetCloudProvider : History → string → string * goerror;
  Git_Username : History → string * goerror;
  Git_Email : History → string * goerror;
  util_PickValue : History → string → string * goerror;
  Git_SetUsername : History → string → goerror;
  Git_SetEmail : History → string → goerror;
  KubeClient : History → goerror;
  GetClusterUserName : History → string * goerror;
  ClusterRoleBindings_Get : History → string → goerror;
  ClusterRoleBindings_Create : History → ClusterRoleBinding → goerror;
  survey_Input : History → string → string → string;
  survey_Confirm : History → string → bool * goerror;
  iks_GetKubeClusterID : History → string * goerror;
  iks_GetClusterID : History → string * goerror;
  kube_WaitForDeploymentToBeCreatedAndReady :
    History → string → string → Duration → goerror;
  KubeClientAndNamespace : History → string * goerror;
  InitHelm : History → InitHelmConfig → goerror;
  InitBuildPacks : History → goerror;
  kube_EnsureNamespaceCreated : History → string → goerror;
  kube_DeploymentPodCount : History → string → string → Z * goerror;
  helm_AppendMyValues : History → list string → list string * goerror;
  ioutil_TempFile : History → string * goerror;
  ioutil_WriteFile : History → string → goerror;
  GetVersionNumber : History → string → string * goerror;
  InstallChartWithOptions : History → InstallChartOptions → goerror;
  kube_WaitForDeploymentToBeReady : History → string → string → Duration → goerror;
  Kube_LoadConfig : History → option cmd.Config * goerror;
  services_WaitForExternalIP : History → string → string → Duration → goerror;
  GetDomain : History → string → string → string → string → string → string * goerror
}.

Abbreviation M := (M InitOptions Event).

Definition optionUsername : string := "username".
Definition optionNamespace : string := "namespace".
Definition optionTillerNamespace : string := "tiller-namespace".

Definition log (level : Level) (format : string) (args : list Arg) : M unit :=
  emit (EvLog level format args).

(** [o.Flags.X = v] *)
Definition assign (set : InitFlags → InitFlags) : M unit :=
  modify (λ o, set_Flags (set (Flags o)) o).

(** [if c { m }] without an [else] *)
Definition when (c : bool) (m : M unit) : M unit := if c then m else mret tt.

(** Modelled from the spec: [CommonOptions.Retry] is not among the sources.
    It invokes the operation up to [attempts] times, sleeping [sleep]
    between failures, and returns the first success or the last observed
    error after exhaustion; each failed attempt is reported.  With no
    attempt allowed nothing is invoked and nothing is observed. *)
Fixpoint Retry (attempts : nat) (sleep : Duration) (operation : M goerror) : M goerror :=
  match attempts with
  | O => mret None
  | S remaining =>
      err ← operation;
      match err with
      | None => mret None
      | Some e =>
          emit (EvReportFailedAttempt e);;
          match remaining with
          | O => mret (Some e)
          | S _ => emit (EvSleep sleep);; Retry remaining sleep operation
          end
      end
  end.

Section WithEnv.
Variable env : Env.

(** lines 292-328 *)
Definition checkOptions : M goerror :=
  o ← get;
  when (Helm3 (Flags o))
    (assign (set_SkipTiller true);;
     assign (set_NoTiller true));;
  o ← get;
  err ← (if negb (SkipTiller (Flags o)) then
           let tillerNamespace := TillerNamespace (Flags o) in
           if GlobalTiller (Flags o) then
             if decide (tillerNamespace = "") then
               mret (Some (MissingOption optionTillerNamespace))
             else mret None
           else
             let ns := Namespace (Flags o) in
             r ← (if decide (ns = "") then
                    '(curNs, err) ← call EvKubeClientAndNamespace
                                         (KubeClientAndNamespace env);
                    match err with
                    | Some e => mret (inl e)
                    | None => mret (inr curNs)
                    end
                  else mret (inr ns));
             match r with
             | inl e => mret (Some e)
             | inr ns =>
                 if decide (ns = "") then mret (Some (MissingOption optionNamespace))
                 else assign (set_Namespace ns);; mret None
             end
         else mret None);
  check err;
  o ← get;
  when (SkipIngress (Flags o))
    (when (bool_decide (ExternalIP (Flags o) = ""))
       (log Warn "Expecting ingress controller to be installed in %s"
            [Str (util_ColorInfo env
                    (IngressNamespace (Flags o) +:+ "/" +:+ IngressDeployment (Flags o)))]));;
  mret None.

(** lines 417-472 *)
Definition EnableClusterAdminRole : M goerror :=
  o ← get;
  if SkipClusterRole (Flags o) then mret None
  else
    try call EvKubeClient (KubeClient env);
    err ← (if decide (Username o = "") then
             '(name, err) ← call EvGetClusterUserName (GetClusterUserName env);
             modify (set_Username name);;
             mret err
           else mret None);
    check err;
    o ← get;
    if decide (Username o = "") then mret (Some (MissingOption optionUsername))
    else
      let userFormatted := naming_ToValidName env (Username o) in
      let clusterRoleBindingName :=
        naming_ToValidName env
          (userFormatted +:+ "-" +:+ UserClusterRole (Flags o) +:+ "-binding") in
      let clusterRoleBinding :=
        {| crb_Name := clusterRoleBindingName;
           crb_Subjects :=
             [ {| subject_APIGroup := "rbac.authorization.k8s.io";
                  subject_Kind := "User";
                  subject_Name := Username o |} ];
           crb_RoleRef :=
             {| roleref_APIGroup := "rbac.authorization.k8s.io";
                roleref_Kind := "ClusterRole";
                roleref_Name := UserClusterRole (Flags o) |} |} in
      Retry 3 (10 * time_Second)
        (err ← call (EvGetClusterRoleBinding clusterRoleBindingName)
                    (λ h, ClusterRoleBindings_Get env h clusterRoleBindingName);
         match err with
         | Some e =>
             log Debug "Trying to create ClusterRoleBinding %s for role: %s for user %s\n %v"
                 [Str clusterRoleBindingName; Str (UserClusterRole (Flags o));
                  Str (Username o); ErrArg e];;
             err ← call (EvCreateClusterRoleBinding clusterRoleBinding)
                        (λ h, ClusterRoleBindings_Create env h clusterRoleBinding);
             when (bool_decide (err = None))
               (log Debug "Created ClusterRoleBinding %s" [Str clusterRoleBindingName]);;
             mret err
         | None => mret None
         end).

(** lines 474-488; the error of the prompt is ignored *)
Definition configureOptionsForExternalDNS : M unit :=
  o ← get;
  when (negb (BatchMode o))
    (ExternalDNSDomain ←
       call (EvInput "Provide the domain Jenkins X should be available at:" "")
            (λ h, survey_Input env h
                    "Provide the domain Jenkins X should be available at:" "");
     assign (set_Domain ExternalDNSDomain)).

(** lines 490-555; the errors of the prompts are ignored *)
Definition configureForICP : M unit :=
  let icpDefaultTillerNS := "default" in
  let icpDefaultNS := "jx" in
  log Info "" [];;
  log Info (util_ColorInfo env "IBM Cloud Private installation of Jenkins X") [];;
  log Info ("Configuring Jenkins X options for IBM Cloud Private: ensure your Kubernetes context is already " +:+
            "configured to point to the cluster jx will be installed into.") [];;
  log Info "" [];;
  log Info (util_ColorInfo env "Permitting image repositories to be used") [];;
  log Info ("If you have a clusterimagepolicy, ensure that this policy permits pulling from the following additional repositories: " +:+
            "the scope of which can be narrowed down once you are sure only images from certain repositories are being used:") [];;
  log Info ("- name: docker.io/* \n" +:+
            "- name: gcr.io/* \n" +:+
            "- name: quay.io/* \n" +:+
            "- name: k8s.gcr.io/* \n" +:+
            "- name: <your ICP cluster name>:8500/* ") [];;
  log Info (util_ColorInfo env "IBM Cloud Private defaults") [];;
  log Info ("By default, with IBM Cloud Private the Tiller namespace for jx will be " +:+ dquote +:+
            icpDefaultTillerNS +:+ dquote +:+ " and the namespace " +:+
            "where Jenkins X resources will be installed into is " +:+ dquote +:+
            icpDefaultNS +:+ dquote +:+ ".") [];;
  log Info "" [];;
  log Info (util_ColorInfo env "Using the IBM Cloud Private Docker registry") [];;
  log Info ("To use the IBM Cloud Private Docker registry, when environments (namespaces) are created, " +:+
            "create a Docker registry secret and patch the default service account in the created namespace to use the secret, adding it as an ImagePullSecret. " +:+
            "This is required so that pods in the created namespace can pull images from the registry.") [];;
  log Info "" [];;
  assign (set_IngressNamespace "kube-system");;
  assign (set_IngressDeployment "default-backend");;
  assign (set_IngressService "default-backend");;
  assign (set_TillerNamespace icpDefaultTillerNS);;
  assign (set_Namespace icpDefaultNS);;
  o ← get;
  when (negb (BatchMode o))
    (if decide (ExternalIP (Flags o) ≠ "") then
       log Info "An external IP has already been specified: otherwise you will be prompted for one to use" []
     else
       let askIP := "Provide the external IP Jenkins X should use: typically your IBM Cloud Private proxy node IP address" in
       ICPExternalIP ← call (EvInput askIP "") (λ h, survey_Input env h askIP "");
       assign (set_ExternalIP ICPExternalIP);;
       let askDomain := "Provide the domain Jenkins X should be available at: typically your IBM Cloud Private proxy node IP address but with a domain added to the end" in
       ICPDomain ← call (EvInput askDomain (ICPExternalIP +:+ ".nip.io"))
                        (λ h, survey_Input env h askDomain (ICPExternalIP +:+ ".nip.io"));
       assign (set_Domain ICPDomain)).

(** lines 557-577 *)
Definition initIKSIngress : M goerror :=
  log Info "Wait for Ingress controller to be injected into IBM Kubernetes Service Cluster" [];;
  try call EvKubeClient (KubeClient env);
  o ← get;
  let ingressNamespace := IngressNamespace (Flags o) in
  '(clusterID, err) ← call EvGetKubeClusterID (iks_GetKubeClusterID env);
  r ← (if decide (err ≠ None ∨ clusterID = "") then
         '(clusterID, err) ← call EvGetClusterID (iks_GetClusterID env);
         match err with
         | Some e => mret (inl e)
         | None => mret (inr clusterID)
         end
       else mret (inr clusterID));
  match r with
  | inl e => mret (Some e)
  | inr clusterID =>
      assign (set_IngressDeployment ("public-cr" +:+ strings_ToLower env clusterID +:+ "-alb1"));;
      assign (set_IngressService ("public-cr" +:+ strings_ToLower env clusterID +:+ "-alb1"));;
      o ← get;
      call (EvWaitForDeploymentToBeCreatedAndReady
              (IngressDeployment (Flags o)) ingressNamespace (30 * time_Minute))
           (λ h, kube_WaitForDeploymentToBeCreatedAndReady env h
                   (IngressDeployment (Flags o)) ingressNamespace (30 * time_Minute))
  end.

(** lines 756-794; the errors of the two reads are ignored *)
Definition ValidateGit : M goerror :=
  '(userName, _) ← call EvGitUsername (Git_Username env);
  '(userEmail, _) ← call EvGitEmail (Git_Email env);
  o ← get;
  r ← (if decide (userName = "") then
         let ask := "Please enter the name you wish to use with git: " in
         '(userName, err) ←
           (if negb (BatchMode o) then call (EvPickValue ask) (λ h, util_PickValue env h ask)
            else mret (userName, None));
         match err with
         | Some e => mret (inl e)
         | None =>
             if decide (userName = "") then
               mret (inl (Errorf ("No Git user.name is defined. Please run the command: git config --global --add user.name " +:+ dquote +:+ "MyName" +:+ dquote) []))
             else
               err ← call (EvGitSetUsername userName) (λ h, Git_SetUsername env h userName);
               match err with
               | Some e => mret (inl e)
               | None => mret (inr userName)
               end
         end
       else mret (inr userName));
  match r with
  | inl e => mret (Some e)
  | inr userName =>
      r ← (if decide (userEmail = "") then
             let ask := "Please enter the email address you wish to use with git: " in
             '(userEmail, err) ←
               (if negb (BatchMode o) then call (EvPickValue ask) (λ h, util_PickValue env h ask)
                else mret (userEmail, None));
             match err with
             | Some e => mret (inl e)
             | None =>
                 if decide (userEmail = "") then
                   mret (inl (Errorf ("No Git user.email is defined. Please run the command: git config --global --add user.email " +:+ dquote +:+ "me@acme.com" +:+ dquote) []))
                 else
                   err ← call (EvGitSetEmail userEmail) (λ h, Git_SetEmail env h userEmail);
                   match err with
                   | Some e => mret (inl e)
                   | None => mret (inr userEmail)
                   end
             end
           else mret (inr userEmail));
      match r with
      | inl e => mret (Some e)
      | inr userEmail =>
          log Info "Git configured for user: %s and email %s"
              [Str (util_ColorInfo env userName); Str (util_ColorInfo env userEmail)];;
          mret None
      end
  end.

(** lines 808-815 *)
Definition isOpenShiftProvider (provider : string) : bool :=
  if decide (provider = cloud_OPENSHIFT env) then true else false.

(** lines 702-753: the external IP and the domain *)
Definition InitIngress_resolve (ingressNamespace : string) : M goerror :=
  o ← get;
  if decide (Provider (Flags o) ≠ cloud_OPENSHIFT env) then
    when (bool_decide (Provider (Flags o) = cloud_OKE env))
      (log Info "Note: this loadbalancer will fail to be provisioned if you have insufficient quotas, this can happen easily on a OCI free account" []);;
    when (bool_decide (Provider (Flags o) = cloud_GKE env))
      (log Info "Note: this loadbalancer will fail to be provisioned if you have insufficient quotas, this can happen easily on a GKE free account.\nTo view quotas run: %s"
           [Str (util_ColorInfo env "gcloud compute project-info describe")]);;
    log Info "Waiting for external loadbalancer to be created and update the nginx-ingress-controller service in %s namespace"
        [Str ingressNamespace];;
    let externalIP := ExternalIP (Flags o) in
    r ← (if decide (externalIP = "" ∧ OnPremise (Flags o) = true) then
           '(config, err) ← call EvLoadConfig (Kube_LoadConfig env);
           match err with
           | Some e => mret (inl e)
           | None =>
               match config with
               | None => mret (inl (Errorf "empty kubernetes config" []))
               | Some config =>
                   let host := kube_CurrentServer env config in
                   if decide (host = "") then
                     log Warn "No API server host is defined in the local kube config!" [];;
                     mret (inr externalIP)
                   else
                     let '(externalIP, err) := util_UrlHostNameWithoutPort env host in
                     match err with
                     | Some e =>
                         mret (inl (Errorf "Could not parse Kubernetes master URI: %s as got: %s\nTry specifying the external IP address directly via: --external-ip"
                                           [Str host; ErrArg e]))
                     | None => mret (inr externalIP)
                     end
               end
           end
         else mret (inr externalIP));
    match r with
    | inl e => mret (Some e)
    | inr externalIP =>
        err ← (if decide (externalIP = "") then
                 err ← call (EvWaitForExternalIP (IngressService (Flags o)) ingressNamespace
                                                 (10 * time_Minute))
                            (λ h, services_WaitForExternalIP env h (IngressService (Flags o))
                                    ingressNamespace (10 * time_Minute));
                 check err;
                 log Info "External loadbalancer created" [];;
                 mret None
               else
                 log Info "Using external IP: %s" [Str (util_ColorInfo env externalIP)];;
                 mret None);
        check err;
        '(domain, err) ←
          call (EvGetDomain (Domain (Flags o)) (Provider (Flags o)) ingressNamespace
                            (IngressService (Flags o)) externalIP)
               (λ h, GetDomain env h (Domain (Flags o)) (Provider (Flags o)) ingressNamespace
                       (IngressService (Flags o)) externalIP);
        assign (set_Domain domain);;
        modify (λ o, set_CommonOptions_Domain (Domain (Flags o)) o);;
        check err;
        log Info "nginx ingress controller installed and configured" [];;
        mret None
    end
  else
    log Info "nginx ingress controller installed and configured" [];;
    mret None.

Definition ingress_values_yaml : string :=
  "---\nrbac:\n create: true\n\ncontroller:\n service:\n   annotations:\n     service.beta.kubernetes.io/aws-load-balancer-type: nlb\n   enableHttp: true\n   enableHttps: true\n".

(** lines 669-692: one turn of the install loop, [i] being the counter *)
Definition InitIngress_install_body (ingressNamespace version : string)
    (values valuesFiles : list string) (i : Z) : M (Z + unit) :=
  let chartName := "stable/nginx-ingress" in
  log Debug "Installing using helm binary: %s" [Str (util_ColorInfo env (Helm_HelmBinary env))];;
  let helmOptions :=
    {| Chart := chartName;
       ReleaseName := "jxing";
       Version := version;
       Ns := ingressNamespace;
       SetValues := values;
       ValueFiles := valuesFiles;
       HelmUpdate := true |} in
  err ← call (EvInstallChartWithOptions helmOptions)
             (λ h, InstallChartWithOptions env h helmOptions);
  match err with
  | Some e =>
      if decide (i >= 3) then
        log Error "Failed to install ingress chart: %s" [ErrArg e];;
        mret (inr tt)
      else
        emit (EvSleep time_Second);;
        mret (inl (i + 1))
  | None => mret (inr tt)
  end.

(** lines 669-697: the install loop and the wait for the deployment; [next]
    is the rest of the function after the [if] *)
Definition InitIngress_install_chart (fuel : nat) (ingressNamespace version : string)
    (values valuesFiles : list string) (next : M goerror) : M goerror :=
  loop fuel (InitIngress_install_body ingressNamespace version values valuesFiles) 0;;
  o ← get;
  try call (EvWaitForDeploymentToBeReady (IngressDeployment (Flags o))
                                         ingressNamespace (10 * time_Minute))
           (λ h, kube_WaitForDeploymentToBeReady env h (IngressDeployment (Flags o))
                   ingressNamespace (10 * time_Minute));
  next.

(** lines 608-668, then the install: no pod of the ingress deployment was
    counted *)
Definition InitIngress_install (fuel : nat) (ingressNamespace : string)
    (next : M goerror) : M goerror :=
  o ← get;
  '(installIngressController, err) ←
    (if BatchMode o then mret (true, None)
     else if AdvancedMode o then
       let message := "No existing ingress controller found in the " +:+ ingressNamespace +:+
                      " namespace, shall we install one?" in
       call (EvConfirm message true) (λ h, survey_Confirm env h message)
     else
       log Info (util_QuestionAnswer env
                   "No existing ingress controller found in the %s namespace, installing one"
                   (util_YesNo env true))
           [Str ingressNamespace];;
       mret (true, None));
  check err;
  if negb installIngressController then mret None
  else
    let values := ["rbac.create=true";
                   "controller.extraArgs.publish-service=" +:+ ingressNamespace +:+ "/" +:+
                     opts_DefaultIngressServiceName env] in
    '(valuesFiles, err) ← call (EvAppendMyValues []) (λ h, helm_AppendMyValues env h []);
    match err with
    | Some e => mret (Some (Wrap e "failed to append the myvalues file"))
    | None =>
        r ← (if decide (Provider (Flags o) = cloud_AWS env ∨ Provider (Flags o) = cloud_EKS env) then
               '(fileName, err) ← call (EvTempFile "" "ing-values-") (ioutil_TempFile env);
               match err with
               | Some e => mret (inl e)
               | None =>
                   err ← call (EvWriteFile fileName ingress_values_yaml)
                              (λ h, ioutil_WriteFile env h fileName);
                   match err with
                   | Some e => mret (inl e)
                   | None =>
                       log Info "Using helm values file: %s" [Str fileName];;
                       mret (inr (valuesFiles ++ [fileName]))
                   end
               end
             else mret (inr valuesFiles));
        match r with
        | inl e => mret (Some e)
        | inr valuesFiles =>
            let chartName := "stable/nginx-ingress" in
            '(version, err) ←
              call (EvGetVersionNumber chartName (VersionsRepository (Flags o))
                                       (VersionsGitRef (Flags o)))
                   (λ h, GetVersionNumber env h chartName);
            match err with
            | Some e => mret (Some (Wrap e ("failed to load version of chart " +:+ chartName)))
            | None =>
                InitIngress_install_chart fuel ingressNamespace version values valuesFiles next
            end
        end
    end.

(** lines 579-754; [fuel] bounds the turns of the install loop *)
Definition InitIngress (fuel : nat) : M goerror :=
  try call EvKubeClient (KubeClient env);
  o ← get;
  let ingressNamespace := IngressNamespace (Flags o) in
  err ← call (EvEnsureNamespaceCreated ingressNamespace [("jenkins.io/kind", "ingress")])
             (λ h, kube_EnsureNamespaceCreated env h ingressNamespace);
  match err with
  | Some e =>
      mret (Some (Errorf "Failed to ensure the ingress namespace %s is created: %s\nIs this an RBAC issue on your cluster?"
                         [Str ingressNamespace; ErrArg e]))
  | None =>
      if isOpenShiftProvider (Provider (Flags o)) then
        log Info "Not installing ingress as using OpenShift which uses Route and its own mechanism of ingress" [];;
        mret None
      else
        when (bool_decide (Provider (Flags o) = cloud_ALIBABA env))
          (when (bool_decide (IngressDeployment (Flags o) = opts_DefaultIngressServiceName env))
             (assign (set_IngressDeployment "nginx-ingress-controller"));;
           when (bool_decide (IngressService (Flags o) = opts_DefaultIngressServiceName env))
             (assign (set_IngressService "nginx-ingress-lb")));;
        o ← get;
        '(podCount, err) ←
          call (EvDeploymentPodCount (IngressDeployment (Flags o)) ingressNamespace)
               (λ h, kube_DeploymentPodCount env h (IngressDeployment (Flags o)) ingressNamespace);
        if decide (podCount = 0) then
          InitIngress_install fuel ingressNamespace (InitIngress_resolve ingressNamespace)
        else
          log Info "existing ingress controller found, no need to install a new one" [];;
          InitIngress_resolve ingressNamespace
  end.

(** lines 333-337: tiller is not used when it does not run remotely or
    when [--no-tiller] is given *)
Definition Run_normalize : M unit :=
  o ← get;
  when (negb (RemoteTiller (Flags o)) || NoTiller (Flags o))
    (assign (set_HelmClient true);;
     assign (set_SkipTiller true);;
     assign (set_GlobalTiller false)).

(** lines 331-415.  [Fatalf] logs and ends the process; the model ends the
    run there with the error of the [return] that follows it. *)
Definition Run (fuel : nat) : M goerror :=
  Run_normalize;;
  o ← get;
  '(provider, err) ← call (EvGetCloudProvider (Provider (Flags o)))
                          (λ h, GetCloudProvider env h (Provider (Flags o)));
  assign (set_Provider provider);;
  check err;
  o ← get;
  try (if negb (NoGitValidate (Flags o)) then ValidateGit else mret None);
  try EnableClusterAdminRole;
  o ← get;
  when (bool_decide (Provider (Flags o) = cloud_ICP env)) configureForICP;;
  o ← get;
  try (if decide (Provider (Flags o) = cloud_IKS env) then initIKSIngress else mret None);
  try checkOptions;
  o ← get;
  let cfg :=
    {| cfg_Namespace := Namespace (Flags o);
       cfg_OnlyHelmClient := HelmClient (Flags o);
       cfg_Helm3 := Helm3 (Flags o);
       cfg_SkipTiller := SkipTiller (Flags o);
       cfg_GlobalTiller := GlobalTiller (Flags o);
       cfg_TillerNamespace := TillerNamespace (Flags o);
       cfg_TillerRole := TillerClusterRole (Flags o) |} in
  err ← Retry 3 (2 * time_Second) (call (EvInitHelm cfg) (λ h, InitHelm env h cfg));
  match err with
  | Some e => log Fatal "helm init failed: %v" [ErrArg e];; mret (Some e)
  | None =>
      err ← call EvInitBuildPacks (InitBuildPacks env);
      match err with
      | Some e => log Fatal "initialise build packs failed: %v" [ErrArg e];; mret (Some e)
      | None =>
          when (ExternalDNS (Flags o)) configureOptionsForExternalDNS;;
          o ← get;
          if negb (SkipIngress (Flags o)) then
            err ← InitIngress fuel;
            match err with
            | Some e => log Fatal "ingress init failed: %v" [ErrArg e];; mret (Some e)
            | None => mret None
            end
          else mret None
      end
  end.

End WithEnv.

(** ** Observations on the events *)

Definition is_InstallChart (e : Event) : bool :=
  match e with EvInstallChartWithOptions _ => true | _ => false end.
Definition is_Sleep (e : Event) : bool :=
  match e with EvSleep _ => true | _ => false end.
Definition is_WaitForDeploymentToBeReady (e : Event) : bool :=
  match e with EvWaitForDeploymentToBeReady _ _ _ => true | _ => false end.
Definition is_WaitForExternalIP (e : Event) : bool :=
  match e with EvWaitForExternalIP _ _ _ => true | _ => false end.
Definition is_GetDomain (e : Event) : bool :=
  match e with EvGetDomain _ _ _ _ _ => true | _ => false end.
Definition is_DeploymentPodCount (e : Event) : bool :=
  match e with EvDeploymentPodCount _ _ => true | _ => false end.
Definition is_GetClusterRoleBinding (e : Event) : bool :=
  match e with EvGetClusterRoleBinding _ => true | _ => false end.
Definition is_CreateClusterRoleBinding (e : Event) : bool :=
  match e with EvCreateClusterRoleBinding _ => true | _ => false end.

(** How many of the events satisfy [p]. *)
Definition count (p : Event → bool) (evs : list Event) : nat :=
  length (List.filter p evs).

(** Every pause among the events lasts [d]. *)
Definition sleeps_only (d : Duration) (evs : list Event) : bool :=
  forallb (λ e, match e with EvSleep d' => bool_decide (d' = d) | _ => true end) evs.

(** What one attempt at the cluster role binding looks like from outside:
    one get, at most one create, no pause. *)
Definition one_attempt (r : Out InitOptions Event goerror) : Prop :=
  count is_GetClusterRoleBinding (emitted r) = 1%nat ∧
  (count is_CreateClusterRoleBinding (emitted r) ≤ 1)%nat ∧
  count is_Sleep (emitted r) = 0%nat ∧
  ∀ d, sleeps_only d (emitted r) = true.

(** The line that reports that the install of the ingress chart was given up. *)
Definition install_given_up (e : error) : Event :=
  EvLog Error "Failed to install ingress chart: %s" [ErrArg e].

(** The same environment, with another answer of [kube.DeploymentPodCount]. *)
Definition set_kube_DeploymentPodCount (v : History → string → string → Z * goerror)
    (env : Env) : Env :=
  {| cloud_ICP := cloud_ICP env; cloud_IKS := cloud_IKS env; cloud_OPENSHIFT :=
     cloud_OPENSHIFT env; cloud_ALIBABA := cloud_ALIBABA env; cloud_AWS := cloud_AWS env;
     cloud_EKS := cloud_EKS env; cloud_OKE := cloud_OKE env; cloud_GKE := cloud_GKE env;
     opts_DefaultIngressServiceName := opts_DefaultIngressServiceName env; util_ColorInfo
     := util_ColorInfo env; util_QuestionAnswer := util_QuestionAnswer env; util_YesNo :=
     util_YesNo env; naming_ToValidName := naming_ToValidName env; strings_ToLower :=
     strings_ToLower env; kube_CurrentServer := kube_CurrentServer env;
     util_UrlHostNameWithoutPort := util_UrlHostNameWithoutPort env; Helm_HelmBinary :=
     Helm_HelmBinary env; GetCloudProvider := GetCloudProvider env; Git_Username :=
     Git_Username env; Git_Email := Git_Email env; util_PickValue := util_PickValue env;
     Git_SetUsername := Git_SetUsername env; Git_SetEmail := Git_SetEmail env; KubeClient
     := KubeClient env; GetClusterUserName := GetClusterUserName env;
     ClusterRoleBindings_Get := ClusterRoleBindings_Get env; ClusterRoleBindings_Create :=
     ClusterRoleBindings_Create env; survey_Input := survey_Input env; survey_Confirm :=
     survey_Confirm env; iks_GetKubeClusterID := iks_GetKubeClusterID env;
     iks_GetClusterID := iks_GetClusterID env; kube_WaitForDeploymentToBeCreatedAndReady
     := kube_WaitForDeploymentToBeCreatedAndReady env; KubeClientAndNamespace :=
     KubeClientAndNamespace env; InitHelm := InitHelm env; InitBuildPacks :=
     InitBuildPacks env; kube_EnsureNamespaceCreated := kube_EnsureNamespaceCreated env;
     kube_DeploymentPodCount := v; helm_AppendMyValues := helm_AppendMyValues env;
     ioutil_TempFile := ioutil_TempFile env; ioutil_WriteFile := ioutil_WriteFile env;
     GetVersionNumber := GetVersionNumber env; InstallChartWithOptions :=
     InstallChartWithOptions env; kube_WaitForDeploymentToBeReady :=
     kube_WaitForDeploymentToBeReady env; Kube_LoadConfig := Kube_LoadConfig env;
     services_WaitForExternalIP := services_WaitForExternalIP env; GetDomain := GetDomain
     env |}.

(** The environment in which the error of [kube.DeploymentPodCount] is
    always nil and everything else is as in [env]. *)
Definition forget_DeploymentPodCount_error (env : Env) : Env :=
  set_kube_DeploymentPodCount
    (λ h name ns, (fst (kube_DeploymentPodCount env h name ns), None)) env.

(** ** The tiller flags *)

(** The flags that decide how tiller is used. *)
Definition tiller_flags (o : InitOptions) : bool * bool * bool :=
  (SkipTiller (Flags o), GlobalTiller (Flags o), Helm3 (Flags o)).

(** A property of the options that looks at the tiller flags only. *)
Definition on_tiller_flags (I : InitOptions → Prop) : Prop :=
  ∀ o o', tiller_flags o = tiller_flags o' → I o → I o'.

(** Every configuration handed to [InitHelm] satisfies [P]. *)
Definition helm_configs (P : InitHelmConfig → Prop) (e : Event) : Prop :=
  match e with
  | EvInitHelm cfg => P cfg
  | _ => True
  end.

(** Tiller is skipped and is not global. *)
Definition tiller_off (o : InitOptions) : Prop :=
  SkipTiller (Flags o) = true ∧ GlobalTiller (Flags o) = false.
Definition cfg_tiller_off (cfg : InitHelmConfig) : Prop :=
  cfg_SkipTiller cfg = true ∧ cfg_GlobalTiller cfg = false.

(** ** Example inputs *)

(** A cluster on which every call succeeds, apart from the four answers
    given as arguments: the pod count of the ingress deployment, the
    install of the ingress chart, and the get and the create of the
    cluster role binding. *)
Definition example_env (pods : Z * goerror) (install get create : goerror) : Env :=
  {| cloud_ICP := "icp"; cloud_IKS := "iks"; cloud_OPENSHIFT := "openshift";
     cloud_ALIBABA := "alibaba"; cloud_AWS := "aws"; cloud_EKS := "eks";
     cloud_OKE := "oke"; cloud_GKE := "gke";
     opts_DefaultIngressServiceName := "jxing-nginx-ingress-controller";
     util_ColorInfo := λ s, s;
     util_QuestionAnswer := λ q a, q +:+ " " +:+ a;
     util_YesNo := λ b, if b then "Yes" else "No";
     naming_ToValidName := λ s, s;
     strings_ToLower := λ s, s;
     kube_CurrentServer := λ _, "https://10.0.0.1:6443";
     util_UrlHostNameWithoutPort := λ _, ("10.0.0.1", None);
     Helm_HelmBinary := "helm";
     GetCloudProvider := λ _ provider, (provider, None);
     Git_Username := λ _, ("jane", None);
     Git_Email := λ _, ("jane@example.com", None);
     util_PickValue := λ _ _, ("", None);
     Git_SetUsername := λ _ _, None;
     Git_SetEmail := λ _ _, None;
     KubeClient := λ _, None;
     GetClusterUserName := λ _, ("jane", None);
     ClusterRoleBindings_Get := λ _ _, get;
     ClusterRoleBindings_Create := λ _ _, create;
     survey_Input := λ _ _ default, default;
     survey_Confirm := λ _ _, (true, None);
     iks_GetKubeClusterID := λ _, ("c1", None);
     iks_GetClusterID := λ _, ("c1", None);
     kube_WaitForDeploymentToBeCreatedAndReady := λ _ _ _ _, None;
     KubeClientAndNamespace := λ _, ("jx", None);
     InitHelm := λ _ _, None;
     InitBuildPacks := λ _, None;
     kube_EnsureNamespaceCreated := λ _ _, None;
     kube_DeploymentPodCount := λ _ _ _, pods;
     helm_AppendMyValues := λ _ valuesFiles, (valuesFiles, None);
     ioutil_TempFile := λ _, ("/tmp/ing-values-1", None);
     ioutil_WriteFile := λ _ _, None;
     GetVersionNumber := λ _ _, ("1.0.0", None);
     InstallChartWithOptions := λ _ _, install;
     kube_WaitForDeploymentToBeReady := λ _ _ _ _, None;
     Kube_LoadConfig := λ _, (None, None);
     services_WaitForExternalIP := λ _ _ _ _, None;
     GetDomain := λ _ _ _ _ _ externalIP, (externalIP +:+ ".nip.io", None) |}.

(** The flags of [jx init --provider gke] with the defaults of the
    command line left in place, apart from the tiller and helm flags, the
    tiller namespace and the external IP given as arguments. *)
Definition example_flags (provider tillerNamespace externalIP : string)
    (helm3 noTiller remoteTiller globalTiller skipTiller : bool) : InitFlags :=
  {| Domain := ""; Provider := provider; Namespace := "jx";
     UserClusterRole := "cluster-admin"; TillerClusterRole := "cluster-admin";
     IngressClusterRole := "cluster-admin"; TillerNamespace := tillerNamespace;
     IngressNamespace := "kube-system";
     IngressService := "jxing-nginx-ingress-controller";
     IngressDeployment := "jxing-nginx-ingress-controller";
     ExternalIP := externalIP; VersionsRepository := ""; VersionsGitRef := "";
     DraftClient := false; HelmClient := false; Helm3 := helm3; HelmBin := "";
     RecreateExistingDraftRepos := false; NoTiller := noTiller;
     RemoteTiller := remoteTiller; GlobalTiller := globalTiller; SkipIngress := false;
     SkipTiller := skipTiller; SkipClusterRole := false; OnPremise := false;
     Http := false; NoGitValidate := false; ExternalDNS := false |}.

(** A batch-mode run with these flags. *)
Definition example_options (flags : InitFlags) : InitOptions :=
  {| Flags := flags; Username := "jane"; BatchMode := true; AdvancedMode := false;
     CommonOptions_Domain := "" |}.

(** The same environment, with another answer of [Kube().LoadConfig]. *)
Definition set_Kube_LoadConfig (v : History → option cmd.Config * goerror)
    (env : Env) : Env :=
  {| cloud_ICP := cloud_ICP env; cloud_IKS := cloud_IKS env; cloud_OPENSHIFT :=
     cloud_OPENSHIFT env; cloud_ALIBABA := cloud_ALIBABA env; cloud_AWS := cloud_AWS env;
     cloud_EKS := cloud_EKS env; cloud_OKE := cloud_OKE env; cloud_GKE := cloud_GKE env;
     opts_DefaultIngressServiceName := opts_DefaultIngressServiceName env; util_ColorInfo
     := util_ColorInfo env; util_QuestionAnswer := util_QuestionAnswer env; util_YesNo :=
     util_YesNo env; naming_ToValidName := naming_ToValidName env; strings_ToLower :=
     strings_ToLower env; kube_CurrentServer := kube_CurrentServer env;
     util_UrlHostNameWithoutPort := util_UrlHostNameWithoutPort env; Helm_HelmBinary :=
     Helm_HelmBinary env; GetCloudProvider := GetCloudProvider env; Git_Username :=
     Git_Username env; Git_Email := Git_Email env; util_PickValue := util_PickValue env;
     Git_SetUsername := Git_SetUsername env; Git_SetEmail := Git_SetEmail env; KubeClient
     := KubeClient env; GetClusterUserName := GetClusterUserName env;
     ClusterRoleBindings_Get := ClusterRoleBindings_Get env; ClusterRoleBindings_Create :=
     ClusterRoleBindings_Create env; survey_Input := survey_Input env; survey_Confirm :=
     survey_Confirm env; iks_GetKubeClusterID := iks_GetKubeClusterID env;
     iks_GetClusterID := iks_GetClusterID env; kube_WaitForDeploymentToBeCreatedAndReady
     := kube_WaitForDeploymentToBeCreatedAndReady env; KubeClientAndNamespace :=
     KubeClientAndNamespace env; InitHelm := InitHelm env; InitBuildPacks :=
     InitBuildPacks env; kube_EnsureNamespaceCreated := kube_EnsureNamespaceCreated env;
     kube_DeploymentPodCount := kube_DeploymentPodCount env; helm_AppendMyValues := helm_AppendMyValues env;
     ioutil_TempFile := ioutil_TempFile env; ioutil_WriteFile := ioutil_WriteFile env;
     GetVersionNumber := GetVersionNumber env; InstallChartWithOptions :=
     InstallChartWithOptions env; kube_WaitForDeploymentToBeReady :=
     kube_WaitForDeploymentToBeReady env; Kube_LoadConfig := v;
     services_WaitForExternalIP := services_WaitForExternalIP env; GetDomain := GetDomain
     env |}.

(** A cluster on premise: the local kube configuration loads, and the host
    of its API server is [10.0.0.1]. *)
Definition example_env_on_premise : Env :=
  set_Kube_LoadConfig
    (λ _, (Some {| cmd.Contexts := ∅; cmd.CurrentContext := ""; cmd.Clusters := ∅ |}, None))
    (example_env (1, None) None None None).

(** The flags of [jx init --provider kubernetes --on-premise]. *)
Definition example_flags_on_premise : InitFlags :=
  {| Domain := ""; Provider := "kubernetes"; Namespace := "jx";
     UserClusterRole := "cluster-admin"; TillerClusterRole := "cluster-admin";
     IngressClusterRole := "cluster-admin"; TillerNamespace := "kube-system";
     IngressNamespace := "kube-system";
     IngressService := "jxing-nginx-ingress-controller";
     IngressDeployment := "jxing-nginx-ingress-controller";
     ExternalIP := ""; VersionsRepository := ""; VersionsGitRef := "";
     DraftClient := false; HelmClient := false; Helm3 := false; HelmBin := "";
     RecreateExistingDraftRepos := false; NoTiller := true;
     RemoteTiller := true; GlobalTiller := true; SkipIngress := false;
     SkipTiller := false; SkipClusterRole := false; OnPremise := true;
     Http := false; NoGitValidate := false; ExternalDNS := false |}.

(** The flags of [jx init --skip-ingress --no-git-validate --skip-cluster-role]. *)
Definition example_flags_skipping : InitFlags :=
  {| Domain := ""; Provider := "gke"; Namespace := "jx";
     UserClusterRole := "cluster-admin"; TillerClusterRole := "cluster-admin";
     IngressClusterRole := "cluster-admin"; TillerNamespace := "kube-system";
     IngressNamespace := "kube-system";
     IngressService := "jxing-nginx-ingress-controller";
     IngressDeployment := "jxing-nginx-ingress-controller";
     ExternalIP := ""; VersionsRepository := ""; VersionsGitRef := "";
     DraftClient := false; HelmClient := false; Helm3 := false; HelmBin := "";
     RecreateExistingDraftRepos := false; NoTiller := true;
     RemoteTiller := true; GlobalTiller := true; SkipIngress := true;
     SkipTiller := false; SkipClusterRole := true; OnPremise := false;
     Http := false; NoGitValidate := true; ExternalDNS := false |}.

(** lines 435-471: the name of the binding, the binding, and the operation
    that [EnableClusterAdminRole] hands to [Retry], for the options [o] *)
Definition clusterRoleBindingName (env : Env) (o : InitOptions) : string :=
  naming_ToValidName env
    (naming_ToValidName env (Username o) +:+ "-" +:+ UserClusterRole (Flags o) +:+ "-binding").

Definition clusterRoleBinding (env : Env) (o : InitOptions) : ClusterRoleBinding :=
  {| crb_Name := clusterRoleBindingName env o;
     crb_Subjects :=
       [ {| subject_APIGroup := "rbac.authorization.k8s.io";
            subject_Kind := "User";
            subject_Name := Username o |} ];
     crb_RoleRef :=
       {| roleref_APIGroup := "rbac.authorization.k8s.io";
          roleref_Kind := "ClusterRole";
          roleref_Name := UserClusterRole (Flags o) |} |}.

Definition EnableClusterAdminRole_attempt (env : Env) (o : InitOptions) : M goerror :=
  err ← call (EvGetClusterRoleBinding (clusterRoleBindingName env o))
             (λ h, ClusterRoleBindings_Get env h (clusterRoleBindingName env o));
  match err with
  | Some e =>
      log Debug "Trying to create ClusterRoleBinding %s for role: %s for user %s\n %v"
          [Str (clusterRoleBindingName env o); Str (UserClusterRole (Flags o));
           Str (Username o); ErrArg e];;
      err ← call (EvCreateClusterRoleBinding (clusterRoleBinding env o))
                 (λ h, ClusterRoleBindings_Create env h (clusterRoleBinding env o));
      when (bool_decide (err = None))
        (log Debug "Created ClusterRoleBinding %s" [Str (clusterRoleBindingName env o)]);;
      mret err
  | None => mret None
  end.

(** lines 417-434: what [EnableClusterAdminRole] does before the retries;
    [inr o] are the options with which the binding is looked up *)
Definition EnableClusterAdminRole_user (env : Env) : M (goerror + InitOptions) :=
  o ← get;
  if SkipClusterRole (Flags o) then mret (inl None)
  else
    err ← call EvKubeClient (KubeClient env);
    match err with
    | Some e => mret (inl (Some e))
    | None =>
        err ← (if decide (Username o = "") then
                 '(name, err) ← call EvGetClusterUserName (GetClusterUserName env);
                 modify (set_Username name);;
                 mret err
               else mret None);
        match err with
        | Some e => mret (inl (Some e))
        | None =>
            o ← get;
            if decide (Username o = "") then mret (inl (Some (MissingOption optionUsername)))
            else mret (inr o)
        end
    end.

End initcmd.

(** ** The vocabulary of the properties of the ingress provisioning *)

Section InitInstallRun.
Import initcmd.

(** The events of the install loop.  [attempt] is what one turn emits up to
    and including the install; [install_run attempt retries evs given_up]:
    the loop, with [retries] further attempts allowed, emits [evs], and
    ends either with a successful install ([given_up = None]) or, all
    attempts used up, with the report of the last error. *)
Inductive install_run (attempt : list Event) : nat → list Event → option error → Prop :=
| install_run_ok retries :
    install_run attempt retries attempt None
| install_run_given_up e :
    install_run attempt 0 (attempt ++ [install_given_up e]) (Some e)
| install_run_retry retries evs given_up :
    install_run attempt retries evs given_up →
    install_run attempt (S retries) (attempt ++ [EvSleep time_Second] ++ evs) given_up.

(** The two events of one turn of the install loop. *)
Definition install_attempt (env : Env) (options : InstallChartOptions) : list Event :=
  [EvLog Debug "Installing using helm binary: %s" [Str (util_ColorInfo env (Helm_HelmBinary env))];
   EvInstallChartWithOptions options].

(** The options of the install of the ingress chart. *)
Definition ingress_chart_options (ingressNamespace version : string)
    (values valuesFiles : list string) : InstallChartOptions :=
  {| Chart := "stable/nginx-ingress";
     ReleaseName := "jxing";
     Version := version;
     Ns := ingressNamespace;
     SetValues := values;
     ValueFiles := valuesFiles;
     HelmUpdate := true |}.

(** A report of an error. *)
Definition is_Error_log (e : Event) : bool :=
  match e with EvLog Error _ _ => true | _ => false end.

(** The events that only the install loop emits. *)
Definition is_install_event (e : Event) : bool :=
  is_InstallChart e || is_Sleep e || is_Error_log e.

(** The events that only the resolution of the external IP and of the
    domain emits. *)
Definition is_resolve_event (e : Event) : bool :=
  is_WaitForExternalIP e || is_GetDomain e.

(** The events of the detection of the ingress controller and of the
    preparation of its install. *)
Definition is_controller_event (e : Event) : bool :=
  match e with
  | EvKubeClient | EvEnsureNamespaceCreated _ _ | EvDeploymentPodCount _ _
  | EvConfirm _ _ | EvAppendMyValues _ | EvTempFile _ _ | EvWriteFile _ _
  | EvGetVersionNumber _ _ _ | EvLog Info _ _ => true
  | _ => false
  end.

(** The options [o'] are the options [o], but for the names of the ingress
    deployment and service. *)
Definition keeps_but_ingress_names (o o' : InitOptions) : Prop :=
  ExternalIP (Flags o') = ExternalIP (Flags o) ∧
  Provider (Flags o') = Provider (Flags o) ∧
  Domain (Flags o') = Domain (Flags o) ∧
  OnPremise (Flags o') = OnPremise (Flags o) ∧
  IngressNamespace (Flags o') = IngressNamespace (Flags o).

(** None of the events satisfies [p]. *)
Definition none (p : Event → bool) (evs : list Event) : bool :=
  forallb (λ e, negb (p e)) evs.
End InitInstallRun.

(** [total m]: the computation [m] always yields a value. *)
Definition total {St Ev A} (m : M St Ev A) : Prop :=
  ∀ h s, is_Some (value (m h s)).


(** ** The vocabulary of the properties of the context switcher *)

Section ContextVocabulary.
Import cmd.

(** The text [sub] occurs in [s]. *)
Definition contains (s sub : string) : Prop := ∃ pre post, s = pre +:+ sub +:+ post.

(** The contexts that [Run] offers: a name that is not empty, bound to a
    context that is not nil, and in which the filter occurs. *)
Definition offered (filter : string) (contexts : gmap string (option Context))
    (name : string) : Prop :=
  name ≠ "" ∧ (∃ ctx, contexts !! name = Some (Some ctx)) ∧ contains name filter.

(** The names that one visit of the entries collects. *)
Definition collected (filter : string) (entry : string * option Context) : option string :=
  if decide (entry.1 ≠ "" ∧ entry.2 ≠ None) then
    if decide (filter = "" ∨ strings_Index entry.1 filter >= 0) then Some entry.1 else None
  else None.

(** How many times the configuration is written, and how many times the
    operator is asked. *)
Definition is_ModifyConfig (e : Event) : bool :=
  match e with EvModifyConfig _ => true | _ => false end.
Definition is_Select (e : Event) : bool :=
  match e with EvSelect _ _ _ => true | _ => false end.
Definition writes (evs : list Event) : nat := length (List.filter is_ModifyConfig evs).
Definition prompts (evs : list Event) : nat := length (List.filter is_Select evs).

(** The two lines that [Run] prints. *)
Definition line_using (env : Env) (config : Config) : Event :=
  EvFprintf "Using namespace '%s' from context named '%s' on server '%s'.\n"
    [util_ColorInfo env (kube_CurrentNamespace env config);
     util_ColorInfo env (CurrentContext config);
     util_ColorInfo env (kube_CurrentServer env config)].
Definition line_now_using (env : Env) (config : Config) (ctxName : string) (ctx : Context)
    : Event :=
  EvFprintf "Now using namespace '%s' from context named '%s' on server '%s'.\n"
    [util_ColorInfo env (Namespace ctx); util_ColorInfo env ctxName;
     util_ColorInfo env (kube_Server env config ctx)].
End ContextVocabulary.


Section InitResolveVocabulary.
Import initcmd.

(** A line of the log at the information level. *)
Definition is_Info_log (e : Event) : bool :=
  match e with EvLog Info _ _ => true | _ => false end.

(** The line that announces the external IP that is used. *)
Definition using_external_ip (env : Env) (externalIP : string) : Event :=
  EvLog Info "Using external IP: %s" [Str (util_ColorInfo env externalIP)].
End InitResolveVocabulary.

(** ** The vocabulary of the properties of the phases of the init command *)

Section InitPhasesVocabulary.
Import initcmd.

Definition is_Input (e : Event) : bool :=
  match e with EvInput _ _ => true | _ => false end.


End InitPhasesVocabulary.


(** ** The vocabulary of the properties of the init workflow *)

Section InitRunVocabulary.
Import initcmd.

Definition is_KubeClientAndNamespace (e : Event) : bool :=
  match e with EvKubeClientAndNamespace => true | _ => false end.

(** The questions to the operator. *)
Definition is_prompt (e : Event) : bool :=
  match e with
  | EvPickValue _ | EvInput _ _ | EvConfirm _ _ => true
  | _ => false
  end.

(** The reads and the writes of the git configuration. *)
Definition is_git_event (e : Event) : bool :=
  match e with
  | EvGitUsername | EvGitEmail | EvPickValue _ | EvGitSetUsername _ | EvGitSetEmail _ => true
  | _ => false
  end.

(** The calls about the cluster role binding of the user. *)
Definition is_cluster_role_event (e : Event) : bool :=
  match e with
  | EvGetClusterUserName | EvGetClusterRoleBinding _ | EvCreateClusterRoleBinding _ => true
  | _ => false
  end.
End InitRunVocabulary.

Section InitClusterUserVocabulary.
Import initcmd.

(** The events of the attempts at the binding [binding], named [name]. *)
Definition binding_events (name : string) (binding : ClusterRoleBinding) (e : Event) : Prop :=
  match e with
  | EvGetClusterUserName | EvKubeClient => False
  | EvGetClusterRoleBinding name' => name' = name
  | EvCreateClusterRoleBinding binding' => binding' = binding
  | _ => True
  end.
End InitClusterUserVocabulary.

(** [at_most p n m]: whatever the history and the state, at most [n] of
    the events that [m] emits satisfy [p]. *)
Definition at_most {St Ev A} (p : Ev → bool) (n : nat) (m : M St Ev A) : Prop :=
  ∀ h s, (length (List.filter p (emitted (m h s))) ≤ n)%nat.

Section InitBudgetVocabulary.
Import initcmd.

Definition is_InitHelm (e : Event) : bool :=
  match e with EvInitHelm _ => true | _ => false end.
Definition is_InitBuildPacks (e : Event) : bool :=
  match e with EvInitBuildPacks => true | _ => false end.
Definition is_GetCloudProvider (e : Event) : bool :=
  match e with EvGetCloudProvider _ => true | _ => false end.
End InitBudgetVocabulary.

Section InitRetryVocabulary.
Import initcmd.

Definition is_ReportFailedAttempt (e : Event) : bool :=
  match e with EvReportFailedAttempt _ => true | _ => false end.
End InitRetryVocabulary.

(** * Properties *)

(** ** Reasoning about computations *)

(** Unfolding the operations of the monad, so that a computation applied to
  a history and a state evaluates as far as the answers allow. *)
Ltac munfold :=
unfold mbind, mret, M_bind, M_ret, bind, ret, call, emit, consult, get, put, modify in *.

Section Invariant.
Context {St Ev : Type}.
Implicit Types (I : St → Prop) (φ : Ev → Prop).

Lemma inv_ret {A} I φ (a : A) : inv I φ (mret a).
Proof. intros h s Hs. split; [done|constructor]. Qed.

Lemma inv_bind {A B} I φ (m : M St Ev A) (k : A → M St Ev B) :
  inv I φ m → (∀ a, inv I φ (k a)) → inv I φ (m ≫= k).
Proof.
  intros Hm Hk h s Hs. destruct (Hm h s Hs) as [H1 H2].
  unfold mbind, M_bind, bind. destruct (m h s) as [[a|] s' evs]; simpl in *; [|done].
  destruct (Hk a (h ++ evs) s' H1) as [H3 H4].
  destruct (k a (h ++ evs) s') as [v s'' evs']; simpl in *.
  split; [done|]. by apply Forall_app.
Qed.

(** After reading the state, the value read satisfies [I] too. *)
Lemma inv_get_bind {B} I φ (k : St → M St Ev B) :
  (∀ o, I o → inv I φ (k o)) → inv I φ (get ≫= k).
Proof.
  intros Hk h s Hs. unfold mbind, M_bind, bind, get.
  destruct (Hk s Hs (h ++ []) s Hs) as [H3 H4].
  destruct (k s (h ++ []) s) as [v s'' evs']; simpl in *. done.
Qed.

Lemma inv_call {A} I φ ev (answer : list Ev → A) : φ ev → inv I φ (call ev answer).
Proof. intros Hev h s Hs. split; [done|]. by repeat constructor. Qed.

Lemma inv_emit I φ ev : φ ev → inv I φ (emit ev).
Proof. intros Hev h s Hs. split; [done|]. by repeat constructor. Qed.

Lemma inv_consult {A} I φ (answer : list Ev → A) : inv I φ (consult answer).
Proof. intros h s Hs. split; [done|constructor]. Qed.

Lemma inv_modify I φ (f : St → St) : (∀ s, I s → I (f s)) → inv I φ (modify f).
Proof. intros Hf h s Hs. split; [by apply Hf|constructor]. Qed.

Lemma inv_loop {L A} I φ fuel (body : L → M St Ev (L + A)) l :
  (∀ l, inv I φ (body l)) → inv I φ (loop fuel body l).
Proof.
  intros Hbody. revert l. induction fuel as [|fuel IH]; intros l.
  - intros h s Hs. split; [done|constructor].
  - simpl. apply (inv_bind I φ (body l)); [done|].
    intros [l'|a]; [apply IH|apply inv_ret].
Qed.

(** A computation that starts with a step whose outcome is known. *)
Lemma inv_after {A B} I φ (m : M St Ev A) (k : A → M St Ev B) h s a s1 evs :
  m h s = mkOut (Some a) s1 evs → I s1 → Forall φ evs → inv I φ (k a) →
  I (state ((m ≫= k) h s)) ∧ Forall φ (emitted ((m ≫= k) h s)).
Proof.
  intros Hm Hs1 Hevs Hk. unfold mbind, M_bind, bind. rewrite Hm.
  destruct (Hk (h ++ evs) s1 Hs1) as [H1 H2].
  destruct (k a (h ++ evs) s1) as [v s2 evs']; simpl in *.
  split; [done|]. by apply Forall_app.
Qed.
End Invariant.

(** One syntax-directed step of a proof of [inv]. *)
Ltac inv_step :=
lazymatch goal with
| |- inv _ _ (get ≫= _) => apply inv_get_bind; intros ? ?
| |- inv _ _ (_ ≫= _) => apply inv_bind; [|intros ?]
| |- inv _ _ (mret _) => apply inv_ret
| |- inv _ _ (call _ _) => apply inv_call
| |- inv _ _ (emit _) => apply inv_emit
| |- inv _ _ (consult _) => apply inv_consult
| |- inv _ _ (modify _) => apply inv_modify
| |- inv _ _ (loop _ _ _) => apply inv_loop; intros ?
| |- inv _ _ (match ?x with _ => _ end) => destruct x eqn:?
end.

(** ** Evaluating a computation *)

(** The operations of the monad and the assignments to the options, for
    [lazy]; the answers of the outside world block the evaluation. *)
Ltac mlazy :=
  lazy beta iota zeta delta
    [mbind mret M_bind M_ret bind ret call emit consult get put modify
     initcmd.log initcmd.assign initcmd.when
     initcmd.set_Flags initcmd.set_Username initcmd.set_CommonOptions_Domain
     initcmd.set_Domain initcmd.set_Provider initcmd.set_Namespace
     initcmd.set_TillerNamespace initcmd.set_IngressNamespace initcmd.set_IngressService
     initcmd.set_IngressDeployment initcmd.set_ExternalIP initcmd.set_HelmClient
     initcmd.set_NoTiller initcmd.set_GlobalTiller initcmd.set_SkipTiller
     initcmd.Flags initcmd.Username initcmd.BatchMode initcmd.AdvancedMode
     initcmd.CommonOptions_Domain
     initcmd.Domain initcmd.Provider initcmd.Namespace initcmd.UserClusterRole
     initcmd.TillerClusterRole initcmd.IngressClusterRole initcmd.TillerNamespace
     initcmd.IngressNamespace initcmd.IngressService initcmd.IngressDeployment
     initcmd.ExternalIP initcmd.VersionsRepository initcmd.VersionsGitRef
     initcmd.DraftClient initcmd.HelmClient initcmd.Helm3 initcmd.HelmBin
     initcmd.RecreateExistingDraftRepos initcmd.NoTiller initcmd.RemoteTiller
     initcmd.GlobalTiller initcmd.SkipIngress initcmd.SkipTiller initcmd.SkipClusterRole
     initcmd.OnPremise initcmd.Http initcmd.NoGitValidate initcmd.ExternalDNS
     negb orb andb fst snd].
Ltac msimpl := mlazy; cbn [prepend].
Ltac msimpl_in H :=
  lazy beta iota zeta delta
    [mbind mret M_bind M_ret bind ret call emit consult get put modify
     initcmd.log initcmd.assign initcmd.when
     initcmd.set_Flags initcmd.set_Username initcmd.set_CommonOptions_Domain
     initcmd.set_Domain initcmd.set_Provider initcmd.set_Namespace
     initcmd.set_TillerNamespace initcmd.set_IngressNamespace initcmd.set_IngressService
     initcmd.set_IngressDeployment initcmd.set_ExternalIP initcmd.set_HelmClient
     initcmd.set_NoTiller initcmd.set_GlobalTiller initcmd.set_SkipTiller
     initcmd.Flags initcmd.Username initcmd.BatchMode initcmd.AdvancedMode
     initcmd.CommonOptions_Domain
     initcmd.Domain initcmd.Provider initcmd.Namespace initcmd.UserClusterRole
     initcmd.TillerClusterRole initcmd.IngressClusterRole initcmd.TillerNamespace
     initcmd.IngressNamespace initcmd.IngressService initcmd.IngressDeployment
     initcmd.ExternalIP initcmd.VersionsRepository initcmd.VersionsGitRef
     initcmd.DraftClient initcmd.HelmClient initcmd.Helm3 initcmd.HelmBin
     initcmd.RecreateExistingDraftRepos initcmd.NoTiller initcmd.RemoteTiller
     initcmd.GlobalTiller initcmd.SkipIngress initcmd.SkipTiller initcmd.SkipClusterRole
     initcmd.OnPremise initcmd.Http initcmd.NoGitValidate initcmd.ExternalDNS
     negb orb andb fst snd] in H.
(** The hypotheses in the form in which the evaluation leaves the goal. *)
Ltac mhyps := repeat match goal with H : _ |- _ => progress msimpl_in H end.
(** Histories and emitted events in normal form. *)
Ltac mlists := rewrite ?app_nil_r, <- ?app_assoc; cbn [app].
(** Rewriting with the equations collected so far. *)
Ltac rw_hyps :=
  repeat match goal with
         | H : ?x = _ |- context [?x] => first [is_var x; fail 1 | rewrite H]
         end.
(** Evaluating the goal as far as the collected equations allow. *)
Ltac mrun :=
  repeat (first [progress msimpl | progress cbn [prepend value state emitted]
                | progress rw_hyps]).
(** A case distinction on the innermost answer that blocks the evaluation;
    a retry or a loop is left to its own lemma. *)
Ltac destruct_inner x :=
  lazymatch x with
  | context [match ?y with _ => _ end] => destruct_inner y
  | initcmd.Retry _ _ _ _ _ => fail
  | initcmd.InitIngress_install_chart _ _ _ _ _ _ _ _ _ => fail
  | initcmd.InitIngress_install _ _ _ _ _ _ => fail
  | initcmd.InitIngress_resolve _ _ _ _ => fail
  | loop _ _ _ _ _ => fail
  | ?f _ _ => tryif is_var f then fail else destruct x eqn:?
  | _ => destruct x eqn:?
  end.

Ltac mcase :=
  match goal with
  | |- context [match ?x with _ => _ end] => destruct_inner x
  end.
Ltac mexec := mrun; repeat (mcase; mrun).
(** The equations about [decide] are of no use once its proofs are there. *)
Ltac clear_decide :=
  repeat match goal with
         | H : decide _ = _ |- _ => clear H
         | H : bool_decide _ = _ |- _ => first [apply bool_decide_eq_true in H
                                                | apply bool_decide_eq_false in H]
         end.

(** ** The init command: the tiller flags *)

Section InitFrame.
Import initcmd.
Variable env : Env.
Variable I : InitOptions → Prop.
Variable P : InitHelmConfig → Prop.
Hypothesis I_tiller : on_tiller_flags I.

(** The side conditions of a step that leaves the tiller flags alone. *)
Ltac frame :=
  lazymatch goal with
  | |- ∀ s, I s → I _ =>
      let s := fresh "s" in let H := fresh "H" in
      intros s H; refine (I_tiller s _ _ H); reflexivity
  | |- helm_configs _ _ => exact Logic.I
  end.
Ltac inv_frame := unfold when, assign, log; repeat (first [inv_step | frame]).

Lemma Retry_inv n d (op : M goerror) :
  inv I (helm_configs P) op → inv I (helm_configs P) (Retry n d op).
Proof.
  intros Hop. induction n as [|n IH]; simpl; [apply inv_ret|].
  apply inv_bind; [done|]. intros [e|]; [|apply inv_ret].
  apply inv_bind; [by apply inv_emit|]. intros _.
  destruct n; [apply inv_ret|].
  apply inv_bind; [by apply inv_emit|]. intros _. apply IH.
Qed.

Lemma ValidateGit_frame : inv I (helm_configs P) (ValidateGit env).
Proof. unfold ValidateGit. inv_frame. Qed.

Lemma EnableClusterAdminRole_frame : inv I (helm_configs P) (EnableClusterAdminRole env).
Proof. unfold EnableClusterAdminRole. inv_frame. apply Retry_inv. inv_frame. Qed.

Lemma configureOptionsForExternalDNS_frame :
  inv I (helm_configs P) (configureOptionsForExternalDNS env).
Proof. unfold configureOptionsForExternalDNS. inv_frame. Qed.

Lemma configureForICP_frame : inv I (helm_configs P) (configureForICP env).
Proof. unfold configureForICP. inv_frame. Qed.

Lemma initIKSIngress_frame : inv I (helm_configs P) (initIKSIngress env).
Proof. unfold initIKSIngress. inv_frame. Qed.

Lemma InitIngress_resolve_frame ns : inv I (helm_configs P) (InitIngress_resolve env ns).
Proof. unfold InitIngress_resolve. inv_frame. Qed.

Lemma InitIngress_frame fuel : inv I (helm_configs P) (InitIngress env fuel).
Proof.
  unfold InitIngress, InitIngress_install, InitIngress_install_chart,
    InitIngress_install_body.
  inv_frame; apply InitIngress_resolve_frame.
Qed.

Lemma Run_normalize_eq h o :
  Run_normalize h o =
    mkOut (Some tt)
      (if negb (RemoteTiller (Flags o)) || NoTiller (Flags o) then
         set_Flags (set_GlobalTiller false (set_SkipTiller true
                      (set_HelmClient true (Flags o)))) o
       else o) [].
Proof.
  unfold Run_normalize, when, assign. munfold. cbn.
  by destruct (negb (RemoteTiller (Flags o)) || NoTiller (Flags o)).
Qed.

(** The workflow keeps [I] from the normalization on, provided the
    validation of the options keeps it, and hands [InitHelm] a
    configuration that satisfies [P], provided the options that satisfy
    [I] yield one. *)
Lemma Run_inv fuel h o :
  inv I (helm_configs P) (checkOptions env) →
  (∀ o, I o →
     P {| cfg_Namespace := Namespace (Flags o);
          cfg_OnlyHelmClient := HelmClient (Flags o);
          cfg_Helm3 := Helm3 (Flags o);
          cfg_SkipTiller := SkipTiller (Flags o);
          cfg_GlobalTiller := GlobalTiller (Flags o);
          cfg_TillerNamespace := TillerNamespace (Flags o);
          cfg_TillerRole := TillerClusterRole (Flags o) |}) →
  I (state (Run_normalize h o)) →
  I (state (Run env fuel h o)) ∧ Forall (helm_configs P) (emitted (Run env fuel h o)).
Proof.
  intros Hcheck HP HI. unfold Run.
  eapply inv_after; [apply Run_normalize_eq| by rewrite Run_normalize_eq in HI |constructor|].
  inv_frame;
    first [ apply ValidateGit_frame | apply EnableClusterAdminRole_frame
          | apply configureForICP_frame | apply initIKSIngress_frame
          | apply configureOptionsForExternalDNS_frame | apply InitIngress_frame
          | done | idtac ].
  apply Retry_inv. apply inv_call. simpl. by apply HP.
Qed.
End InitFrame.

Section InitTiller.
Import initcmd.
Variable env : Env.

Lemma checkOptions_tiller_off : inv tiller_off (helm_configs cfg_tiller_off) (checkOptions env).
Proof.
  unfold checkOptions, when, assign, log.
  repeat (first [inv_step | done | by intros ? [??]; split ]).
Qed.

Lemma checkOptions_no_helm3 t :
  inv (λ o, tiller_flags o = (t, false)) (helm_configs (λ _, True)) (checkOptions env).
Proof.
  unfold checkOptions, when, assign, log.
  repeat (first [inv_step | done ]).
  all: unfold tiller_flags in *; simplify_eq/=; congruence.
Qed.
End InitTiller.


Section InitOptionsChecked.
Import initcmd.

(** How [checkOptions] ends when [helm3] is set. *)
Lemma checkOptions_helm3 env h o :
  Helm3 (Flags o) = true →
  value (checkOptions env h o) = Some None ∧
  state (checkOptions env h o) =
    set_Flags (set_NoTiller true (set_SkipTiller true (Flags o))) o.
Proof.
  intros H. unfold checkOptions. mhyps. mexec; done.
Qed.

(** Validating again, with the same answer of the cluster about its
    namespace, changes neither the options nor the outcome. *)
Lemma checkOptions_again env h o env' h' :
  KubeClientAndNamespace env h = KubeClientAndNamespace env' h' →
  state (checkOptions env' h' (state (checkOptions env h o))) = state (checkOptions env h o) ∧
  value (checkOptions env' h' (state (checkOptions env h o))) = value (checkOptions env h o).
Proof.
  intros Hsame. unfold checkOptions.
  mexec; rewrite ?app_nil_r in *; clear_decide;
    first [exfalso; congruence | split; first [done | congruence]].
Qed.

(** After a successful validation, validating again changes nothing and
    succeeds, whatever the cluster answers. *)
Lemma checkOptions_again_ok env h o env' h' :
  value (checkOptions env h o) = Some None →
  state (checkOptions env' h' (state (checkOptions env h o))) = state (checkOptions env h o) ∧
  value (checkOptions env' h' (state (checkOptions env h o))) = Some None.
Proof.
  unfold checkOptions.
  mexec; intros; simplify_eq; by split.
Qed.

(** C4: if [helm3] is set, [checkOptions] succeeds and leaves [SkipTiller]
    and [NoTiller] true whatever they were, touching no other flag; and
    validating twice yields the same flags as validating once: in the same
    surroundings, whenever the cluster gives the same answer about its
    namespace, and, after a successful validation, whatever it answers. *)
Theorem C4_helm3_forces_tiller_off_and_validation_is_idempotent env h o :
  let once := checkOptions env h o in
  (Helm3 (Flags o) = true →
     value once = Some None ∧
     SkipTiller (Flags (state once)) = true ∧
     NoTiller (Flags (state once)) = true ∧
     state once = set_Flags (set_NoTiller true (set_SkipTiller true (Flags o))) o) ∧
  state (checkOptions env h (state once)) = state once ∧
  (∀ env' h',
     KubeClientAndNamespace env h = KubeClientAndNamespace env' h' ∨ value once = Some None →
     state (checkOptions env' h' (state once)) = state once).
Proof.
  intros once. split; [|split].
  - intros H3. destruct (checkOptions_helm3 env h o H3) as [Hv Hs].
    subst once. by rewrite Hv, Hs.
  - by apply checkOptions_again.
  - intros env' h' [Hsame|Hok].
    + by apply checkOptions_again.
    + by apply checkOptions_again_ok.
Qed.

Lemma C4_witness :
  let env := example_env (1, None) None None None in
  let o := example_options (example_flags "gke" "" "" true false true true false) in
  SkipTiller (Flags (state (checkOptions env [] o))) = true ∧
  state (checkOptions env [EvKubeClient] (state (checkOptions env [] o))) =
    state (checkOptions env [] o).
Proof.
  intros env o.
  destruct (C4_helm3_forces_tiller_off_and_validation_is_idempotent env [] o)
    as (H3 & _ & Hagain).
  split.
  - apply H3. reflexivity.
  - apply Hagain. left. reflexivity.
Defined.

(** C5, as stated, fails when [helm3] is set: [SkipTiller] is false,
    [GlobalTiller] is true and [TillerNamespace] is empty, and the
    validation succeeds, because [helm3] turns [SkipTiller] on first. *)
Lemma C5_counterexample :
  let o := example_options (example_flags "gke" "" "" true false true true false) in
  SkipTiller (Flags o) = false ∧ GlobalTiller (Flags o) = true ∧
  TillerNamespace (Flags o) = "" ∧
  value (checkOptions (example_env (1, None) None None None) [] o) = Some None.
Proof. vm_compute. done. Qed.

(** C5, amended: if [helm3] is not set, [SkipTiller] is false,
    [GlobalTiller] is true and [TillerNamespace] is empty, then
    [checkOptions] returns the missing-option error that names
    [tiller-namespace], and it does nothing else: no flag is changed and
    the cluster is not asked anything. *)
Theorem C5_missing_tiller_namespace env h o :
  Helm3 (Flags o) = false →
  SkipTiller (Flags o) = false →
  GlobalTiller (Flags o) = true →
  TillerNamespace (Flags o) = "" →
  checkOptions env h o = mkOut (Some (Some (MissingOption "tiller-namespace"))) o [].
Proof.
  intros H3 HS HG HN. unfold checkOptions. mhyps.
  mrun. by rewrite decide_True.
Qed.

Lemma C5_witness :
  let o := example_options (example_flags "gke" "" "" false false true true false) in
  checkOptions (example_env (1, None) None None None) [] o =
    mkOut (Some (Some (MissingOption "tiller-namespace"))) o [].
Proof.
  intros o. apply (C5_missing_tiller_namespace _ [] o); reflexivity.
Defined.
End InitOptionsChecked.

Section InitTillerInvariant.
Import initcmd.

(** C2, as stated, fails: with [--skip-setup-tiller --global-tiller
    --remote-tiller --no-tiller=false] the normalization does not apply,
    and the workflow ends with [SkipTiller] and [GlobalTiller] both
    true. *)
Lemma C2_counterexample :
  let o := example_options (example_flags "gke" "kube-system" "" false false true true true) in
  let r := Run (example_env (1, None) None None None) 4 [] o in
  value r = Some None ∧
  SkipTiller (Flags (state r)) = true ∧ GlobalTiller (Flags (state r)) = true.
Proof. vm_compute. done. Qed.

(** C2, amended: if remote tiller is off or no-tiller is requested, the
    normalization applies and from then on [SkipTiller] is true and
    [GlobalTiller] is false: in the flags the workflow ends with, however
    it ends, and in every configuration handed to [InitHelm].  If the
    normalization does not apply and [helm3] is not set, the workflow
    leaves [SkipTiller] and [GlobalTiller] as the caller gave them, so a
    [SkipTiller] set by [--skip-setup-tiller] does not force
    [GlobalTiller] false. *)
Theorem C2_tiller_off_after_normalization env fuel h o :
  let r := Run env fuel h o in
  (RemoteTiller (Flags o) = false ∨ NoTiller (Flags o) = true →
     SkipTiller (Flags (state r)) = true ∧
     GlobalTiller (Flags (state r)) = false ∧
     ∀ cfg, EvInitHelm cfg ∈ emitted r →
            cfg_SkipTiller cfg = true ∧ cfg_GlobalTiller cfg = false) ∧
  (RemoteTiller (Flags o) = true → NoTiller (Flags o) = false → Helm3 (Flags o) = false →
     SkipTiller (Flags (state r)) = SkipTiller (Flags o) ∧
     GlobalTiller (Flags (state r)) = GlobalTiller (Flags o)).
Proof.
  intros r. subst r. split.
  - intros Hnorm.
    destruct (Run_inv env tiller_off cfg_tiller_off) with (fuel := fuel) (h := h) (o := o)
      as [[HS HG] Hev].
    + by intros o1 o2 [= H1 H2 _] [??]; split; congruence.
    + apply checkOptions_tiller_off.
    + by intros ? [??].
    + rewrite Run_normalize_eq. cbn.
      assert (negb (RemoteTiller (Flags o)) || NoTiller (Flags o) = true) as ->; [|done].
      destruct Hnorm as [-> | ->]; [done|]. by rewrite orb_true_r.
    + split_and!; [done..|]. intros cfg Hin.
      rewrite Forall_forall in Hev. apply (Hev _ Hin).
  - intros HR HN H3.
    destruct (Run_inv env (λ o', tiller_flags o' = tiller_flags o) (λ _, True))
      with (fuel := fuel) (h := h) (o := o) as [Heq _].
    + intros o1 o2 H12 H1. congruence.
    + unfold tiller_flags at 2. rewrite H3. apply checkOptions_no_helm3.
    + done.
    + rewrite Run_normalize_eq. cbn. by rewrite HR, HN.
    + unfold tiller_flags in Heq. injection Heq as H1 H2 _. by rewrite H1, H2.
Qed.

Lemma C2_witness :
  let env := example_env (1, None) None None None in
  let normalized :=
    Run env 4 [] (example_options (example_flags "gke" "kube-system" "" false true true true false)) in
  let untouched :=
    Run env 4 [] (example_options (example_flags "gke" "kube-system" "" false false true true true)) in
  (SkipTiller (Flags (state normalized)) = true ∧
   GlobalTiller (Flags (state normalized)) = false) ∧
  (SkipTiller (Flags (state untouched)) = true ∧
   GlobalTiller (Flags (state untouched)) = true).
Proof.
  intros env normalized untouched. split.
  - destruct (C2_tiller_off_after_normalization env 4 []
                (example_options (example_flags "gke" "kube-system" "" false true true true false)))
      as [H _].
    destruct H as (HS & HG & _); [right; reflexivity|]. by split.
  - destruct (C2_tiller_off_after_normalization env 4 []
                (example_options (example_flags "gke" "kube-system" "" false false true true true)))
      as [_ H].
    apply H; reflexivity.
Defined.
End InitTillerInvariant.
(** ** The init command: the cluster role binding *)

Section InitClusterAdminRole.
Import initcmd.

Lemma count_app p l1 l2 : count p (l1 ++ l2) = (count p l1 + count p l2)%nat.
Proof. unfold count. by rewrite List.filter_app, length_app. Qed.

Lemma sleeps_only_app d l1 l2 :
  sleeps_only d (l1 ++ l2) = sleeps_only d l1 && sleeps_only d l2.
Proof. apply forallb_app. Qed.

Lemma sleeps_only_elem_of d evs :
  sleeps_only d evs = true → ∀ d', EvSleep d' ∈ evs → d' = d.
Proof.
  intros Hall d' Hin. unfold sleeps_only in Hall. rewrite forallb_forall in Hall.
  apply list_elem_of_In in Hin. specialize (Hall _ Hin). by apply bool_decide_eq_true in Hall.
Qed.

Lemma Retry_first_success n d (op : M goerror) h s s' evs :
  op h s = mkOut (Some None) s' evs →
  Retry (S n) d op h s = mkOut (Some None) s' evs.
Proof. intros Hop. cbn [Retry]. msimpl. rewrite Hop. msimpl. by rewrite app_nil_r. Qed.

Lemma Retry_attempts n d (op : M goerror) :
  (∀ h s, one_attempt (op h s)) →
  ∀ h s,
    let r := Retry n d op h s in
    (count is_GetClusterRoleBinding (emitted r) ≤ n)%nat ∧
    (n ≠ 0%nat → 1 ≤ count is_GetClusterRoleBinding (emitted r))%nat ∧
    (count is_CreateClusterRoleBinding (emitted r) ≤ count is_GetClusterRoleBinding (emitted r))%nat ∧
    count is_Sleep (emitted r) = pred (count is_GetClusterRoleBinding (emitted r)) ∧
    sleeps_only d (emitted r) = true.
Proof.
  intros Hop. induction n as [|n IH]; intros h s r; subst r.
  { cbn. repeat split; lia. }
  cbn [Retry]. msimpl.
  destruct (Hop h s) as (Hg & Hc & Hs & Hd). specialize (Hd d).
  destruct (op h s) as [[[e|]|] s' evs]; cbn [emitted prepend] in *; msimpl; cbn [emitted prepend].
  - destruct n as [|n].
    + msimpl. cbn [emitted prepend]. rewrite !count_app, !sleeps_only_app, Hd. cbn.
      repeat split; lia.
    + msimpl.
      match goal with
      | |- context [Retry (S n) d op ?h' ?s'] =>
          specialize (IH h' s'); cbn zeta in IH; destruct (Retry (S n) d op h' s') as [v s'' evs']
      end.
      cbn [emitted prepend] in *. destruct IH as (H1 & H2 & H3 & H4 & H5).
      specialize (H2 ltac:(done)).
      rewrite !count_app, !sleeps_only_app, Hd, H5. cbn.
      rewrite bool_decide_eq_true_2 by done.
      repeat split; lia.
  - rewrite !count_app, !sleeps_only_app, Hd. cbn. repeat split; lia.
  - repeat split; try done; lia.
Qed.

Lemma EnableClusterAdminRole_attempts env h o :
  let r := EnableClusterAdminRole env h o in
  (count is_GetClusterRoleBinding (emitted r) ≤ 3)%nat ∧
  (count is_CreateClusterRoleBinding (emitted r) ≤ count is_GetClusterRoleBinding (emitted r))%nat ∧
  count is_Sleep (emitted r) = pred (count is_GetClusterRoleBinding (emitted r)) ∧
  sleeps_only (10 * time_Second) (emitted r) = true.
Proof.
  intros r. remember r as r' eqn:Hr. subst r. revert Hr.
  unfold EnableClusterAdminRole. mexec.
  all: try (intros ->; cbn; repeat split; lia).
  all: match goal with
       | |- context [Retry 3 ?d ?op ?h' ?s'] =>
           let Hop := fresh "Hop" in
           assert (∀ h s, one_attempt (op h s)) as Hop;
             [ let h0 := fresh "h" in let s0 := fresh "s" in
               let r := fresh "r" in let Hr := fresh "Hr" in
               intros h0 s0; unfold one_attempt;
               remember (op h0 s0) as r eqn:Hr; revert Hr; mexec;
               intros ->; cbn; repeat split; lia
             | pose proof (Retry_attempts 3 d op Hop h' s') as (H1 & _ & H3 & H4 & H5);
               destruct (Retry 3 d op h' s') as [[v|] s'' evs];
               intros ->; cbn [emitted prepend] in *;
               rewrite !count_app, !sleeps_only_app, H5; cbn; repeat split; lia ]
       end.
Qed.

End InitClusterAdminRole.

Section Total.
Context {St Ev : Type}.

Lemma total_ret {A} (a : A) : total (mret a : M St Ev A).
Proof. intros h s. by eexists. Qed.

Lemma total_bind {A B} (m : M St Ev A) (k : A → M St Ev B) :
  total m → (∀ a, total (k a)) → total (m ≫= k).
Proof.
  intros Hm Hk h s. unfold mbind, M_bind, bind.
  destruct (Hm h s) as [a Ha]. destruct (m h s) as [v s' evs]. simpl in Ha. subst v.
  destruct (Hk a (h ++ evs) s') as [b Hb]. destruct (k a (h ++ evs) s') as [v s'' evs'].
  simpl in *. by eexists.
Qed.

Lemma total_call {A} ev (answer : list Ev → A) : total (call ev answer : M St Ev A).
Proof. intros h s. by eexists. Qed.

Lemma total_emit ev : total (emit ev : M St Ev unit).
Proof. intros h s. by eexists. Qed.

Lemma total_get : total (get : M St Ev St).
Proof. intros h s. by eexists. Qed.

Lemma total_modify f : total (modify f : M St Ev unit).
Proof. intros h s. by eexists. Qed.
End Total.

(** One syntax-directed step of a proof of [total]. *)
Ltac total_step :=
  lazymatch goal with
  | |- total (_ ≫= _) => apply total_bind; [|intros ?]
  | |- total (mret _) => apply total_ret
  | |- total (call _ _) => apply total_call
  | |- total (emit _) => apply total_emit
  | |- total get => apply total_get
  | |- total (modify _) => apply total_modify
  | |- total (match ?x with _ => _ end) => destruct x
  end.

(** ** The init command: the install loop *)

Section InitInstallLoop.
Import initcmd.
Variable env : Env.

Lemma prepend_prepend {A} (evs1 evs2 : list Event) (r : Out InitOptions Event A) :
  prepend evs1 (prepend evs2 r) = prepend (evs1 ++ evs2) r.
Proof. destruct r. cbn. by rewrite app_assoc. Qed.

Lemma prepend_nil {A} (r : Out InitOptions Event A) : prepend [] r = r.
Proof. by destruct r. Qed.

(** The loop ends within [4 - i] turns, leaves the options alone, and emits
    a run of at most [3 - i] retries; if no install ever succeeds, the run
    ends with the report. *)
Lemma install_loop_run ns version values files retries :
  ∀ fuel i h o,
    i = 3 - Z.of_nat retries →
    (retries < fuel)%nat →
    ∃ evs given_up,
      loop fuel (InitIngress_install_body env ns version values files) i h o =
        mkOut (Some tt) o evs ∧
      install_run (install_attempt env (ingress_chart_options ns version values files))
        retries evs given_up ∧
      ((∀ h' options, InstallChartWithOptions env h' options ≠ None) → given_up ≠ None).
Proof.
  induction retries as [|retries IH]; intros fuel i h o Hi Hfuel.
  - destruct fuel as [|fuel]; [lia|]. cbn [loop]. unfold InitIngress_install_body at 1. msimpl.
    match goal with |- context [InstallChartWithOptions env ?h' ?opts] =>
      destruct (InstallChartWithOptions env h' opts) as [e|] eqn:Hinst end; msimpl.
    + rewrite decide_True by lia. msimpl.
      eexists _, (Some e). split; [reflexivity|]. split; [|done].
      apply (install_run_given_up (install_attempt env _) e).
    + eexists _, None. split; [reflexivity|]. split; [apply install_run_ok|].
      intros Hfail. by destruct (Hfail _ _ Hinst).
  - destruct fuel as [|fuel]; [lia|]. cbn [loop]. unfold InitIngress_install_body at 1. msimpl.
    match goal with |- context [InstallChartWithOptions env ?h' ?opts] =>
      destruct (InstallChartWithOptions env h' opts) as [e|] eqn:Hinst end; msimpl.
    + rewrite decide_False by lia. msimpl.
      match goal with |- context [loop fuel _ ?i' ?h' ?o'] =>
        destruct (IH fuel i' h' o') as (evs & given_up & Hloop & Hrun & Hfail); [lia..|] end.
      rewrite Hloop. msimpl.
      eexists _, given_up. split; [reflexivity|]. split; [|done].
      by apply (install_run_retry (install_attempt env _)).
    + eexists _, None. split; [reflexivity|]. split; [apply install_run_ok|].
      intros Hfail. by destruct (Hfail _ _ Hinst).
Qed.

Lemma count_none p evs : none p evs = true → count p evs = 0%nat.
Proof.
  unfold none, count. induction evs as [|e evs IH]; [done|]. cbn.
  destruct (p e); [done|]. cbn. apply IH.
Qed.

Lemma none_app p l1 l2 : none p (l1 ++ l2) = none p l1 && none p l2.
Proof. apply forallb_app. Qed.

Lemma none_elem_of p evs e : none p evs = true → e ∈ evs → p e = false.
Proof.
  unfold none. rewrite forallb_forall. intros Hall Hin. apply list_elem_of_In in Hin.
  specialize (Hall _ Hin). by destruct (p e).
Qed.

(** What a run of the install loop looks like from outside. *)
Lemma install_run_facts options retries evs given_up :
  install_run (install_attempt env options) retries evs given_up →
  (1 ≤ count is_InstallChart evs ≤ S retries)%nat ∧
  count is_Sleep evs = pred (count is_InstallChart evs) ∧
  sleeps_only time_Second evs = true ∧
  none is_resolve_event evs = true ∧
  (∀ e, install_given_up e ∈ evs → given_up = Some e) ∧
  (∀ e, given_up = Some e →
        ∃ pre, evs = pre ++ [install_given_up e] ∧ count is_InstallChart pre = S retries).
Proof.
  induction 1 as [retries|e|retries evs given_up Hrun IH].
  - cbn. split_and!; try done; try lia.
    intros e Hin. by repeat (apply elem_of_cons in Hin as [?|Hin]; [done|]); apply elem_of_nil in Hin.
  - cbn. split_and!; try done; try lia.
    + intros e' Hin. repeat (apply elem_of_cons in Hin as [Hin|Hin]; [by simplify_eq|]).
      by apply elem_of_nil in Hin.
    + intros e' [= <-]. by eexists [_; _].
  - destruct IH as (H1 & H2 & H3 & H4 & H5 & H6).
    rewrite !count_app, !sleeps_only_app, !none_app, H3, H4. cbn.
    split_and!; try done; try lia.
    + intros e Hin. apply H5. repeat (apply elem_of_cons in Hin as [?|Hin]; [done|]). done.
    + intros e He. destruct (H6 e He) as (pre & -> & Hpre).
      eexists (_ :: _ :: _ :: pre). split; [reflexivity|].
      unfold count in *. cbn. lia.
Qed.

Lemma InitIngress_resolve_total ns : total (InitIngress_resolve env ns).
Proof. unfold InitIngress_resolve, when, log, assign. repeat total_step. Qed.

Lemma InitIngress_resolve_quiet ns :
  inv (λ _, True) (λ e, is_install_event e = false) (InitIngress_resolve env ns).
Proof. unfold InitIngress_resolve, when, log, assign. repeat (first [inv_step | done]). Qed.

(** The install loop and the wait: the run of the loop, then the wait for
    the deployment, then, unless the wait fails, the rest. *)
Lemma InitIngress_install_chart_run fuel ns version values files (next : M goerror) h o :
  (4 ≤ fuel)%nat →
  let deployment := IngressDeployment (Flags o) in
  let wait := EvWaitForDeploymentToBeReady deployment ns (10 * time_Minute) in
  ∃ evs given_up,
    install_run (install_attempt env (ingress_chart_options ns version values files))
      3 evs given_up ∧
    ((∀ h' options, InstallChartWithOptions env h' options ≠ None) → given_up ≠ None) ∧
    InitIngress_install_chart env fuel ns version values files next h o =
      prepend (evs ++ [wait])
        (match kube_WaitForDeploymentToBeReady env (h ++ evs) deployment ns
                 (10 * time_Minute) with
         | Some e => mkOut (Some (Some e)) o []
         | None => next (h ++ evs ++ [wait]) o
         end).
Proof.
  intros Hfuel deployment wait. subst deployment wait.
  destruct (install_loop_run ns version values files 3 fuel 0 h o) as
    (evs & given_up & Hloop & Hrun & Hfail); [lia..|].
  exists evs, given_up. split_and!; [done..|].
  unfold InitIngress_install_chart. msimpl. rewrite Hloop. msimpl.
  rewrite !app_nil_r.
  destruct (kube_WaitForDeploymentToBeReady env (h ++ evs) _ _ _); msimpl.
  - by rewrite !app_nil_r.
  - rewrite <- !app_assoc. by rewrite ?prepend_nil, ?prepend_prepend.
Qed.
End InitInstallLoop.

(** ** The init command: the ingress controller *)

Section InitIngressController.
Import initcmd.
Variable env : Env.

(** A leaf of the evaluation: the events in normal form. *)
Ltac mleaf :=
  intros ->; cbn [prepend app]; rewrite ?prepend_nil, ?prepend_prepend;
  rewrite ?app_nil_r, <- ?app_assoc; cbn [app].

(** The preparation of the install either returns early, after a failure
    or because the operator declined, or arrives at the install of the
    chart. *)
Lemma InitIngress_install_outcome fuel ns (next : M goerror) h o :
  let r := InitIngress_install env fuel ns next h o in
  (∃ err pre,
     r = mkOut (Some err) o pre ∧
     forallb is_controller_event pre = true ∧
     (err = None → ∃ msg d, EvConfirm msg d ∈ pre)) ∨
  (∃ pre version values files,
     r = prepend pre
           (InitIngress_install_chart env fuel ns version values files next (h ++ pre) o) ∧
     forallb is_controller_event pre = true).
Proof.
  intros r. remember r as r' eqn:Hr. subst r. revert Hr.
  unfold InitIngress_install. mexec.
  all: mleaf.
  all: first
    [ left; eexists _, _; split; [reflexivity|]; split; [reflexivity|];
      first [ discriminate | intros _; eexists _, _; apply list_elem_of_here ]
    | right; eexists _, _, _, _; split; [reflexivity|reflexivity] ].
Qed.

(** The events of [l] that come before the list [pre]. *)
Ltac prefix_before l pre :=
  lazymatch l with
  | pre ++ _ => constr:(@nil Event)
  | ?x :: ?l' => let p := prefix_before l' pre in constr:(x :: p)
  end.

Ltac mnorm :=
  rewrite ?prepend_nil, ?prepend_prepend; rewrite ?app_nil_r, <- ?app_assoc;
  cbn [app prepend].

(** How [InitIngress] runs: it returns early, from the detection of the
    controller or from the preparation of the install; or it finds the
    controller and goes on to resolve the external IP and the domain; or it
    runs the install loop, waits for the deployment and, unless the wait
    fails, goes on to resolve the external IP and the domain. *)
Lemma InitIngress_outcome fuel h o :
  (4 ≤ fuel)%nat →
  let r := InitIngress env fuel h o in
  let ns := IngressNamespace (Flags o) in
  (∃ err o' pre,
     r = mkOut (Some err) o' pre ∧
     forallb is_controller_event pre = true ∧
     (err = None →
      isOpenShiftProvider env (Provider (Flags o)) = true ∨ ∃ msg d, EvConfirm msg d ∈ pre)) ∨
  (∃ o' pre,
     r = prepend pre (InitIngress_resolve env ns (h ++ pre) o') ∧
     forallb is_controller_event pre = true ∧
     isOpenShiftProvider env (Provider (Flags o)) = false ∧
     keeps_but_ingress_names o o') ∨
  (∃ o' pre evs given_up version values files,
     let wait :=
       EvWaitForDeploymentToBeReady (IngressDeployment (Flags o')) ns (10 * time_Minute) in
     r = prepend (pre ++ evs ++ [wait])
           (match kube_WaitForDeploymentToBeReady env (h ++ pre ++ evs)
                    (IngressDeployment (Flags o')) ns (10 * time_Minute) with
            | Some e => mkOut (Some (Some e)) o' []
            | None => InitIngress_resolve env ns (h ++ pre ++ evs ++ [wait]) o'
            end) ∧
     forallb is_controller_event pre = true ∧
     isOpenShiftProvider env (Provider (Flags o)) = false ∧
     keeps_but_ingress_names o o' ∧
     install_run (install_attempt env (ingress_chart_options ns version values files))
       3 evs given_up ∧
     ((∀ h' options, InstallChartWithOptions env h' options ≠ None) → given_up ≠ None)).
Proof.
  intros Hfuel r ns. subst ns. remember r as r' eqn:Hr. subst r. revert Hr.
  unfold InitIngress. mexec.
  all: lazymatch goal with
       | |- _ = ?X → _ =>
           lazymatch X with
           | context [InitIngress_install env ?fuel' ?ns ?next ?h' ?o'] =>
               let Hr := fresh "Hr" in
               intros ->;
               destruct (InitIngress_install_outcome fuel' ns next h' o')
                 as [(err & pre & Hr & Hpre & Herr)
                    | (pre & version & values & files & Hr & Hpre)];
               cbv zeta in Hr; rewrite Hr; clear Hr;
               [ left; mnorm; eexists err, _, _; split; [reflexivity|];
                 split; [by rewrite ?forallb_app, ?Hpre|];
                 intros Hnil; right; destruct (Herr Hnil) as (msg & d & Hin);
                 exists msg, d; rewrite ?elem_of_cons, ?elem_of_app; tauto
               | idtac ]
           | context [InitIngress_resolve] =>
               intros ->;
               right; left; mnorm; eexists _, _; split; [reflexivity|];
               split; [reflexivity|]; split; [first [assumption | reflexivity]|]; by repeat split
           | _ =>
               intros ->;
               left; mnorm; eexists _, _, _; split; [reflexivity|]; split; [reflexivity|];
               first [discriminate | intros _; left; first [assumption | reflexivity]]
           end
       end.
  all: match goal with
       | |- context [InitIngress_install_chart env ?fuel' ?ns ?version ?values ?files ?next ?h' ?o'] =>
           destruct (InitIngress_install_chart_run env fuel' ns version values files next h' o' Hfuel)
             as (evs & given_up & Hrun & Hfail & Hc);
           cbv zeta in Hc; rewrite Hc; clear Hc
       end.
  all: right; right; mnorm.
  all: match goal with
       | |- context [prepend ?l _] =>
           match goal with
           | |- context [kube_WaitForDeploymentToBeReady env _ (IngressDeployment (Flags ?o')) _ _] =>
               let p := prefix_before l pre in
               exists o', (p ++ pre), evs, given_up, version, values, files
           end
       end.
  all: cbv zeta; split; [by mnorm|].
  all: split; [by rewrite forallb_app, Hpre|].
  all: split; [first [assumption | reflexivity]|].
  all: by repeat split.
Qed.
End InitIngressController.

(** ** The init command: the install is retried, and giving up is not fatal *)

Section InitIngressInstall.
Import initcmd.
Variable env : Env.

Lemma emitted_prepend {A} evs (r : Out InitOptions Event A) :
  emitted (prepend evs r) = evs ++ emitted r.
Proof. by destruct r. Qed.

Lemma value_prepend {A} evs (r : Out InitOptions Event A) : value (prepend evs r) = value r.
Proof. by destruct r. Qed.

Lemma none_impl (p q : Event → bool) evs :
  (∀ e, q e = true → p e = true) → none p evs = true → none q evs = true.
Proof.
  intros Hqp. unfold none. rewrite !forallb_forall. intros Hp e Hin.
  specialize (Hp e Hin). specialize (Hqp e). destruct (q e), (p e); naive_solver.
Qed.

Lemma controller_events_none evs :
  forallb is_controller_event evs = true →
  none is_install_event evs = true ∧ none is_resolve_event evs = true.
Proof.
  unfold none. rewrite !forallb_forall. intros Hc.
  split; intros e Hin; specialize (Hc e Hin); destruct e as [[] ? ?| | | | | | | | | | | | | | | | | | | | | | | | | | | | | | |]; done.
Qed.

Lemma sleeps_only_none d evs : none is_Sleep evs = true → sleeps_only d evs = true.
Proof.
  unfold none, sleeps_only. rewrite !forallb_forall. intros Hn e Hin.
  specialize (Hn e Hin). by destruct e.
Qed.

Lemma install_events_none evs :
  none is_install_event evs = true →
  none is_InstallChart evs = true ∧ none is_Sleep evs = true ∧ none is_Error_log evs = true.
Proof.
  intros Hn. split_and!; (eapply none_impl; [|exact Hn]); intros e He;
    unfold is_install_event; rewrite He; by rewrite ?orb_true_r.
Qed.

Lemma InitIngress_resolve_facts ns h o :
  is_Some (value (InitIngress_resolve env ns h o)) ∧
  none is_install_event (emitted (InitIngress_resolve env ns h o)) = true.
Proof.
  split; [apply InitIngress_resolve_total|].
  destruct (InitIngress_resolve_quiet env ns h o Logic.I) as [_ Hq].
  unfold none. rewrite forallb_forall. intros e Hin. rewrite Forall_forall in Hq.
  apply list_elem_of_In in Hin. by rewrite (Hq e Hin).
Qed.

Lemma quiet_facts evs :
  none is_install_event evs = true →
  count is_InstallChart evs = 0%nat ∧ count is_Sleep evs = 0%nat ∧
  (∀ d, sleeps_only d evs = true) ∧ ∀ e, install_given_up e ∉ evs.
Proof.
  intros Hq. destruct (install_events_none evs Hq) as (H1 & H2 & H3).
  split_and!; [by apply count_none..| |].
  - intros d. by apply sleeps_only_none.
  - intros e Hin. by pose proof (none_elem_of _ _ _ H3 Hin).
Qed.

(** C1: [InitIngress] always returns (four turns of the install loop are
    enough).  The chart is installed at most 4 times, a first attempt and up
    to 3 retries; there is one pause less than installs, and every pause
    lasts one second.  If no install succeeds and the install is attempted
    at all, it is attempted 4 times and then given up with a logged error.
    Giving up is not fatal: right after the report the workflow waits for
    the deployment to be ready, and the outcome of [InitIngress] is the
    outcome of that wait and, if the deployment gets ready, of the
    resolution of the external IP and the domain; the install error is not
    returned. *)
Theorem C1_install_retried_three_times_then_continues fuel h o :
  (4 ≤ fuel)%nat →
  let r := InitIngress env fuel h o in
  let ns := IngressNamespace (Flags o) in
  is_Some (value r) ∧
  (count is_InstallChart (emitted r) ≤ 4)%nat ∧
  count is_Sleep (emitted r) = pred (count is_InstallChart (emitted r)) ∧
  (∀ d, EvSleep d ∈ emitted r → d = time_Second) ∧
  ((∀ h' options, InstallChartWithOptions env h' options ≠ None) →
   (1 ≤ count is_InstallChart (emitted r))%nat →
   count is_InstallChart (emitted r) = 4%nat ∧ ∃ e, install_given_up e ∈ emitted r) ∧
  (∀ e, install_given_up e ∈ emitted r →
     ∃ pre o',
       let wait :=
         EvWaitForDeploymentToBeReady (IngressDeployment (Flags o')) ns (10 * time_Minute) in
       count is_InstallChart pre = 4%nat ∧
       r = prepend (pre ++ [install_given_up e; wait])
             (match kube_WaitForDeploymentToBeReady env (h ++ pre ++ [install_given_up e])
                      (IngressDeployment (Flags o')) ns (10 * time_Minute) with
              | Some e' => mkOut (Some (Some e')) o' []
              | None => InitIngress_resolve env ns (h ++ pre ++ [install_given_up e; wait]) o'
              end)).
Proof.
  intros Hfuel r ns. subst r ns.
  destruct (InitIngress_outcome env fuel h o Hfuel) as
    [(err & o' & pre & Hr & Hpre & _)
    |[(o' & pre & Hr & Hpre & _ & _)
     |(o' & pre & evs & given_up & version & values & files & Hr & Hpre & _ & _ & Hrun & Hfail)]];
    cbv zeta in Hr; rewrite Hr; clear Hr;
    destruct (controller_events_none pre Hpre) as [Hpre' _];
    destruct (quiet_facts pre Hpre') as (Hp1 & Hp2 & Hp3 & Hp4).
  - cbn [value emitted]. split_and!.
    + by eexists.
    + lia.
    + lia.
    + apply sleeps_only_elem_of, Hp3.
    + intros _ ?. lia.
    + intros e Hin. by destruct (Hp4 e).
  - destruct (InitIngress_resolve_facts (IngressNamespace (Flags o)) (h ++ pre) o')
      as [Hv Hq].
    destruct (quiet_facts _ Hq) as (Hq1 & Hq2 & Hq3 & Hq4).
    rewrite value_prepend, emitted_prepend, !count_app. split_and!.
    + done.
    + lia.
    + lia.
    + apply sleeps_only_elem_of. by rewrite sleeps_only_app, Hp3, Hq3.
    + intros _ ?. lia.
    + intros e [Hin|Hin]%elem_of_app; [by destruct (Hp4 e)|by destruct (Hq4 e)].
  - destruct (install_run_facts env _ _ _ _ Hrun) as (Hi1 & Hi2 & Hi3 & _ & Hi5 & Hi6).
    set (wait := EvWaitForDeploymentToBeReady (IngressDeployment (Flags o'))
                   (IngressNamespace (Flags o)) (10 * time_Minute)) in *.
    assert (∃ tail,
      match kube_WaitForDeploymentToBeReady env (h ++ pre ++ evs)
              (IngressDeployment (Flags o')) (IngressNamespace (Flags o))
              (10 * time_Minute) with
      | Some e => mkOut (Some (Some e)) o' []
      | None => InitIngress_resolve env (IngressNamespace (Flags o))
                  (h ++ pre ++ evs ++ [wait]) o'
      end = tail ∧ is_Some (value tail) ∧ none is_install_event (emitted tail) = true)
      as (tail & Htail & Hv & Hq).
    { eexists. split; [reflexivity|]. destruct (kube_WaitForDeploymentToBeReady _ _ _ _ _).
      - cbn. split; [by eexists|done].
      - apply InitIngress_resolve_facts. }
    destruct (quiet_facts _ Hq) as (Hq1 & Hq2 & Hq3 & Hq4).
    assert (∀ e, install_given_up e ∈ (pre ++ evs ++ [wait]) ++ emitted tail →
                 given_up = Some e) as Hgiven.
    { intros e Hin. apply Hi5.
      rewrite !elem_of_app in Hin. destruct Hin as [[Hin|[Hin|Hin]]|Hin];
        [by destruct (Hp4 e)|done| |by destruct (Hq4 e)].
      apply list_elem_of_singleton in Hin. discriminate. }
    rewrite value_prepend, emitted_prepend, Htail, !count_app. cbn [count List.filter
      is_InstallChart is_Sleep wait length]. split_and!.
    + done.
    + lia.
    + lia.
    + apply sleeps_only_elem_of. by rewrite !sleeps_only_app, Hp3, Hi3, Hq3.
    + intros Hall _. destruct given_up as [e|]; [|by destruct (Hfail Hall)].
      destruct (Hi6 e eq_refl) as (pre1 & -> & Hpre1). split.
      * rewrite count_app in Hi1 |- *. cbn in *. lia.
      * exists e. rewrite !elem_of_app. left. right. left. right. by left.
    + intros e Hin. specialize (Hgiven e Hin). subst given_up.
      destruct (Hi6 e eq_refl) as (pre1 & -> & Hpre1).
      exists (pre ++ pre1), o'. cbv zeta. fold wait. split.
      * rewrite count_app. lia.
      * rewrite <- Htail. rewrite <- !app_assoc. reflexivity.
Qed.
End InitIngressInstall.

Lemma C1_witness :
  let env := initcmd.example_env (0, None) (Some (ExternalError "install failed")) None None in
  let o := initcmd.example_options
             (initcmd.example_flags "gke" "kube-system" "" false true true true false) in
  let r := initcmd.InitIngress env 4 [] o in
  value r = Some None ∧
  initcmd.count initcmd.is_InstallChart (emitted r) = 4%nat ∧
  ∃ e, initcmd.install_given_up e ∈ emitted r.
Proof.
  intros env o r.
  destruct (C1_install_retried_three_times_then_continues env 4 [] o) as
    (_ & _ & _ & _ & Hgiven & _); [lia|].
  split; [reflexivity|]. apply Hgiven.
  - intros h' options. discriminate.
  - vm_compute. lia.
Defined.


(** ** The context switcher: the candidates *)

Section ContextCandidates.
Import cmd.

Lemma prefix_spec sub s : String.prefix sub s = true ↔ ∃ post, s = sub +:+ post.
Proof.
  revert s. induction sub as [|a sub IH]; intros s.
  - split; [intros _; by exists s|by destruct s].
  - destruct s as [|b s]; cbn; [split; [done|by intros [? [=]]]|].
    destruct (Ascii.ascii_dec a b) as [->|Hne].
    + rewrite IH. split; intros [post Hpost]; exists post; [by rewrite Hpost|cbn in Hpost; by injection Hpost].
    + split; [done|]. intros [post [= ? ?]]. done.
Qed.

(** [strings.Index] finds the text exactly when it occurs. *)
Lemma strings_Index_contains s sub : strings_Index s sub >= 0 ↔ contains s sub.
Proof.
  unfold strings_Index, contains.
  enough (∀ i, 0 ≤ i → strings_Index_from i s sub >= 0 ↔ ∃ pre post, s = pre +:+ sub +:+ post)
    as H by (by apply H).
  induction s as [|a s IH]; intros i Hi.
  - cbn [strings_Index_from]. destruct (String.prefix sub "") eqn:Hp.
    + apply prefix_spec in Hp as [post Hp]. split; [|lia]. intros _. by exists "", post.
    + split; [lia|]. intros (pre & post & Heq).
      destruct pre; [|done]. cbn in Heq.
      assert (String.prefix sub "" = true) as Hp' by (apply prefix_spec; by exists post).
      congruence.
  - cbn [strings_Index_from]. destruct (String.prefix sub (String a s)) eqn:Hp.
    + apply prefix_spec in Hp as [post Hp]. split; [|lia]. intros _. by exists "", post.
    + rewrite (IH (i + 1)) by lia. split.
      * intros (pre & post & ->). by exists (String a pre), post.
      * intros (pre & post & Heq). destruct pre as [|b pre].
        -- cbn in Heq.
           assert (String.prefix sub (String a s) = true) as Hp'
             by (apply prefix_spec; by exists post).
           congruence.
        -- cbn in Heq. injection Heq as -> ->. by exists pre, post.
Qed.

Lemma Run_collect_omap filter entries acc :
  foldl (Run_collect filter) acc entries = acc ++ omap (collected filter) entries.
Proof.
  revert acc. induction entries as [|[k v] entries IH]; intros acc; cbn.
  - by rewrite app_nil_r.
  - rewrite IH. unfold collected. cbn.
    repeat case_decide; cbn; by rewrite <- ?app_assoc.
Qed.

Lemma collected_offered filter (m : gmap string (option Context)) name :
  name ∈ omap (collected filter) (map_to_list m) ↔ offered filter m name.
Proof.
  rewrite list_elem_of_omap. unfold collected, offered. split.
  - intros ([k v] & Hin & Hc). apply elem_of_map_to_list in Hin. cbn [fst snd] in Hc.
    destruct (decide (k ≠ "" ∧ v ≠ None)) as [[Hk Hv]|]; [|done].
    destruct (decide (filter = "" ∨ strings_Index k filter >= 0)) as [Hf|]; [|done].
    injection Hc as ->. destruct v as [ctx|]; [|done].
    split_and!; [done|by exists ctx|].
    destruct Hf as [->|Hf]; [by exists "", name|by apply strings_Index_contains].
  - intros (Hne & [ctx Hctx] & Hc). exists (name, Some ctx). split.
    + by apply elem_of_map_to_list.
    + cbn. rewrite decide_True by done.
      rewrite decide_True; [done|]. right. by apply strings_Index_contains.
Qed.

Lemma collected_NoDup filter (m : gmap string (option Context)) :
  NoDup (omap (collected filter) (map_to_list m)).
Proof.
  pose proof (NoDup_fst_map_to_list m) as Hnd.
  induction (map_to_list m) as [|[k v] l IH]; cbn in *; [constructor|].
  apply NoDup_cons in Hnd as [Hk Hl]. unfold collected at 1. cbn.
  repeat case_decide; try by apply IH.
  apply NoDup_cons. split; [|by apply IH].
  intros Hin. apply Hk. apply list_elem_of_omap in Hin as ([k' v'] & Hin & Hc).
  unfold collected in Hc. cbn in Hc. repeat case_decide; simplify_eq.
  apply list_elem_of_fmap. by exists (k, v').
Qed.

(** The candidates do not depend on the order of the visit. *)
Lemma Run_contextNames_Permutation filter entries entries' :
  entries ≡ₚ entries' → Run_contextNames filter entries = Run_contextNames filter entries'.
Proof.
  intros Hp. unfold Run_contextNames, sort_Strings.
  apply (StronglySorted_unique String.le); [apply StronglySorted_merge_sort; apply _..|].
  rewrite !merge_sort_Permutation, !Run_collect_omap. cbn. by rewrite Hp.
Qed.

End ContextCandidates.

(** ** The context switcher: the run *)

Section Prepend.
Context {St Ev A : Type}.

Lemma prepend_assoc (evs1 evs2 : list Ev) (r : Out St Ev A) :
  prepend evs1 (prepend evs2 r) = prepend (evs1 ++ evs2) r.
Proof. destruct r. cbn. by rewrite app_assoc. Qed.

Lemma prepend_empty (r : Out St Ev A) : prepend [] r = r.
Proof. by destruct r. Qed.
End Prepend.

Section ContextRun.
Import cmd.
Variable env : Env.

Local Arguments Run_contextNames : simpl never.

Lemma util_StringArrayIndex_from_spec i array value :
  0 ≤ i →
  ((value ∉ array) ∧ util_StringArrayIndex_from i array value = -1) ∨
  ((value ∈ array) ∧ i ≤ util_StringArrayIndex_from i array value).
Proof.
  revert i. induction array as [|v rest IH]; intros i Hi; cbn.
  - left. split; [apply not_elem_of_nil|done].
  - destruct (decide (v = value)) as [->|Hne].
    + right. split; [apply list_elem_of_here|lia].
    + destruct (IH (i + 1)) as [[Hnin ->]|[Hin Hle]]; [lia|left|right].
      * split; [|done]. by apply not_elem_of_cons.
      * split; [by apply list_elem_of_further|lia].
Qed.

Lemma util_StringArrayIndex_negative array value :
  util_StringArrayIndex array value < 0 ↔ value ∉ array.
Proof.
  unfold util_StringArrayIndex.
  destruct (util_StringArrayIndex_from_spec 0 array value) as [[? ->]|[? ?]]; [done|..].
  - split; [done|lia].
  - split; [lia|done].
Qed.

(** What [Run] does once the configuration is loaded and has contexts. *)
Lemma Run_loaded o h config :
  kube_LoadConfig_err env h = None →
  Contexts config ≠ ∅ →
  Run env o h (Some config) =
    prepend [EvLoadConfig]
      (let contextNames :=
         Run_contextNames (Filter o)
           (range_Contexts env (h ++ [EvLoadConfig]) (Contexts config)) in
       match Args o with
       | ctxName :: _ =>
           if decide (util_StringArrayIndex contextNames ctxName < 0) then
             mkOut (Some (Some (InvalidArg ctxName contextNames))) (Some config) []
           else Run_pick env o config contextNames ctxName (h ++ [EvLoadConfig]) (Some config)
       | [] => Run_pick env o config contextNames "" (h ++ [EvLoadConfig]) (Some config)
       end).
Proof.
  intros Hload Hne. unfold Run, kube_LoadConfig. munfold. cbn. rewrite Hload.
  rewrite decide_False by (by rewrite map_size_empty_iff).
  cbn. rewrite !app_nil_r.
  destruct (Args o) as [|ctxName rest]; cbn.
  - by destruct (Run_pick _ _ _ _ _ _ _).
  - destruct (decide _); [done|]. by destruct (Run_pick _ _ _ _ _ _ _).
Qed.

(** Staying with the current context: one line, nothing is written. *)
Lemma Run_switch_stay config ctxName h s :
  ctxName = "" ∨ ctxName = CurrentContext config →
  Run_switch env config ctxName h s =
    mkOut (Some None) s
      [EvFprintf "Using namespace '%s' from context named '%s' on server '%s'.\n"
         [util_ColorInfo env (kube_CurrentNamespace env config);
          util_ColorInfo env (CurrentContext config);
          util_ColorInfo env (kube_CurrentServer env config)]].
Proof.
  intros Hstay. unfold Run_switch. rewrite decide_False by tauto. by munfold.
Qed.

(** What a switch to another context does. *)
Lemma Run_switch_outcome config ctxName h s :
  ctxName ≠ "" → ctxName ≠ CurrentContext config →
  let newConfig := set_CurrentContext ctxName config in
  Run_switch env config ctxName h s =
    match Contexts config !! ctxName ≫= id with
    | None =>
        mkOut (Some (Some (Errorf "Could not find kubernetes context %s" [Str ctxName]))) s []
    | Some ctx =>
        match clientcmd_ModifyConfig_err env h newConfig with
        | Some e =>
            mkOut (Some (Some (Errorf "Failed to update the kube config %s" [ErrArg e]))) s
              [EvModifyConfig newConfig]
        | None =>
            mkOut (Some None) (Some newConfig)
              [EvModifyConfig newConfig;
               EvFprintf "Now using namespace '%s' from context named '%s' on server '%s'.\n"
                 [util_ColorInfo env (Namespace ctx); util_ColorInfo env ctxName;
                  util_ColorInfo env (kube_Server env config ctx)]]
        end
    end.
Proof.
  intros Hne Hcur newConfig. unfold Run_switch, clientcmd_ModifyConfig.
  rewrite decide_True by done.
  destruct (Contexts config !! ctxName ≫= id) as [ctx|]; [|done].
  munfold. cbn. fold newConfig. by destruct (clientcmd_ModifyConfig_err env h newConfig).
Qed.

End ContextRun.

Section ContextProperties.
Import cmd.
Variable env : Env.

Local Arguments Run_contextNames : simpl never.

(** X1: the candidates that [Run] offers are in ascending order, without
    duplicates, and they are exactly the names that are not empty, are bound
    to a context that is not nil, and in which the filter occurs; the order
    in which the runtime visits the map does not matter. *)
Theorem Run_contextNames_offered filter h (m : gmap string (option Context)) :
  range_visits_each_entry_once env →
  let names := Run_contextNames filter (range_Contexts env h m) in
  StronglySorted String.le names ∧
  NoDup names ∧
  (∀ name, name ∈ names ↔ offered filter m name) ∧
  names = Run_contextNames filter (map_to_list m).
Proof.
  intros Hrange names.
  assert (names = Run_contextNames filter (map_to_list m)) as Hnames
    by apply Run_contextNames_Permutation, Hrange.
  assert (names ≡ₚ omap (collected filter) (map_to_list m)) as Hperm.
  { rewrite Hnames. unfold Run_contextNames, sort_Strings.
    by rewrite merge_sort_Permutation, Run_collect_omap. }
  split_and!; [|by rewrite Hperm; apply collected_NoDup| |done].
  - subst names. unfold Run_contextNames, sort_Strings.
    apply StronglySorted_merge_sort; apply _.
  - intros name. rewrite Hperm. apply collected_offered.
Qed.

(** X2: a positional name that is not offered is refused with the
    invalid-argument error that lists the candidates; nothing is written,
    nobody is asked, and the configuration stays as it was. *)
Theorem Run_refuses_unknown_context o h config name rest :
  range_visits_each_entry_once env →
  kube_LoadConfig_err env h = None →
  Contexts config ≠ ∅ →
  Args o = name :: rest →
  ¬ offered (Filter o) (Contexts config) name →
  Run env o h (Some config) =
    mkOut (Some (Some (InvalidArg name
                         (Run_contextNames (Filter o) (map_to_list (Contexts config))))))
          (Some config) [EvLoadConfig].
Proof.
  intros Hrange Hload Hne Hargs Hno. rewrite Run_loaded by done. rewrite Hargs. cbv zeta.
  destruct (Run_contextNames_offered (Filter o) (h ++ [EvLoadConfig]) (Contexts config) Hrange)
    as (_ & _ & Hin & Heq).
  rewrite decide_True; [by rewrite Heq|].
  apply util_StringArrayIndex_negative. by rewrite Hin.
Qed.

(** X3: a positional name that is offered and is not the current context:
    if the write succeeds, the configuration is written once with that
    context as the current one and the new context is announced; running
    the command again with the same name writes nothing. *)
Theorem Run_switches_once o h config name rest :
  range_visits_each_entry_once env →
  kube_LoadConfig_err env h = None →
  Args o = name :: rest →
  offered (Filter o) (Contexts config) name →
  name ≠ CurrentContext config →
  let newConfig := set_CurrentContext name config in
  clientcmd_ModifyConfig_err env (h ++ [EvLoadConfig]) newConfig = None →
  (∃ ctx,
     Contexts config !! name = Some (Some ctx) ∧
     Run env o h (Some config) =
       mkOut (Some None) (Some newConfig)
         [EvLoadConfig; EvModifyConfig newConfig; line_now_using env config name ctx]) ∧
  (∀ h', kube_LoadConfig_err env h' = None →
         Run env o h' (Some newConfig) =
           mkOut (Some None) (Some newConfig) [EvLoadConfig; line_using env newConfig]).
Proof.
  intros Hrange Hload Hargs Hoff Hcur newConfig Hwrite.
  pose proof Hoff as (Hname & [ctx Hctx] & Hfilter).
  assert (Contexts config ≠ ∅) as Hne by (intros Hm; by rewrite Hm in Hctx).
  assert (∀ h', ¬ util_StringArrayIndex
                    (Run_contextNames (Filter o)
                       (range_Contexts env h' (Contexts config))) name < 0) as Hidx.
  { intros h'. rewrite util_StringArrayIndex_negative.
    destruct (Run_contextNames_offered (Filter o) h' (Contexts config) Hrange)
      as (_ & _ & Hin & _).
    intros Hnin. apply Hnin. by apply Hin. }
  split.
  - exists ctx. split; [done|].
    rewrite Run_loaded by done. rewrite Hargs. cbv zeta.
    rewrite decide_False by apply Hidx.
    unfold Run_pick. rewrite decide_False by tauto.
    rewrite Run_switch_outcome by done. cbv zeta. rewrite Hctx. cbn [mbind option_bind id].
    fold newConfig. by rewrite Hwrite.
  - intros h' Hload'.
    rewrite Run_loaded by done. rewrite Hargs. cbv zeta. cbn [Contexts newConfig set_CurrentContext Filter].
    rewrite decide_False by apply Hidx.
    unfold Run_pick. rewrite decide_False by tauto.
    rewrite Run_switch_stay by (by right). done.
Qed.

(** The four ways in which the switch ends. *)
Lemma Run_switch_cases config ctxName h s :
  let r := Run_switch env config ctxName h s in
  let newConfig := set_CurrentContext ctxName config in
  r = mkOut (Some None) s [line_using env config] ∨
  (∃ e, r = mkOut (Some (Some e)) s []) ∨
  (∃ ctx, Contexts config !! ctxName = Some (Some ctx) ∧ ctxName ≠ CurrentContext config ∧
     ((∃ e, r = mkOut (Some (Some e)) s [EvModifyConfig newConfig]) ∨
      r = mkOut (Some None) (Some newConfig)
            [EvModifyConfig newConfig; line_now_using env config ctxName ctx])).
Proof.
  intros r newConfig. subst r.
  destruct (decide (ctxName ≠ "" ∧ ctxName ≠ CurrentContext config)) as [[Hne Hcur]|Hstay].
  - rewrite Run_switch_outcome by done. cbv zeta. fold newConfig.
    destruct (Contexts config !! ctxName) as [[ctx|]|] eqn:Hctx; cbn [mbind option_bind id].
    + right. right. exists ctx. split_and!; [done..|].
      destruct (clientcmd_ModifyConfig_err env h newConfig); [left; by eexists|by right].
    + right. left. by eexists.
    + right. left. by eexists.
  - left. apply Run_switch_stay.
    destruct (decide (ctxName = "")); [by left|right].
    destruct (decide (ctxName = CurrentContext config)); [done|tauto].
Qed.

End ContextProperties.

Section ContextSafety.
Import cmd.
Variable env : Env.

Local Arguments Run_contextNames : simpl never.

(** Without a configuration to work on, [Run] fails right after the load. *)
Lemma Run_not_loaded o h s :
  is_Some (kube_LoadConfig_err env h) ∨ s = None ∨ (∃ config, s = Some config ∧ Contexts config = ∅) →
  ∃ e, Run env o h s = mkOut (Some (Some e)) s [EvLoadConfig].
Proof.
  intros Hno. unfold Run, kube_LoadConfig. munfold. cbn.
  destruct (kube_LoadConfig_err env h) as [e|]; [by eexists|].
  destruct s as [config|]; [|by eexists].
  destruct Hno as [[? [=]]|[[=]|(config' & [= <-] & Hempty)]].
  rewrite decide_True by (by rewrite map_size_empty_iff). by eexists.
Qed.

(** The ways in which [Run] ends: with an error and nothing done but the
    load and maybe the prompt, or with the switch. *)
Lemma Run_cases o h s :
  let r := Run env o h s in
  (∃ e evs, r = mkOut (Some (Some e)) s evs ∧ writes evs = 0%nat) ∨
  (∃ config evs ctxName h',
     s = Some config ∧ writes evs = 0%nat ∧
     r = prepend evs (Run_switch env config ctxName h' s)).
Proof.
  intros r. subst r.
  destruct (kube_LoadConfig_err env h) as [e|] eqn:Hload.
  { destruct (Run_not_loaded o h s) as [e' ->]; [left; by eexists|]. left. by eexists _, _. }
  destruct s as [config|].
  2: { destruct (Run_not_loaded o h None) as [e' ->]; [by right; left|]. left. by eexists _, _. }
  destruct (decide (Contexts config = ∅)) as [Hempty|Hne].
  { destruct (Run_not_loaded o h (Some config)) as [e' ->]; [right; right; by eexists|].
    left. by eexists _, _. }
  rewrite Run_loaded by done. cbv zeta.
  set (names := Run_contextNames _ _).
  assert (∀ ctxName,
    (∃ e evs, prepend [EvLoadConfig]
                (Run_pick env o config names ctxName (h ++ [EvLoadConfig]) (Some config)) =
              mkOut (Some (Some e)) (Some config) evs ∧ writes evs = 0%nat) ∨
    (∃ config' evs ctxName' h',
       Some config = Some config' ∧ writes evs = 0%nat ∧
       prepend [EvLoadConfig]
         (Run_pick env o config names ctxName (h ++ [EvLoadConfig]) (Some config)) =
       prepend evs (Run_switch env config' ctxName' h' (Some config)))) as Hpick.
  { intros ctxName. unfold Run_pick.
    destruct (decide (ctxName = "" ∧ BatchMode o = false)).
    - unfold PickContext. destruct names as [|n1 [|n2 names']]; munfold; cbn.
      + right. rewrite ?prepend_empty. eexists config, _, _, _.
        split; [reflexivity|]. split; [|reflexivity]. reflexivity.
      + right. rewrite ?prepend_empty. eexists config, _, _, _.
        split; [reflexivity|]. split; [|reflexivity]. reflexivity.
      + destruct (survey_AskOne env _ _ _) as [pick [e|]]; cbn.
        * left. by eexists _, _.
        * right. rewrite ?prepend_assoc. eexists config, _, _, _.
          split; [reflexivity|]. split; [|reflexivity]. reflexivity.
    - right. eexists config, _, _, _.
      split; [reflexivity|]. split; [|reflexivity]. reflexivity. }
  destruct (Args o) as [|ctxName rest]; [apply Hpick|].
  destruct (decide _); [|apply Hpick].
  left. by eexists _, _.
Qed.

(** X4: [Run] always ends, and it writes the configuration at most once.
    What it writes is the configuration it loaded with another current
    context, one that exists and is not nil.  If [Run] ends with an error, or
    without a write, the configuration is as it was; if it ends well after a
    write, the configuration is the one written. *)
Theorem Run_writes_at_most_once o h s :
  let r := Run env o h s in
  is_Some (value r) ∧
  (writes (emitted r) ≤ 1)%nat ∧
  (∀ e, value r = Some (Some e) → state r = s) ∧
  (writes (emitted r) = 0%nat → state r = s) ∧
  (∀ newConfig, EvModifyConfig newConfig ∈ emitted r →
     ∃ config ctx,
       s = Some config ∧
       Contexts config !! CurrentContext newConfig = Some (Some ctx) ∧
       CurrentContext newConfig ≠ CurrentContext config ∧
       newConfig = set_CurrentContext (CurrentContext newConfig) config ∧
       (value r = Some None → state r = Some newConfig)).
Proof.
  intros r. subst r.
  assert (∀ evs e, writes evs = 0%nat → EvModifyConfig e ∉ evs) as Hnone.
  { intros evs e Hw Hin. unfold writes in Hw. apply length_zero_iff_nil in Hw.
    assert (EvModifyConfig e ∈ List.filter is_ModifyConfig evs) as Hin'.
    { apply list_elem_of_In, filter_In. split; [by apply list_elem_of_In|done]. }
    rewrite Hw in Hin'. by apply elem_of_nil in Hin'. }
  destruct (Run_cases o h s) as [(e & evs & -> & Hw)|(config & evs & ctxName & h' & -> & Hw & ->)].
  { cbn [value state emitted]. rewrite Hw.
    split_and!; [by eexists|lia|done|done|]. intros nc Hin. by destruct (Hnone _ _ Hw Hin). }
  destruct (Run_switch_cases env config ctxName h' (Some config))
    as [->|[[e ->]|(ctx & Hctx & Hcur & [[e ->]| ->])]];
    cbn [prepend value state emitted]; unfold writes in *; rewrite ?List.filter_app, ?length_app, ?Hw;
    cbn [List.filter is_ModifyConfig line_using line_now_using length].
  - split_and!; [by eexists|lia|done|done|].
    intros nc [Hin|Hin]%elem_of_app; [by destruct (Hnone _ _ Hw Hin)|].
    apply list_elem_of_singleton in Hin. discriminate.
  - split_and!; [by eexists|lia|done|done|].
    intros nc [Hin|Hin]%elem_of_app; [by destruct (Hnone _ _ Hw Hin)|].
    by apply elem_of_nil in Hin.
  - split_and!; [by eexists|lia|done|done|].
    intros nc [Hin|Hin]%elem_of_app; [by destruct (Hnone _ _ Hw Hin)|].
    apply list_elem_of_singleton in Hin. injection Hin as ->.
    by exists config, ctx.
  - split_and!; [by eexists|lia|done|lia|].
    intros nc [Hin|Hin]%elem_of_app; [by destruct (Hnone _ _ Hw Hin)|].
    apply elem_of_cons in Hin as [Hin|Hin]; [|apply list_elem_of_singleton in Hin; discriminate].
    injection Hin as ->. by exists config, ctx.
Qed.

(** X5: in batch mode and without a positional name, [Run] shows the
    current context: nobody is asked, nothing is written. *)
Theorem Run_batch_shows_current_context o h config :
  kube_LoadConfig_err env h = None →
  Contexts config ≠ ∅ →
  Args o = [] →
  BatchMode o = true →
  Run env o h (Some config) =
    mkOut (Some None) (Some config) [EvLoadConfig; line_using env config].
Proof.
  intros Hload Hne Hargs Hbatch. rewrite Run_loaded by done. rewrite Hargs. cbv zeta.
  unfold Run_pick. rewrite decide_False by (rewrite Hbatch; intros [_ [=]]).
  by rewrite Run_switch_stay by (by left).
Qed.

(** X6: without a positional name and not in batch mode, the operator is
    asked exactly when there are at least two candidates, with the
    candidates as the options and the current context as the default; an
    error of the prompt ends the run with that error and the configuration
    as it was.  A single candidate is taken without asking. *)
Theorem Run_asks_when_there_is_a_choice o h config :
  kube_LoadConfig_err env h = None →
  Contexts config ≠ ∅ →
  Args o = [] →
  BatchMode o = false →
  let r := Run env o h (Some config) in
  let names :=
    Run_contextNames (Filter o) (range_Contexts env (h ++ [EvLoadConfig]) (Contexts config)) in
  let ask := EvSelect "Change kubernetes context:" names (CurrentContext config) in
  ((length names < 2)%nat → prompts (emitted r) = 0%nat) ∧
  (∀ name, names = [name] →
     r = prepend [EvLoadConfig] (Run_switch env config name (h ++ [EvLoadConfig]) (Some config))) ∧
  ((2 ≤ length names)%nat →
     prompts (emitted r) = 1%nat ∧
     ∃ pick err,
       survey_AskOne env (h ++ [EvLoadConfig]) names (CurrentContext config) = (pick, err) ∧
       match err with
       | Some e => r = mkOut (Some (Some e)) (Some config) [EvLoadConfig; ask]
       | None =>
           r = prepend [EvLoadConfig; ask]
                 (Run_switch env config pick (h ++ [EvLoadConfig; ask]) (Some config))
       end).
Proof.
  intros Hload Hne Hargs Hbatch r names ask. subst r.
  assert (∀ name h', prompts (emitted (Run_switch env config name h' (Some config))) = 0%nat)
    as Hquiet.
  { intros name h'.
    destruct (Run_switch_cases env config name h' (Some config))
      as [->|[[e ->]|(ctx & _ & _ & [[e ->]| ->])]]; done. }
  rewrite Run_loaded by done. rewrite Hargs. cbv zeta. fold names.
  unfold Run_pick. rewrite decide_True by done. unfold PickContext.
  destruct names as [|n1 [|n2 names']] eqn:Hnames.
  - split_and!; [|done|cbn; lia]. intros _. munfold. cbn.
    specialize (Hquiet "" ((h ++ [EvLoadConfig]) ++ [])).
    by destruct (Run_switch _ _ _ _ _).
  - split_and!; [| |cbn; lia].
    + intros _. munfold. cbn. specialize (Hquiet n1 ((h ++ [EvLoadConfig]) ++ [])).
      by destruct (Run_switch _ _ _ _ _).
    + intros name [= <-]. munfold. cbn. rewrite app_nil_r.
      by destruct (Run_switch _ _ _ _ _).
  - split_and!; [cbn; lia|done|]. intros _. munfold. cbn.
    destruct (survey_AskOne env _ _ _) as [pick [e|]] eqn:Hask; cbn.
    + split; [done|]. by exists pick, (Some e).
    + rewrite <- app_assoc. cbn [app].
      specialize (Hquiet pick (h ++ [EvLoadConfig; ask])).
      split.
      * subst ask. destruct (Run_switch _ _ _ _ _). cbn in *. unfold prompts in *. cbn. by rewrite Hquiet.
      * exists pick, None. split; [done|]. subst ask. by destruct (Run_switch _ _ _ _ _).
Qed.

End ContextSafety.

(** ** The context switcher on the example configuration *)

Lemma Run_contextNames_offered_witness :
  let env := cmd.example_env ("", None) None in
  let contexts := cmd.Contexts cmd.example_config in
  let names := cmd.Run_contextNames "" (cmd.range_Contexts env [] contexts) in
  names = ["prod"; "staging"] ∧ NoDup names ∧ ∀ name, name ∈ names ↔ offered "" contexts name.
Proof.
  intros env contexts names.
  destruct (Run_contextNames_offered env "" [] contexts) as (_ & Hnd & Hin & _).
  - intros h m. reflexivity.
  - split; [vm_compute; reflexivity|]. by split.
Defined.

Lemma Run_refuses_unknown_context_witness :
  cmd.Run (cmd.example_env ("", None) None)
      {| cmd.Args := ["missing"]; cmd.BatchMode := true; cmd.Filter := "" |} []
      (Some cmd.example_config) =
    mkOut (Some (Some (InvalidArg "missing" ["prod"; "staging"])))
          (Some cmd.example_config) [cmd.EvLoadConfig].
Proof.
  apply (Run_refuses_unknown_context (cmd.example_env ("", None) None)
           {| cmd.Args := ["missing"]; cmd.BatchMode := true; cmd.Filter := "" |} []
           cmd.example_config "missing" []).
  - intros h m. reflexivity.
  - reflexivity.
  - apply insert_non_empty.
  - reflexivity.
  - intros (_ & [ctx Hctx] & _). vm_compute in Hctx. discriminate.
Defined.

Lemma Run_switches_once_witness :
  let env := cmd.example_env ("", None) None in
  let o := {| cmd.Args := ["staging"]; cmd.BatchMode := false; cmd.Filter := "" |} in
  let newConfig := cmd.set_CurrentContext "staging" cmd.example_config in
  (∃ ctx,
     cmd.Run env o [] (Some cmd.example_config) =
       mkOut (Some None) (Some newConfig)
         [cmd.EvLoadConfig; cmd.EvModifyConfig newConfig;
          line_now_using env cmd.example_config "staging" ctx]) ∧
  cmd.Run env o [] (Some newConfig) =
    mkOut (Some None) (Some newConfig) [cmd.EvLoadConfig; line_using env newConfig].
Proof.
  intros env o newConfig.
  destruct (Run_switches_once env o [] cmd.example_config "staging" [])
    as [(ctx & _ & Hrun) Hagain].
  - intros h m. reflexivity.
  - reflexivity.
  - reflexivity.
  - split; [done|]. split; [by eexists|]. by exists "staging", "".
  - discriminate.
  - reflexivity.
  - split; [by exists ctx|]. by apply Hagain.
Defined.

Lemma Run_batch_shows_current_context_witness :
  let env := cmd.example_env ("", None) None in
  cmd.Run env {| cmd.Args := []; cmd.BatchMode := true; cmd.Filter := "" |} []
      (Some cmd.example_config) =
    mkOut (Some None) (Some cmd.example_config)
      [cmd.EvLoadConfig; line_using env cmd.example_config].
Proof.
  intros env.
  apply (Run_batch_shows_current_context env
           {| cmd.Args := []; cmd.BatchMode := true; cmd.Filter := "" |} [] cmd.example_config).
  - reflexivity.
  - apply insert_non_empty.
  - reflexivity.
  - reflexivity.
Defined.

Lemma Run_asks_when_there_is_a_choice_witness :
  let env := cmd.example_env ("staging", None) None in
  let o := {| cmd.Args := []; cmd.BatchMode := false; cmd.Filter := "" |} in
  prompts (emitted (cmd.Run env o [] (Some cmd.example_config))) = 1%nat ∧
  prompts (emitted (cmd.Run env {| cmd.Args := []; cmd.BatchMode := false; cmd.Filter := "sta" |}
                      [] (Some cmd.example_config))) = 0%nat.
Proof.
  intros env o. split.
  - destruct (Run_asks_when_there_is_a_choice env o [] cmd.example_config)
      as (_ & _ & Hask); [reflexivity|apply insert_non_empty|reflexivity|reflexivity|].
    apply Hask. vm_compute. lia.
  - destruct (Run_asks_when_there_is_a_choice env
                {| cmd.Args := []; cmd.BatchMode := false; cmd.Filter := "sta" |} []
                cmd.example_config)
      as (Hquiet & _ & _); [reflexivity|apply insert_non_empty|reflexivity|reflexivity|].
    apply Hquiet. vm_compute. lia.
Defined.

(** ** More on evaluating a computation *)

(** Evaluating with case distinctions, leaving at once the cases that the
    hypotheses exclude. *)
Ltac mprune := try (exfalso; clear_decide; tauto).

(** The texts of the messages play no part in the evaluation: they are
    named before it and put back after it. *)
Ltac name_texts := repeat (let text := fresh "text" in set (text := String _ _)).
Ltac put_texts_back :=
  repeat match goal with text := String _ _ |- _ => subst text end.

(** The membership of an event in a list that is known. *)
Ltac elem_cases H :=
  repeat (apply elem_of_cons in H as [H|H]; [try discriminate H; try (injection H as ?); subst|]);
  try (by apply elem_of_nil in H).

(** ** The init command: OpenShift, and a supplied external IP *)

Section InitIngressBranches.
Import initcmd.
Variable env : Env.

Lemma isOpenShiftProvider_true provider :
  provider = cloud_OPENSHIFT env → isOpenShiftProvider env provider = true.
Proof. intros ->. unfold isOpenShiftProvider. by rewrite decide_True. Qed.

Lemma isOpenShiftProvider_false provider :
  provider ≠ cloud_OPENSHIFT env → isOpenShiftProvider env provider = false.
Proof. intros H. unfold isOpenShiftProvider. by rewrite decide_False. Qed.

(** On OpenShift, [InitIngress] leaves the ingress alone. *)
Lemma InitIngress_openshift_skips_ingress_events fuel h o :
  Provider (Flags o) = cloud_OPENSHIFT env →
  let r := InitIngress env fuel h o in
  count is_DeploymentPodCount (emitted r) = 0%nat ∧
  count is_InstallChart (emitted r) = 0%nat ∧
  count is_WaitForDeploymentToBeReady (emitted r) = 0%nat ∧
  count is_WaitForExternalIP (emitted r) = 0%nat ∧
  count is_GetDomain (emitted r) = 0%nat.
Proof.
  intros Hprovider r. subst r.
  pose proof (isOpenShiftProvider_true _ Hprovider) as Hopenshift.
  remember (InitIngress env fuel h o) as r eqn:Hr. revert Hr.
  unfold InitIngress. mhyps. mexec; intros ->; by cbn.
Qed.

(** X7: on OpenShift, [InitIngress] never counts the pods of the ingress
    deployment, never installs the chart, never waits for the deployment or
    for an external IP and never resolves the domain, whatever the cluster
    answers; and once the kube client is there and the ingress namespace is
    ensured, it returns nil right after the line that says so, with the
    options as they were. *)
Theorem InitIngress_openshift_skips_ingress fuel h o :
  Provider (Flags o) = cloud_OPENSHIFT env →
  let r := InitIngress env fuel h o in
  let ns := IngressNamespace (Flags o) in
  (count is_DeploymentPodCount (emitted r) = 0%nat ∧
   count is_InstallChart (emitted r) = 0%nat ∧
   count is_WaitForDeploymentToBeReady (emitted r) = 0%nat ∧
   count is_WaitForExternalIP (emitted r) = 0%nat ∧
   count is_GetDomain (emitted r) = 0%nat) ∧
  (KubeClient env h = None →
   kube_EnsureNamespaceCreated env (h ++ [EvKubeClient]) ns = None →
   r = mkOut (Some None) o
         [EvKubeClient;
          EvEnsureNamespaceCreated ns [("jenkins.io/kind", "ingress")];
          EvLog Info "Not installing ingress as using OpenShift which uses Route and its own mechanism of ingress" []]).
Proof.
  intros Hprovider r ns. subst r ns.
  pose proof (isOpenShiftProvider_true _ Hprovider) as Hopenshift.
  split; [by apply InitIngress_openshift_skips_ingress_events|].
  intros Hkube Hensure. unfold InitIngress. mhyps. msimpl.
  rewrite app_nil_r, Hkube. msimpl. rewrite app_nil_r, Hensure. msimpl.
  by rewrite Hopenshift.
Qed.



Lemma info_logs_none evs :
  forallb is_Info_log evs = true → none is_resolve_event evs = true.
Proof.
  unfold none. rewrite !forallb_forall. intros Hc e Hin. specialize (Hc e Hin).
  by destruct e.
Qed.

Lemma resolve_events_none evs :
  none is_resolve_event evs = true → count is_WaitForExternalIP evs = 0%nat.
Proof.
  intros Hn. apply count_none. eapply none_impl; [|exact Hn].
  intros e He. unfold is_resolve_event. by rewrite He.
Qed.
End InitIngressBranches.

Lemma InitIngress_openshift_skips_ingress_witness :
  let env := initcmd.example_env (0, None) None None None in
  let o := initcmd.example_options
             (initcmd.example_flags "openshift" "kube-system" "" false true true true false) in
  initcmd.InitIngress env 4 [] o =
    mkOut (Some None) o
      [initcmd.EvKubeClient;
       initcmd.EvEnsureNamespaceCreated "kube-system" [("jenkins.io/kind", "ingress")];
       initcmd.EvLog initcmd.Info "Not installing ingress as using OpenShift which uses Route and its own mechanism of ingress" []].
Proof.
  intros env o.
  destruct (InitIngress_openshift_skips_ingress env 4 [] o) as [_ H]; [reflexivity|].
  apply H; reflexivity.
Defined.


(** ** The init command: the error of the pod count *)

Section InitIngressPodCount.
Import initcmd.
Variable env : Env.

(** X9: the error that [kube.DeploymentPodCount] returns is never looked
    at: [InitIngress] runs the same way, event for event, on a cluster that
    answers with the same counts and no error.  Only the count decides
    whether the controller is installed. *)
Theorem InitIngress_ignores_pod_count_error fuel h o :
  InitIngress (forget_DeploymentPodCount_error env) fuel h o = InitIngress env fuel h o.
Proof.
  unfold InitIngress.
  change (InitIngress_resolve (forget_DeploymentPodCount_error env))
    with (InitIngress_resolve env).
  change (InitIngress_install (forget_DeploymentPodCount_error env))
    with (InitIngress_install env).
  change (isOpenShiftProvider (forget_DeploymentPodCount_error env))
    with (isOpenShiftProvider env).
  unfold forget_DeploymentPodCount_error, set_kube_DeploymentPodCount.
  cbn [KubeClient kube_EnsureNamespaceCreated kube_DeploymentPodCount cloud_ALIBABA
       opts_DefaultIngressServiceName].
  mexec; reflexivity.
Qed.

End InitIngressPodCount.


(** ** The init command: the git configuration *)

Section InitValidateGit.
Import initcmd.
Variable env : Env.

End InitValidateGit.

(** ** The init command: IBM Cloud Private and IBM Kubernetes Service *)

Section InitIBM.
Import initcmd.
Variable env : Env.

(** The events of [l] that come before the first prompt. *)
Ltac before_input l :=
  lazymatch l with
  | EvInput _ _ :: _ => constr:(@nil Event)
  | ?x :: ?l' => let p := before_input l' in constr:(x :: p)
  end.

(** X12: [configureForICP] always sets the ingress namespace to
    [kube-system], the ingress deployment and service to [default-backend],
    the tiller namespace to [default] and the namespace to [jx], whatever
    the operator gave.  In batch mode, or when an external IP is given,
    nobody is asked and no other flag changes.  Otherwise the operator is
    asked for the external IP and then for the domain, with the IP followed
    by [.nip.io] as the default, and the two answers become the external IP
    and the domain. *)
Theorem configureForICP_outcome h o :
  let r := configureForICP env h o in
  let defaults :=
    set_Namespace "jx" (set_TillerNamespace "default" (set_IngressService "default-backend"
      (set_IngressDeployment "default-backend" (set_IngressNamespace "kube-system" (Flags o))))) in
  let askIP := "Provide the external IP Jenkins X should use: typically your IBM Cloud Private proxy node IP address" in
  let askDomain := "Provide the domain Jenkins X should be available at: typically your IBM Cloud Private proxy node IP address but with a domain added to the end" in
  value r = Some tt ∧
  (BatchMode o = true ∨ ExternalIP (Flags o) ≠ "" →
     state r = set_Flags defaults o ∧ forallb is_Info_log (emitted r) = true) ∧
  (BatchMode o = false → ExternalIP (Flags o) = "" →
     ∃ notes ip domain,
       forallb is_Info_log notes = true ∧
       ip = survey_Input env (h ++ notes) askIP "" ∧
       domain = survey_Input env (h ++ notes ++ [EvInput askIP ""]) askDomain (ip +:+ ".nip.io") ∧
       emitted r = notes ++ [EvInput askIP ""; EvInput askDomain (ip +:+ ".nip.io")] ∧
       state r = set_Flags (set_Domain domain (set_ExternalIP ip defaults)) o).
Proof.
  intros r defaults askIP askDomain. subst r defaults askIP askDomain.
  remember (configureForICP env h o) as r eqn:Hr. revert Hr.
  unfold configureForICP. mexec.
  all: intros ->; cbn [value state emitted app]; clear_decide.
  all: split; [reflexivity|].
  all: split; [first [intros _; by split | intros [[=]|?]; done]|].
  all: first [by intros [=] | intros _ ?; try done].
  mlists.
  match goal with
  | |- ∃ notes ip domain, _ ∧ _ ∧ _ ∧ ?l = _ ∧ _ =>
      let p := before_input l in exists p; eexists _, _
  end.
  split; [reflexivity|]. split; [reflexivity|]. split; [reflexivity|]. split; reflexivity.
Qed.
End InitIBM.

(** ** The init command: the external IP and the domain *)

Section InitIngressResolve.
Import initcmd.
Variable env : Env.

Lemma state_prepend {A} evs (r : Out InitOptions Event A) : state (prepend evs r) = state r.
Proof. by destruct r. Qed.

(** On a provider other than OpenShift, [InitIngress] either ends before
    the resolution of the external IP and the domain, or it ends with that
    resolution, on options that differ from the given ones at most in the
    names of the ingress deployment and service. *)
Lemma InitIngress_reaches_resolve fuel h o :
  (4 ≤ fuel)%nat →
  Provider (Flags o) ≠ cloud_OPENSHIFT env →
  let r := InitIngress env fuel h o in
  (∃ err, value r = Some err ∧ none is_resolve_event (emitted r) = true ∧
          (err = None → ∃ msg d, EvConfirm msg d ∈ emitted r)) ∨
  (∃ pre o',
     keeps_but_ingress_names o o' ∧
     none is_resolve_event pre = true ∧
     r = prepend pre (InitIngress_resolve env (IngressNamespace (Flags o)) (h ++ pre) o')).
Proof.
  intros Hfuel Hprovider r. subst r.
  pose proof (isOpenShiftProvider_false env _ Hprovider) as Hopenshift.
  destruct (InitIngress_outcome env fuel h o Hfuel) as
    [(err & o' & pre & Hr & Hpre & Herr)
    |[(o' & pre & Hr & Hpre & _ & Hkeeps)
     |(o' & pre & evs & given_up & version & values & files & Hr & Hpre & _ & Hkeeps & Hrun & _)]];
    cbv zeta in Hr; rewrite Hr; clear Hr;
    destruct (controller_events_none pre Hpre) as [_ Hpre'].
  - left. exists err. cbn [value emitted]. split_and!; [done..|].
    intros Hnil. destruct (Herr Hnil) as [Hos|Hconfirm]; [congruence|done].
  - right. by exists pre, o'.
  - destruct (install_run_facts env _ _ _ _ Hrun) as (_ & _ & _ & Hevs & _ & _).
    set (wait := EvWaitForDeploymentToBeReady (IngressDeployment (Flags o'))
                   (IngressNamespace (Flags o)) (10 * time_Minute)) in *.
    assert (none is_resolve_event (pre ++ evs ++ [wait]) = true) as Hbefore
      by (by rewrite !none_app, Hpre', Hevs).
    destruct (kube_WaitForDeploymentToBeReady env _ _ _ _) as [e|].
    + left. exists (Some e). cbn [prepend value emitted]. rewrite app_nil_r. by split_and!.
    + right. by exists (pre ++ evs ++ [wait]), o'.
Qed.

(** What the resolution does with the answer of [GetDomain]. *)
Lemma InitIngress_resolve_domain ns h o :
  let r := InitIngress_resolve env ns h o in
  (count is_GetDomain (emitted r) ≤ 1)%nat ∧
  (∀ domain provider ns' service ip,
     EvGetDomain domain provider ns' service ip ∈ emitted r →
     ∃ pre answer,
       GetDomain env (h ++ pre) domain provider ns' service ip = answer ∧
       Domain (Flags (state r)) = answer.1 ∧
       CommonOptions_Domain (state r) = answer.1 ∧
       value r = Some answer.2) ∧
  (count is_GetDomain (emitted r) = 0%nat → state r = o).
Proof.
  intros r. remember r as r' eqn:Hr. subst r. revert Hr.
  unfold InitIngress_resolve. name_texts. mexec.
  all: intros ->; cbn [value state emitted app]; rewrite ?app_nil_r, <- ?app_assoc in *;
       clear_decide.
  all: split; [cbn; lia|].
  all: split; [|first [by intros [=] | reflexivity | cbn; intros; lia]].
  all: let H := fresh in intros ????? H; put_texts_back; elem_cases H.
  all: match goal with
       | Heq : GetDomain env (_ ++ ?pre) _ _ _ _ _ = ?answer |- _ =>
           exists pre, answer; split; [exact Heq|by split_and!]
       end.
Qed.

(** X13: [InitIngress] asks [GetDomain] at most once, and whatever
    [GetDomain] answers is stored: the domain of the answer becomes the
    domain of the flags and of the common options, also when the answer
    comes with an error, and the error of the answer, or nil, is what
    [InitIngress] returns. *)
Theorem InitIngress_stores_the_resolved_domain fuel h o :
  (4 ≤ fuel)%nat →
  let r := InitIngress env fuel h o in
  (count is_GetDomain (emitted r) ≤ 1)%nat ∧
  (∀ domain provider ns service ip,
     EvGetDomain domain provider ns service ip ∈ emitted r →
     ∃ pre answer,
       GetDomain env (h ++ pre) domain provider ns service ip = answer ∧
       Domain (Flags (state r)) = answer.1 ∧
       CommonOptions_Domain (state r) = answer.1 ∧
       value r = Some answer.2).
Proof.
  intros Hfuel r. subst r.
  assert (∀ evs, none is_resolve_event evs = true →
            count is_GetDomain evs = 0%nat ∧ ∀ d p n s ip, EvGetDomain d p n s ip ∉ evs)
    as Hquiet.
  { intros evs Hevs. split.
    - apply count_none. eapply none_impl; [|exact Hevs].
      intros e He. unfold is_resolve_event. by rewrite He, orb_true_r.
    - intros d p n s ip Hin. by pose proof (none_elem_of _ _ _ Hevs Hin). }
  destruct (decide (Provider (Flags o) = cloud_OPENSHIFT env)) as [Hos|Hos].
  { destruct (InitIngress_openshift_skips_ingress_events env fuel h o Hos) as (_ & _ & _ & _ & Hd).
    split; [lia|]. intros d p n s ip Hin.
    assert (count is_GetDomain (emitted (InitIngress env fuel h o)) ≠ 0%nat); [|done].
    unfold count. apply list_elem_of_In in Hin.
    intros Hlen%length_zero_iff_nil.
    assert (In (EvGetDomain d p n s ip) (List.filter is_GetDomain (emitted (InitIngress env fuel h o))))
      as Hin' by (by apply filter_In).
    by rewrite Hlen in Hin'. }
  destruct (InitIngress_reaches_resolve fuel h o Hfuel Hos)
    as [(err & Hv & Hevs & _)|(pre & o' & _ & Hpre & Hr)].
  - destruct (Hquiet _ Hevs) as [Hc Hnin]. split; [lia|].
    intros d p n s ip Hin. by destruct (Hnin d p n s ip).
  - cbv zeta in Hr. rewrite Hr, emitted_prepend, state_prepend, value_prepend, count_app.
    destruct (Hquiet _ Hpre) as [Hc Hnin].
    destruct (InitIngress_resolve_domain (IngressNamespace (Flags o)) (h ++ pre) o')
      as (Hone & Hstore & _).
    split; [lia|].
    intros d p n s ip [Hin|Hin]%elem_of_app; [by destruct (Hnin d p n s ip)|].
    destruct (Hstore d p n s ip Hin) as (pre2 & answer & Hanswer & Hrest).
    exists (pre ++ pre2), answer. by rewrite app_assoc.
Qed.
End InitIngressResolve.

Lemma InitIngress_stores_the_resolved_domain_witness :
  let env := initcmd.example_env (1, None) None None None in
  let o := initcmd.example_options
             (initcmd.example_flags "gke" "kube-system" "10.0.0.7" false true true true false) in
  let r := initcmd.InitIngress env 4 [] o in
  initcmd.Domain (initcmd.Flags (state r)) = "10.0.0.7.nip.io" ∧
  initcmd.CommonOptions_Domain (state r) = "10.0.0.7.nip.io".
Proof.
  intros env o r.
  destruct (InitIngress_stores_the_resolved_domain env 4 [] o) as [_ Hstore]; [lia|].
  destruct (Hstore "" "gke" "kube-system" "jxing-nginx-ingress-controller" "10.0.0.7")
    as (pre & answer & Hanswer & Hflags & Hcommon & _).
  - vm_compute. repeat first [apply list_elem_of_here | apply list_elem_of_further].
  - subst answer. split; [exact Hflags|exact Hcommon].
Defined.

(** ** The init command: a cluster on premise *)

Section InitIngressOnPremise.
Import initcmd.
Variable env : Env.

(** The events of [l] that come before the load of the kube configuration. *)
Ltac before_load l :=
  lazymatch l with
  | EvLoadConfig :: _ => constr:(@nil Event)
  | ?x :: ?l' => let p := before_load l' in constr:(x :: p)
  end.

(** On premise and without an external IP, the resolution takes the host
    of the API server of the local kube configuration as the external IP. *)
Lemma InitIngress_resolve_on_premise ns h o config ip :
  Provider (Flags o) ≠ cloud_OPENSHIFT env →
  ExternalIP (Flags o) = "" →
  OnPremise (Flags o) = true →
  (∀ h', Kube_LoadConfig env h' = (Some config, None)) →
  kube_CurrentServer env config ≠ "" →
  util_UrlHostNameWithoutPort env (kube_CurrentServer env config) = (ip, None) →
  ip ≠ "" →
  ∃ notes tail,
    emitted (InitIngress_resolve env ns h o) =
      notes ++
      [EvLoadConfig; using_external_ip env ip;
       EvGetDomain (Domain (Flags o)) (Provider (Flags o)) ns (IngressService (Flags o)) ip]
      ++ tail ∧
    forallb is_Info_log notes = true ∧
    forallb is_Info_log tail = true.
Proof.
  intros Hprovider Hip Hpremise Hload Hhost Hparse Hnonempty.
  remember (InitIngress_resolve env ns h o) as r eqn:Hr. revert Hr.
  unfold InitIngress_resolve, using_external_ip. mhyps. name_texts.
  mrun; repeat (first [progress rewrite ?Hload, ?Hparse | mcase; mprune]; mrun).
  all: intros ->; cbn [emitted app].
  all: match goal with
       | |- ∃ notes tail, ?l = _ ∧ _ =>
           let p := before_load l in exists p; eexists; split; [reflexivity|done]
       end.
Qed.

(** X14: on premise, without an external IP and on a provider other than
    OpenShift, when the local kube configuration loads and names an API
    server whose host can be read, [InitIngress] never waits for the load
    balancer to get an external IP: it either ends before the resolution of
    the domain, or it loads the kube configuration, announces the host of
    the API server as the external IP and resolves the domain with it. *)
Theorem InitIngress_on_premise_uses_the_api_server_host fuel h o config ip :
  (4 ≤ fuel)%nat →
  Provider (Flags o) ≠ cloud_OPENSHIFT env →
  ExternalIP (Flags o) = "" →
  OnPremise (Flags o) = true →
  (∀ h', Kube_LoadConfig env h' = (Some config, None)) →
  kube_CurrentServer env config ≠ "" →
  util_UrlHostNameWithoutPort env (kube_CurrentServer env config) = (ip, None) →
  ip ≠ "" →
  let r := InitIngress env fuel h o in
  count is_WaitForExternalIP (emitted r) = 0%nat ∧
  ((∃ err, value r = Some err ∧ none is_resolve_event (emitted r) = true ∧
           (err = None → ∃ msg d, EvConfirm msg d ∈ emitted r)) ∨
   (∃ pre post service,
      emitted r =
        pre ++
        [EvLoadConfig; using_external_ip env ip;
         EvGetDomain (Domain (Flags o)) (Provider (Flags o)) (IngressNamespace (Flags o))
                     service ip] ++ post ∧
      none is_resolve_event pre = true ∧
      forallb is_Info_log post = true)).
Proof.
  intros Hfuel Hprovider Hip Hpremise Hload Hhost Hparse Hnonempty r. subst r.
  destruct (InitIngress_reaches_resolve env fuel h o Hfuel Hprovider)
    as [(err & Hv & Hevs & Herr)|(pre & o' & (Hk1 & Hk2 & Hk3 & Hk4 & Hk5) & Hpre & Hr)].
  { split; [by apply resolve_events_none|]. left. by exists err. }
  cbv zeta in Hr. rewrite Hr, emitted_prepend.
  destruct (InitIngress_resolve_on_premise (IngressNamespace (Flags o)) (h ++ pre) o' config ip)
    as (notes & post & Hem & Hnotes & Hpost);
    [by rewrite Hk2|by rewrite Hk1|by rewrite Hk4|done..|].
  rewrite Hem, Hk2, Hk3.
  split.
  - rewrite !count_app, (resolve_events_none pre Hpre),
      (resolve_events_none notes (info_logs_none notes Hnotes)),
      (resolve_events_none post (info_logs_none post Hpost)). done.
  - right. exists (pre ++ notes), post, (IngressService (Flags o')).
    split_and!; [by rewrite <- app_assoc| |done].
    by rewrite none_app, Hpre, (info_logs_none notes Hnotes).
Qed.


End InitIngressOnPremise.

Lemma InitIngress_on_premise_uses_the_api_server_host_witness :
  let env := initcmd.example_env_on_premise in
  let o := initcmd.example_options initcmd.example_flags_on_premise in
  initcmd.count initcmd.is_WaitForExternalIP (emitted (initcmd.InitIngress env 4 [] o)) = 0%nat ∧
  initcmd.EvGetDomain "" "kubernetes" "kube-system" "jxing-nginx-ingress-controller" "10.0.0.1"
    ∈ emitted (initcmd.InitIngress env 4 [] o).
Proof.
  intros env o.
  destruct (InitIngress_on_premise_uses_the_api_server_host env 4 [] o
              {| cmd.Contexts := ∅; cmd.CurrentContext := ""; cmd.Clusters := ∅ |} "10.0.0.1")
    as [Hwait _]; [lia|discriminate|reflexivity|reflexivity|reflexivity|discriminate|reflexivity|discriminate|].
  split; [exact Hwait|]. vm_compute. repeat first [apply list_elem_of_here | apply list_elem_of_further].
Defined.


(** ** The init command: IBM Kubernetes Service *)

Section InitIKS.
Import initcmd.
Variable env : Env.

(** X16: [initIKSIngress] either fails before it waits, with the options
    as they were (the kube client is not there, or the cluster id is not
    known either way), or it names the ingress deployment and the ingress
    service [public-cr<id>-alb1], with the id of the cluster in lower case,
    and then waits up to 30 minutes for that deployment in the ingress
    namespace, returning what the wait returns.  The id that
    [GetKubeClusterID] gives is used unless it is empty or comes with an
    error; then the id that [GetClusterID] gives is used, even if it is
    empty. *)
Theorem initIKSIngress_outcome h o :
  let r := initIKSIngress env h o in
  let note :=
    EvLog Info "Wait for Ingress controller to be injected into IBM Kubernetes Service Cluster" [] in
  let asked := [note; EvKubeClient; EvGetKubeClusterID] in
  let first_id := iks_GetKubeClusterID env (h ++ [note; EvKubeClient]) in
  let second_id := iks_GetClusterID env (h ++ asked) in
  (∃ e, r = mkOut (Some (Some e)) o [note; EvKubeClient] ∧
        KubeClient env (h ++ [note]) = Some e) ∨
  (∃ e, r = mkOut (Some (Some e)) o (asked ++ [EvGetClusterID]) ∧
        (first_id.2 ≠ None ∨ first_id.1 = "") ∧ second_id.2 = Some e) ∨
  (∃ pre clusterID,
     let name := "public-cr" +:+ strings_ToLower env clusterID +:+ "-alb1" in
     let wait :=
       EvWaitForDeploymentToBeCreatedAndReady name (IngressNamespace (Flags o))
         (30 * time_Minute) in
     ((pre = asked ∧ first_id = (clusterID, None) ∧ clusterID ≠ "") ∨
      (pre = asked ++ [EvGetClusterID] ∧ (first_id.2 ≠ None ∨ first_id.1 = "") ∧
       second_id = (clusterID, None))) ∧
     r = mkOut (Some (kube_WaitForDeploymentToBeCreatedAndReady env (h ++ pre) name
                        (IngressNamespace (Flags o)) (30 * time_Minute)))
               (set_Flags (set_IngressService name (set_IngressDeployment name (Flags o))) o)
               (pre ++ [wait])).
Proof.
  intros r note asked first_id second_id. subst r note asked first_id second_id.
  remember (initIKSIngress env h o) as r eqn:Hr. revert Hr.
  unfold initIKSIngress. mexec.
  all: intros ->; cbn [app]; rewrite ?app_nil_r, <- ?app_assoc in *; cbn [app] in *;
       clear_decide.
  all: repeat match goal with
              | H1 : ?x = (_, _), H2 : ?x = (_, _) |- _ => rewrite H1 in H2; injection H2 as <- <-
              end.
  all: try match goal with
           | H : ¬ (?x ≠ None ∨ _) |- _ =>
               destruct x; [exfalso; apply H; left; discriminate|]
           end.
  all: first
    [ left; eexists; split; [reflexivity|done]
    | right; left; eexists; split; [reflexivity|]; cbn; split; [tauto|done]
    | right; right; eexists _, _; cbv zeta; split;
      [ first [ left; split; [reflexivity|]; split; [reflexivity|]; tauto
              | right; split; [reflexivity|]; cbn; split; [tauto|reflexivity] ]
      | reflexivity ] ].
Qed.
End InitIKS.

(** ** The init command: the validation of the options *)

Section InitCheckOptions.
Import initcmd.
Variable env : Env.

(** X17: [checkOptions] always returns, and it changes at most three
    flags: [SkipTiller] and [NoTiller], which [helm3] turns on, and
    [Namespace], which is only filled in when it is empty.  The cluster is
    asked for its namespace exactly when tiller is used, is not global, and
    no namespace is given.  When the validation succeeds and tiller is
    used, the namespace that tiller needs is known: the tiller namespace
    for a global tiller, the namespace otherwise.  The warning about the
    ingress controller is given exactly when the validation succeeds with
    [SkipIngress] set and no external IP. *)
Theorem checkOptions_outcome h o :
  let r := checkOptions env h o in
  let f := Flags (state r) in
  let tiller_used := negb (Helm3 (Flags o)) && negb (SkipTiller (Flags o)) in
  is_Some (value r) ∧
  state r =
    set_Flags (set_Namespace (Namespace f)
                 (set_NoTiller (NoTiller f) (set_SkipTiller (SkipTiller f) (Flags o)))) o ∧
  SkipTiller f = negb tiller_used ∧
  NoTiller f = Helm3 (Flags o) || NoTiller (Flags o) ∧
  (Namespace (Flags o) ≠ "" → Namespace f = Namespace (Flags o)) ∧
  (EvKubeClientAndNamespace ∈ emitted r ↔
     tiller_used = true ∧ GlobalTiller (Flags o) = false ∧ Namespace (Flags o) = "") ∧
  (value r = Some None → tiller_used = true →
     if GlobalTiller (Flags o) then TillerNamespace f ≠ "" else Namespace f ≠ "") ∧
  ((∃ format args, EvLog Warn format args ∈ emitted r) ↔
     value r = Some None ∧ SkipIngress (Flags o) = true ∧ ExternalIP (Flags o) = "").
Proof.
  intros r f tiller_used. subst f tiller_used.
  remember r as r' eqn:Hr. subst r. revert Hr.
  unfold checkOptions. name_texts. mexec.
  all: intros ->; clear_decide; destruct o as [flags ? ? ? ?]; destruct flags; mhyps; msimpl;
       cbn [value state emitted app negb andb orb]; rewrite ?app_nil_r in *;
       subst; put_texts_back.
  all: split; [by eexists|].
  all: split; [reflexivity|].
  all: split; [reflexivity|].
  all: split; [reflexivity|].
  all: split; [first [done | intros; exfalso; congruence]|].
  all: split; [rewrite ?elem_of_cons, ?elem_of_nil; intuition (try congruence; try discriminate)|].
  all: split; [first [by intros [=] | by intros _ [=] | intros _ _; cbn; congruence]|].
  all: split; [intros (format & args & Hin); elem_cases Hin; by split_and!
              |intros (Hv & Hs & Hip); first [discriminate Hv | discriminate Hs | congruence
                 | eexists _, _; rewrite ?elem_of_cons; eauto 10]].
Qed.
End InitCheckOptions.

(** ** The init command: the phases that the flags turn off *)

Section InitSkippedPhases.
Import initcmd.
Variable env : Env.

Lemma Retry_inv_events (I : InitOptions → Prop) (φ : Event → Prop) n d (op : M goerror) :
  (∀ e, φ (EvReportFailedAttempt e)) → φ (EvSleep d) →
  inv I φ op → inv I φ (Retry n d op).
Proof.
  intros Hreport Hsleep Hop. induction n as [|n IH]; simpl; [apply inv_ret|].
  apply inv_bind; [done|]. intros [e|]; [|apply inv_ret].
  apply inv_bind; [by apply inv_emit|]. intros _.
  destruct n; [apply inv_ret|].
  apply inv_bind; [by apply inv_emit|]. intros _. apply IH.
Qed.

Lemma none_Forall p evs : Forall (λ e, p e = false) evs → none p evs = true.
Proof.
  intros Hall. unfold none. apply forallb_forall. intros e Hin.
  rewrite Forall_forall in Hall. apply list_elem_of_In in Hin. by rewrite (Hall e Hin).
Qed.



Lemma Run_batch_inv fuel :
  inv (λ s, BatchMode s = true) (λ e, is_prompt e = false) (Run env fuel).
Proof.
  unfold Run, Run_normalize, ValidateGit, EnableClusterAdminRole, configureForICP,
    initIKSIngress, checkOptions, configureOptionsForExternalDNS, InitIngress,
    InitIngress_install, InitIngress_install_chart, InitIngress_install_body,
    InitIngress_resolve, when, assign, log.
  repeat first
    [ match goal with
      | H : BatchMode ?o = true |- context [BatchMode ?o] => rewrite H; cbn [negb]
      end
    | inv_step
    | done
    | apply Retry_inv_events ].
Qed.

(** X19: in batch mode, [Run] never asks the operator anything: no value
    is picked, no input is asked for and nothing is to be confirmed,
    however the run ends; and the run stays in batch mode. *)
Theorem Run_batch_mode_never_asks fuel h o :
  BatchMode o = true →
  let r := Run env fuel h o in
  none is_prompt (emitted r) = true ∧ BatchMode (state r) = true.
Proof.
  intros Hbatch r. destruct (Run_batch_inv fuel h o Hbatch) as [Hstate Hevents].
  split; [by apply none_Forall|done].
Qed.

Lemma Run_no_git_validate_inv fuel :
  inv (λ s, NoGitValidate (Flags s) = true) (λ e, is_git_event e = false) (Run env fuel).
Proof.
  unfold Run, Run_normalize, EnableClusterAdminRole, configureForICP,
    initIKSIngress, checkOptions, configureOptionsForExternalDNS, InitIngress,
    InitIngress_install, InitIngress_install_chart, InitIngress_install_body,
    InitIngress_resolve, when, assign, log.
  repeat first
    [ match goal with
      | H : NoGitValidate (Flags ?o) = true |- context [NoGitValidate (Flags ?o)] =>
          rewrite H; cbn [negb]
      end
    | inv_step
    | done
    | apply Retry_inv_events ].
Qed.

Lemma Run_skip_cluster_role_inv fuel :
  inv (λ s, SkipClusterRole (Flags s) = true) (λ e, is_cluster_role_event e = false)
      (Run env fuel).
Proof.
  unfold Run, Run_normalize, ValidateGit, EnableClusterAdminRole, configureForICP,
    initIKSIngress, checkOptions, configureOptionsForExternalDNS, InitIngress,
    InitIngress_install, InitIngress_install_chart, InitIngress_install_body,
    InitIngress_resolve, when, assign, log.
  repeat first
    [ match goal with
      | H : SkipClusterRole (Flags ?o) = true |- context [SkipClusterRole (Flags ?o)] =>
          rewrite H
      end
    | inv_step
    | done
    | apply Retry_inv_events ].
Qed.

(** X20: with [--no-git-validate], [Run] neither reads nor writes the
    git configuration and asks for no name or email; with
    [--skip-cluster-role], it never asks the cluster for the user name and
    never gets or creates a cluster role binding.  Both flags are still set
    when the run ends. *)
Theorem Run_skips_git_and_cluster_role fuel h o :
  let r := Run env fuel h o in
  (NoGitValidate (Flags o) = true →
     none is_git_event (emitted r) = true ∧ NoGitValidate (Flags (state r)) = true) ∧
  (SkipClusterRole (Flags o) = true →
     none is_cluster_role_event (emitted r) = true ∧ SkipClusterRole (Flags (state r)) = true).
Proof.
  intros r. split.
  - intros Hskip. destruct (Run_no_git_validate_inv fuel h o Hskip) as [Hstate Hevents].
    split; [by apply none_Forall|done].
  - intros Hskip. destruct (Run_skip_cluster_role_inv fuel h o Hskip) as [Hstate Hevents].
    split; [by apply none_Forall|done].
Qed.
End InitSkippedPhases.


Lemma Run_batch_mode_never_asks_witness :
  let env := initcmd.example_env (0, None) None None None in
  let o := initcmd.example_options
             (initcmd.example_flags "gke" "kube-system" "" false true true true false) in
  none is_prompt (emitted (initcmd.Run env 4 [] o)) = true ∧
  value (initcmd.Run env 4 [] o) = Some None.
Proof.
  intros env o. split; [|reflexivity].
  apply (Run_batch_mode_never_asks env 4 [] o). reflexivity.
Defined.

Lemma Run_skips_git_and_cluster_role_witness :
  let env := initcmd.example_env (0, None) None None None in
  let o := initcmd.example_options initcmd.example_flags_skipping in
  none is_git_event (emitted (initcmd.Run env 4 [] o)) = true ∧
  none is_cluster_role_event (emitted (initcmd.Run env 4 [] o)) = true.
Proof.
  intros env o.
  destruct (Run_skips_git_and_cluster_role env 4 [] o) as [Hgit Hrole].
  split; [by apply Hgit|by apply Hrole].
Defined.

(** ** The init command: the user of the cluster role binding *)

Section InitClusterUser.
Import initcmd.
Variable env : Env.

(** [EnableClusterAdminRole] finds the user, and then retries the lookup
    and the creation of the binding of that user. *)
Lemma EnableClusterAdminRole_phases h o :
  EnableClusterAdminRole env h o =
    (r ← EnableClusterAdminRole_user env;
     match r with
     | inl err => mret err
     | inr o => Retry 3 (10 * time_Second) (EnableClusterAdminRole_attempt env o)
     end) h o.
Proof.
  unfold EnableClusterAdminRole, EnableClusterAdminRole_user. name_texts. mexec; try reflexivity.
  all: rewrite ?prepend_nil, ?prepend_prepend; rewrite ?app_nil_r, <- ?app_assoc; reflexivity.
Qed.

(** One attempt leaves the options alone and only looks up and creates the
    binding of the user of the options. *)
Lemma EnableClusterAdminRole_attempt_inv o :
  inv (λ s, s = o) (binding_events (clusterRoleBindingName env o) (clusterRoleBinding env o))
      (EnableClusterAdminRole_attempt env o).
Proof. unfold EnableClusterAdminRole_attempt, when, log. repeat first [inv_step | done]. Qed.

(** How the user is found. *)
Lemma EnableClusterAdminRole_user_outcome h o :
  let u := EnableClusterAdminRole_user env h o in
  let asked := SkipClusterRole (Flags o) = false ∧ KubeClient env h = None ∧ Username o = "" in
  let answer := GetClusterUserName env (h ++ [EvKubeClient]) in
  (EvGetClusterUserName ∈ emitted u ↔ asked) ∧
  (asked → state u = set_Username answer.1 o) ∧
  (¬ asked → state u = o) ∧
  (∃ v, value u = Some v ∧
        match v with
        | inl err =>
            asked → answer = ("", None) → err = Some (MissingOption "username")
        | inr o' => o' = state u ∧ Username o' ≠ ""
        end) ∧
  (∀ e, e ∈ emitted u → e = EvKubeClient ∨ e = EvGetClusterUserName).
Proof.
  intros u asked answer. subst asked answer.
  remember u as u' eqn:Hu. subst u. revert Hu.
  unfold EnableClusterAdminRole_user. mexec.
  all: intros ->; cbn [value state emitted app]; rewrite ?app_nil_r, <- ?app_assoc in *;
       cbn [app] in *; clear_decide.
  all: repeat match goal with
              | H1 : ?x = (_, _), H2 : ?x = (_, _) |- _ => rewrite H1 in H2; injection H2 as <- <-
              end.
  all: split; [rewrite ?elem_of_cons, ?elem_of_nil;
               split; [intros Hin | intros (? & ? & ?)];
               first [done | congruence | intuition (first [done | congruence])]|].
  all: split; [first [intros _; reflexivity | intros (? & ? & ?); exfalso; congruence]|].
  all: split; [first [intros _; reflexivity | intros Hn; exfalso; apply Hn; by split_and!]|].
  all: split; [eexists; split; [reflexivity|]; cbn;
               first [by split | intros _ [=]; congruence | intros (? & ? & ?); congruence]|].
  all: intros ev Hin; elem_cases Hin; tauto.
Qed.

(** X21: [EnableClusterAdminRole] changes nothing but the user name, and
    only when none was given: then the cluster is asked, and its answer is
    kept, also when it comes with an error.  The cluster is asked for the
    user name exactly when the cluster role is not skipped, the kube
    client is there and no user name was given.  A binding is only looked
    up or created for a user name that is not empty: the looked up name is
    built from that user name and the user cluster role, and the created
    binding has that name, binds that user and refers to that role.  When
    the cluster knows no user name either, the missing-option error for
    [username] is returned. *)
Theorem EnableClusterAdminRole_user_name h o :
  let r := EnableClusterAdminRole env h o in
  let asked := SkipClusterRole (Flags o) = false ∧ KubeClient env h = None ∧ Username o = "" in
  let answer := GetClusterUserName env (h ++ [EvKubeClient]) in
  (EvGetClusterUserName ∈ emitted r ↔ asked) ∧
  (asked → state r = set_Username answer.1 o) ∧
  (¬ asked → state r = o) ∧
  (∀ name, EvGetClusterRoleBinding name ∈ emitted r →
     Username (state r) ≠ "" ∧ name = clusterRoleBindingName env (state r)) ∧
  (∀ binding, EvCreateClusterRoleBinding binding ∈ emitted r →
     Username (state r) ≠ "" ∧ binding = clusterRoleBinding env (state r)) ∧
  (asked → answer = ("", None) → value r = Some (Some (MissingOption "username"))).
Proof.
  intros r asked answer. subst r. rewrite EnableClusterAdminRole_phases.
  destruct (EnableClusterAdminRole_user_outcome h o)
    as (Hasked & Hstate & Hsame & (v & Hv & Hcase) & Hevents).
  fold asked answer in Hasked, Hstate, Hsame, Hcase.
  unfold mbind, M_bind, bind.
  destruct (EnableClusterAdminRole_user env h o) as [v' u evs].
  cbn [value state emitted] in *. subst v'.
  assert (∀ e, e ∈ evs → ∀ name binding, ¬ binding_events name binding e) as Hnot.
  { intros e Hin name binding. destruct (Hevents e Hin) as [-> | ->]; intros []. }
  destruct v as [err|o'].
  - cbn. rewrite app_nil_r. split_and!; [done..| | |].
    + intros name Hin. by destruct (Hevents _ Hin).
    + intros binding Hin. by destruct (Hevents _ Hin).
    + intros Ha Hanswer. by rewrite (Hcase Ha Hanswer).
  - destruct Hcase as [-> Huser].
    destruct (Retry_inv_events (λ s, s = u)
                (binding_events (clusterRoleBindingName env u) (clusterRoleBinding env u))
                3 (10 * time_Second) (EnableClusterAdminRole_attempt env u))
      with (h := h ++ evs) (s := u) as [Hu Hattempts]; [done..| |done|].
    { apply EnableClusterAdminRole_attempt_inv. }
    destruct (Retry 3 _ _ _ _) as [v s' evs']. cbn [prepend value state emitted] in *. subst s'.
    rewrite Forall_forall in Hattempts.
    split_and!.
    + rewrite elem_of_app, Hasked. split; [|tauto].
      intros [?|Hin]; [done|]. by destruct (Hattempts _ Hin).
    + done.
    + done.
    + intros name [Hin|Hin]%elem_of_app; [by destruct (Hevents _ Hin)|].
      split; [done|]. exact (Hattempts _ Hin).
    + intros binding [Hin|Hin]%elem_of_app; [by destruct (Hevents _ Hin)|].
      split; [done|]. exact (Hattempts _ Hin).
    + intros Ha Hanswer. rewrite (Hstate Ha), Hanswer in Huser. done.
Qed.
End InitClusterUser.

(** ** Counting the calls of a computation *)

Section AtMost.
Context {St Ev : Type}.
Implicit Types (p : Ev → bool).

Lemma at_most_inv {A} p (m : M St Ev A) :
  inv (λ _, True) (λ e, p e = false) m → at_most p 0 m.
Proof.
  intros Hinv h s. destruct (Hinv h s Logic.I) as [_ Hall].
  induction Hall as [|e evs He _ IH]; [done|]. cbn. by rewrite He.
Qed.

Lemma at_most_bind {A B} p a b (m : M St Ev A) (k : A → M St Ev B) :
  at_most p a m → (∀ x, at_most p b (k x)) → at_most p (a + b) (m ≫= k).
Proof.
  intros Hm Hk h s. specialize (Hm h s). unfold mbind, M_bind, bind.
  destruct (m h s) as [[x|] s' evs]; cbn [emitted] in *; [|lia].
  specialize (Hk x (h ++ evs) s'). destruct (k x (h ++ evs) s') as [v s'' evs'].
  cbn [prepend emitted] in *. rewrite List.filter_app, length_app. lia.
Qed.

(** A step that emits none of the events, and a last step that does. *)
Lemma at_most_bind_quiet {A B} p n (m : M St Ev A) (k : A → M St Ev B) :
  at_most p 0 m → (∀ x, at_most p n (k x)) → at_most p n (m ≫= k).
Proof. intros Hm Hk. by apply (at_most_bind p 0 n). Qed.

Lemma at_most_bind_last {A B} p n (m : M St Ev A) (k : A → M St Ev B) :
  at_most p n m → (∀ x, at_most p 0 (k x)) → at_most p n (m ≫= k).
Proof.
  intros Hm Hk h s. pose proof (at_most_bind p n 0 m k Hm Hk h s). lia.
Qed.

Lemma at_most_call {A} p ev (answer : list Ev → A) :
  at_most p 1 (call ev answer : M St Ev A).
Proof. intros h s. cbn. destruct (p ev); cbn; lia. Qed.

Lemma at_most_ret {A} p n (a : A) : at_most p n (mret a : M St Ev A).
Proof. intros h s. cbn. lia. Qed.
End AtMost.

(** ** The init command: how often the workflow calls out *)

Section InitBudget.
Import initcmd.
Variable env : Env.

(** Retrying an operation multiplies its calls by the number of attempts
    at most. *)
Lemma at_most_Retry p n a d (op : M goerror) :
  (∀ e, p (EvReportFailedAttempt e) = false) → p (EvSleep d) = false →
  at_most p a op → at_most p (n * a) (Retry n d op).
Proof.
  intros Hreport Hsleep Hop. induction n as [|n IH]; intros h s; [cbn; lia|].
  cbn [Retry]. msimpl. pose proof (Hop h s) as Hfirst.
  destruct (op h s) as [[[e|]|] s' evs]; cbn [emitted prepend] in *; msimpl;
    cbn [emitted prepend].
  - destruct n as [|n].
    + msimpl. cbn [emitted prepend]. rewrite !List.filter_app, !length_app. cbn.
      rewrite Hreport. clear IH Hop. cbn. lia.
    + msimpl.
      match goal with
      | |- context [Retry (S n) d op ?h' ?s'] =>
          specialize (IH h' s'); destruct (Retry (S n) d op h' s') as [v s'' evs']
      end.
      cbn [emitted prepend] in *. rewrite !List.filter_app, !length_app. cbn.
      rewrite Hreport, Hsleep. clear Hop. cbn in *. lia.
  - rewrite !List.filter_app, !length_app. clear IH Hop. cbn. lia.
  - clear IH Hop. lia.
Qed.

(** One step of the count: a step that emits none of the events counted,
    or the one step that emits them, followed by steps that do not. *)
Ltac quiet :=
  apply at_most_inv;
  unfold Run_normalize, ValidateGit, EnableClusterAdminRole, configureForICP,
    initIKSIngress, checkOptions, configureOptionsForExternalDNS, InitIngress,
    InitIngress_install, InitIngress_install_chart, InitIngress_install_body,
    InitIngress_resolve, when, assign, log;
  repeat first [inv_step | done | apply Retry_inv_events].
Ltac at_most_step :=
  lazymatch goal with
  | |- at_most _ _ (mret _) => apply at_most_ret
  | |- at_most _ _ (match ?x with _ => _ end) => destruct x
  | |- at_most _ _ (_ ≫= _) =>
      first [ apply at_most_bind_quiet; [solve [quiet]|intros ?]
            | apply at_most_bind_last;
              [first [by apply (at_most_Retry _ 3 1); [..|apply at_most_call] | apply at_most_call]
              |intros ?; solve [quiet]] ]
  | |- at_most _ 0 _ => solve [quiet]
  end.

(** X22: in one run of the init workflow the cloud provider is looked up
    at most once, helm is initialised at most three times, and the build
    packs are initialised at most once, however the run ends. *)
Theorem Run_calls_out_a_bounded_number_of_times fuel h o :
  let evs := emitted (Run env fuel h o) in
  (count is_GetCloudProvider evs ≤ 1)%nat ∧
  (count is_InitHelm evs ≤ 3)%nat ∧
  (count is_InitBuildPacks evs ≤ 1)%nat.
Proof.
  intros evs. subst evs. split_and!.
  - assert (at_most is_GetCloudProvider 1 (Run env fuel)) as H; [|apply H].
    unfold Run. repeat at_most_step.
  - assert (at_most is_InitHelm 3 (Run env fuel)) as H; [|apply H].
    unfold Run. repeat at_most_step.
  - assert (at_most is_InitBuildPacks 1 (Run env fuel)) as H; [|apply H].
    unfold Run. repeat at_most_step.
Qed.
End InitBudget.

(** ** The init command: the retries of the cluster role binding *)

Section InitClusterRoleRetry.
Import initcmd.
Variable env : Env.

Lemma Retry_unfold n d (op : M goerror) h s :
  Retry (S n) d op h s =
    (err ← op;
     match err with
     | None => mret None
     | Some e =>
         emit (EvReportFailedAttempt e);;
         match n with
         | O => mret (Some e)
         | S _ => emit (EvSleep d);; Retry n d op
         end
     end) h s.
Proof. reflexivity. Qed.

(** What [Retry] does with an operation that always returns, makes one
    lookup, and neither reports nor pauses by itself: it pauses between the
    attempts, and it ends either with the first success, after one failure
    less than attempts, or, all attempts used up, with the error of the
    last one, which is the last thing it reports. *)
Lemma Retry_outcome n d (op : M goerror) :
  (∀ h s, is_Some (value (op h s)) ∧
          count is_GetClusterRoleBinding (emitted (op h s)) = 1%nat ∧
          count is_ReportFailedAttempt (emitted (op h s)) = 0%nat ∧
          count is_Sleep (emitted (op h s)) = 0%nat) →
  ∀ h s,
    let r := Retry (S n) d op h s in
    let gets := count is_GetClusterRoleBinding (emitted r) in
    let failed := count is_ReportFailedAttempt (emitted r) in
    count is_Sleep (emitted r) = pred gets ∧
    ((value r = Some None ∧ gets = S failed ∧ (gets ≤ S n)%nat) ∨
     (∃ e, value r = Some (Some e) ∧ gets = S n ∧ failed = S n ∧
           last (emitted r) = Some (EvReportFailedAttempt e))).
Proof.
  intros Hop. induction n as [|n IH]; intros h s r gets failed; subst r gets failed.
  - cbn [Retry]. msimpl. destruct (Hop h s) as ([v Hv] & Hg & Hf & Hs).
    destruct (op h s) as [[[e|]|] s' evs]; cbn [value emitted prepend] in *; msimpl;
      cbn [emitted prepend value]; [| |done].
    + rewrite !count_app, Hg, Hf, Hs. cbn. split; [done|]. right. exists e.
      split_and!; [done..|]. rewrite ?app_nil_r. cbn [app]. by rewrite last_snoc.
    + rewrite app_nil_r, Hg, Hf, Hs. split; [done|]. left. split_and!; [done..|lia].
  - rewrite Retry_unfold. msimpl. destruct (Hop h s) as ([v Hv] & Hg & Hf & Hs).
    destruct (op h s) as [[[e|]|] s' evs]; cbn [value emitted prepend] in *; msimpl;
      cbn [emitted prepend value]; [| |done].
    + match goal with
      | |- context [Retry (S n) d op ?h' ?s'] =>
          specialize (IH h' s'); cbv zeta in IH; destruct (Retry (S n) d op h' s') as [v' s'' evs']
      end.
      cbn [value emitted prepend] in *. destruct IH as [Hsleep Hcases].
      rewrite !count_app, Hg, Hf, Hs, Hsleep. cbn [count List.filter is_GetClusterRoleBinding
        is_ReportFailedAttempt is_Sleep length app Nat.add].
      split.
      * destruct Hcases as [(_ & Hgets & _)|(e' & _ & Hgets & _)]; rewrite Hgets; cbn; lia.
      * destruct Hcases as [(-> & Hgets & Hle)|(e' & -> & Hgets & Hfailed & Hlast)].
        -- left. split_and!; [done|lia|lia].
        -- right. exists e'. split_and!; [done|lia|lia|].
           by rewrite last_app, !last_cons, Hlast.
    + rewrite app_nil_r, Hg, Hf, Hs. split; [done|]. left. split_and!; [done..|lia].
Qed.

(** What [Retry] reports are the errors that the operation returned. *)
Lemma Retry_reports (P : error → Prop) n d (op : M goerror) :
  (∀ h s, count is_ReportFailedAttempt (emitted (op h s)) = 0%nat) →
  (∀ h s e, value (op h s) = Some (Some e) → P e) →
  ∀ h s e, EvReportFailedAttempt e ∈ emitted (Retry n d op h s) → P e.
Proof.
  intros Hquiet Hop.
  assert (∀ evs e, count is_ReportFailedAttempt evs = 0%nat → EvReportFailedAttempt e ∉ evs)
    as Hnone.
  { intros evs e Hc Hin. unfold count in Hc. apply length_zero_iff_nil in Hc.
    assert (In (EvReportFailedAttempt e) (List.filter is_ReportFailedAttempt evs)) as Hin'
      by (apply filter_In; split; [by apply list_elem_of_In|done]).
    by rewrite Hc in Hin'. }
  induction n as [|n IH]; intros h s e; [cbn; by intros ?%elem_of_nil|].
  cbn [Retry]. msimpl. pose proof (Hquiet h s) as Hq. pose proof (Hop h s) as Hv.
  destruct (op h s) as [[[e'|]|] s' evs]; cbn [value emitted prepend] in *; msimpl;
    cbn [emitted prepend].
  - destruct n as [|n].
    + msimpl. cbn [emitted prepend]. rewrite !elem_of_app, elem_of_nil.
      intros [Hin|[Hin|[]]]; [by destruct (Hnone _ _ Hq Hin)|].
      apply list_elem_of_singleton in Hin. injection Hin as ->. by apply Hv.
    + msimpl.
      match goal with
      | |- context [Retry (S n) d op ?h' ?s'] =>
          specialize (IH h' s' e); destruct (Retry (S n) d op h' s') as [v' s'' evs']
      end.
      cbn [emitted prepend] in *. rewrite !elem_of_app.
      intros [Hin|[Hin|[Hin|Hin]]]; [by destruct (Hnone _ _ Hq Hin)| | |by apply IH].
      * apply list_elem_of_singleton in Hin. injection Hin as ->. by apply Hv.
      * apply list_elem_of_singleton in Hin. discriminate.
  - rewrite app_nil_r. intros Hin. by destruct (Hnone _ _ Hq Hin).
  - intros Hin. by destruct (Hnone _ _ Hq Hin).
Qed.

(** One attempt at the binding: the lookup, and the creation when the
    lookup fails.  The attempt fails with the error of the creation, and
    succeeds as soon as the lookup or the creation does. *)
Lemma EnableClusterAdminRole_attempt_outcome u h s :
  let a := EnableClusterAdminRole_attempt env u h s in
  let name := clusterRoleBindingName env u in
  let binding := clusterRoleBinding env u in
  state a = s ∧
  count is_GetClusterRoleBinding (emitted a) = 1%nat ∧
  count is_ReportFailedAttempt (emitted a) = 0%nat ∧
  count is_Sleep (emitted a) = 0%nat ∧
  ((value a = Some None ∧ (count is_CreateClusterRoleBinding (emitted a) ≤ 1)%nat ∧
    ∃ h', ClusterRoleBindings_Get env h' name = None ∨
          ClusterRoleBindings_Create env h' binding = None) ∨
   (∃ e, value a = Some (Some e) ∧ count is_CreateClusterRoleBinding (emitted a) = 1%nat ∧
         (∃ h', ClusterRoleBindings_Get env h' name ≠ None) ∧
         ∃ h', ClusterRoleBindings_Create env h' binding = Some e)).
Proof.
  intros a name binding. subst name binding.
  remember a as a' eqn:Ha. subst a. revert Ha.
  unfold EnableClusterAdminRole_attempt. name_texts. mexec.
  all: intros ->; cbn [value state emitted app]; clear_decide.
  all: try match goal with
           | H : ?x ≠ None |- _ => destruct x eqn:?; [|done]
           end.
  all: repeat match goal with
              | H : ?x = None |- context [?x] => rewrite H
              end.
  all: split; [reflexivity|]; split; [reflexivity|]; split; [reflexivity|]; split; [reflexivity|].
  all: first
    [ right; eexists; split; [reflexivity|]; split; [reflexivity|];
      split; eexists; [by erewrite Heqo|eassumption]
    | left; split; [reflexivity|]; split; [cbn; lia|]; eexists; right; eassumption
    | left; split; [reflexivity|]; split; [cbn; lia|]; eexists; left; eassumption ].
Qed.
End InitClusterRoleRetry.

Section InitClusterRoleRetries.
Import initcmd.
Variable env : Env.

(** [Retry] succeeds only when an attempt does. *)
Lemma Retry_success (Q : Prop) n d (op : M goerror) :
  (∀ h s, value (op h s) = Some None → Q) →
  ∀ h s, value (Retry (S n) d op h s) = Some None → Q.
Proof.
  intros Hop. induction n as [|n IH]; intros h s.
  - cbn [Retry]. msimpl. pose proof (Hop h s) as Hv.
    destruct (op h s) as [[[e|]|] s' evs]; cbn [value prepend] in *; msimpl;
      cbn [value prepend]; [done|by intros _; apply Hv|done].
  - rewrite Retry_unfold. msimpl. pose proof (Hop h s) as Hv.
    destruct (op h s) as [[[e|]|] s' evs]; cbn [value prepend] in *; msimpl;
      cbn [value prepend]; [|by intros _; apply Hv|done].
    rewrite !value_prepend. apply IH.
Qed.

(** Every attempt that [Retry] reports as failed has run the step that an
    attempt runs before it fails. *)
Lemma Retry_failed_attempts (p : Event → bool) n d (op : M goerror) :
  (∀ e, p (EvReportFailedAttempt e) = false) →
  (∀ h s, count is_ReportFailedAttempt (emitted (op h s)) = 0%nat ∧
          ∀ e, value (op h s) = Some (Some e) → count p (emitted (op h s)) = 1%nat) →
  ∀ h s, (count is_ReportFailedAttempt (emitted (Retry n d op h s)) ≤
          count p (emitted (Retry n d op h s)))%nat.
Proof.
  intros Hreport Hop. induction n as [|n IH]; intros h s; [cbn; lia|].
  rewrite Retry_unfold. msimpl. destruct (Hop h s) as [Hq Hone].
  destruct (op h s) as [[[e|]|] s' evs]; cbn [value emitted prepend] in *; msimpl;
    cbn [emitted prepend].
  - specialize (Hone e eq_refl). destruct n as [|n].
    + msimpl. cbn [emitted prepend]. rewrite !count_app, Hq, Hone.
      unfold count. cbn. rewrite Hreport. cbn. lia.
    + msimpl.
      match goal with
      | |- context [Retry (S n) d op ?h' ?s'] =>
          specialize (IH h' s'); destruct (Retry (S n) d op h' s') as [v' s'' evs']
      end.
      cbn [emitted prepend] in *. rewrite !count_app, Hq, Hone.
      unfold count in *. cbn. rewrite Hreport. destruct (p (EvSleep d)); cbn; lia.
  - rewrite app_nil_r, Hq. lia.
  - rewrite Hq. lia.
Qed.

(** The retries of [EnableClusterAdminRole]: when it comes to look up the
    binding, it ends well at the first attempt that succeeds, every failed
    attempt before it reported and followed by another one; or, three
    attempts having failed, it ends with the error of the third. *)
Lemma EnableClusterAdminRole_retries h o :
  let r := EnableClusterAdminRole env h o in
  let gets := count is_GetClusterRoleBinding (emitted r) in
  let creates := count is_CreateClusterRoleBinding (emitted r) in
  let failed := count is_ReportFailedAttempt (emitted r) in
  is_Some (value r) ∧
  (failed ≤ creates)%nat ∧
  (∀ u, value (EnableClusterAdminRole_user env h o) = Some (inr u) → (1 ≤ gets)%nat) ∧
  ((1 ≤ gets)%nat →
   Username (state r) ≠ "" ∧
   ((value r = Some None ∧ gets = S failed ∧
     ∃ h', ClusterRoleBindings_Get env h' (clusterRoleBindingName env (state r)) = None ∨
           ClusterRoleBindings_Create env h' (clusterRoleBinding env (state r)) = None) ∨
    (∃ e, value r = Some (Some e) ∧ gets = 3%nat ∧ failed = 3%nat ∧
          last (emitted r) = Some (EvReportFailedAttempt e) ∧
          ∃ h', ClusterRoleBindings_Create env h' (clusterRoleBinding env (state r)) = Some e))).
Proof.
  intros r gets creates failed. subst r gets creates failed.
  rewrite EnableClusterAdminRole_phases.
  destruct (EnableClusterAdminRole_user_outcome env h o)
    as (_ & _ & _ & (v & Hv & Hcase) & Hevents).
  unfold mbind, M_bind, bind.
  destruct (EnableClusterAdminRole_user env h o) as [v' u evs].
  cbn [value state emitted] in *. subst v'.
  assert (count is_GetClusterRoleBinding evs = 0%nat ∧
          count is_CreateClusterRoleBinding evs = 0%nat ∧
          count is_ReportFailedAttempt evs = 0%nat) as (Hg0 & Hc0 & Hf0).
  { clear Hcase. induction evs as [|ev evs IH]; [done|].
    destruct IH as (? & ? & ?); [intros e Hin; apply Hevents; by right|].
    destruct (Hevents ev) as [-> | ->]; [by left|..]; unfold count in *; cbn; done. }
  destruct v as [err|o'].
  { unfold mret, M_ret, ret. cbn [prepend value state emitted]. rewrite app_nil_r, Hg0, Hc0, Hf0.
    split_and!; [by eexists|lia|by intros ? [=]|lia]. }
  destruct Hcase as [-> Huser].
  set (op := EnableClusterAdminRole_attempt env u).
  assert (∀ h' s',
    is_Some (value (op h' s')) ∧
    count is_GetClusterRoleBinding (emitted (op h' s')) = 1%nat ∧
    count is_ReportFailedAttempt (emitted (op h' s')) = 0%nat ∧
    count is_Sleep (emitted (op h' s')) = 0%nat) as Hop.
  { intros h' s'.
    destruct (EnableClusterAdminRole_attempt_outcome env u h' s')
      as (_ & Hg & Hf & Hs & [(Hval & _)|(e & Hval & _)]); cbv zeta in *; fold op in Hval, Hg, Hf, Hs;
      rewrite Hval; by split_and!; [eexists|..]. }
  destruct (Retry_outcome 2 (10 * time_Second) op Hop (h ++ evs) u) as [_ Hcases].
  pose proof (Retry_failed_attempts is_CreateClusterRoleBinding 3 (10 * time_Second) op) as Hcreates.
  specialize (Hcreates ltac:(done)).
  assert (∀ h' s',
    count is_ReportFailedAttempt (emitted (op h' s')) = 0%nat ∧
    ∀ e, value (op h' s') = Some (Some e) →
         count is_CreateClusterRoleBinding (emitted (op h' s')) = 1%nat) as Hop2.
  { intros h' s'.
    destruct (EnableClusterAdminRole_attempt_outcome env u h' s')
      as (_ & _ & Hf & _ & [(Hval & _)|(e & Hval & Hc & _)]); cbv zeta in *;
      fold op in Hval, Hf; (split; [done|]); intros e'; rewrite Hval; [done|].
    intros _. exact Hc. }
  specialize (Hcreates Hop2 (h ++ evs) u).
  pose proof (Retry_success
    (∃ h', ClusterRoleBindings_Get env h' (clusterRoleBindingName env u) = None ∨
           ClusterRoleBindings_Create env h' (clusterRoleBinding env u) = None)
    2 (10 * time_Second) op) as Hsuccess.
  assert (∀ h' s', value (op h' s') = Some None →
    ∃ h'', ClusterRoleBindings_Get env h'' (clusterRoleBindingName env u) = None ∨
           ClusterRoleBindings_Create env h'' (clusterRoleBinding env u) = None) as Hop3.
  { intros h' s' Hval.
    destruct (EnableClusterAdminRole_attempt_outcome env u h' s')
      as (_ & _ & _ & _ & [(_ & _ & Hex)|(e & Hval' & _)]); cbv zeta in *; [done|].
    fold op in Hval'. congruence. }
  specialize (Hsuccess Hop3 (h ++ evs) u).
  pose proof (Retry_reports
    (λ e, ∃ h', ClusterRoleBindings_Create env h' (clusterRoleBinding env u) = Some e)
    3 (10 * time_Second) op) as Hreports.
  assert (∀ h' s' e, value (op h' s') = Some (Some e) →
    ∃ h'', ClusterRoleBindings_Create env h'' (clusterRoleBinding env u) = Some e) as Hop4.
  { intros h' s' e Hval.
    destruct (EnableClusterAdminRole_attempt_outcome env u h' s')
      as (_ & _ & _ & _ & [(Hval' & _)|(e' & Hval' & _ & _ & Hex)]); cbv zeta in *;
      fold op in Hval'; [congruence|].
    rewrite Hval in Hval'. by injection Hval' as ->. }
  specialize (Hreports (λ h' s', proj1 (Hop2 h' s')) Hop4 (h ++ evs) u).
  destruct (Retry_inv_events (λ s, s = u)
              (binding_events (clusterRoleBindingName env u) (clusterRoleBinding env u))
              3 (10 * time_Second) op) with (h := h ++ evs) (s := u) as [Hu _]; [done..| |done|].
  { apply EnableClusterAdminRole_attempt_inv. }
  cbv zeta in Hcases.
  destruct (Retry 3 (10 * time_Second) op (h ++ evs) u) as [v s' evs'].
  cbn [prepend value state emitted] in *. subst s'.
  rewrite !count_app, Hg0, Hc0, Hf0. cbn [Nat.add].
  split_and!.
  - destruct Hcases as [(-> & _)|(e & -> & _)]; by eexists.
  - done.
  - intros _ _. destruct Hcases as [(_ & -> & _)|(e & _ & -> & _)]; lia.
  - intros _. split; [done|].
    destruct Hcases as [(Hval & Hgets & _)|(e & Hval & Hgets & Hfailed & Hlast)].
    + left. split_and!; [done..|]. by apply Hsuccess.
    + right. exists e. split_and!; [done..| |].
      * by rewrite last_app, Hlast.
      * apply (Hreports e). by apply last_Some_elem_of.
Qed.

(** When the cluster role is not skipped, the kube client is there, and a
    user name is given or the cluster knows one, the user is found. *)
Lemma EnableClusterAdminRole_user_found h o :
  SkipClusterRole (Flags o) = false →
  KubeClient env h = None →
  Username o ≠ "" ∨
    (∃ user, GetClusterUserName env (h ++ [EvKubeClient]) = (user, None) ∧ user ≠ "") →
  ∃ u, value (EnableClusterAdminRole_user env h o) = Some (inr u).
Proof.
  intros Hskip Hkube Huser. unfold EnableClusterAdminRole_user. mhyps. msimpl.
  rewrite Hskip. msimpl. rewrite ?app_nil_r, Hkube. msimpl.
  destruct (decide (Username o = "")) as [Hempty|Hgiven]; msimpl.
  - destruct Huser as [?|(user & Hanswer & Hknown)]; [done|].
    rewrite ?app_nil_r, Hanswer. msimpl. rewrite (decide_False _ _ Hknown). by eexists.
  - rewrite (decide_False _ _ Hgiven). by eexists.
Qed.
End InitClusterRoleRetries.

Section InitClusterRoleBinding.
Import initcmd.

(** C3: with [SkipClusterRole] set, [EnableClusterAdminRole] returns nil at
    once, asks nothing of the cluster and changes nothing.  Otherwise the
    get-or-create of the binding runs under [Retry] with 3 attempts and a
    pause of 10 seconds.  In every run there are at most 3 gets, no more
    creates than gets, one pause less than gets, and every pause lasts 10
    seconds.  When the kube client is there and the user name is known: if
    the get finds the binding, nil is returned after that single get,
    without a create; if the get fails and the create succeeds, nil is
    returned after that create; and the same holds when the user name comes
    from the cluster.  [EnableClusterAdminRole] always returns.  It comes
    to the get whenever the cluster role is not skipped, the kube client is
    there, and a user name is given or the cluster knows one.  Once it
    comes to the get, an attempt that fails (its get and its create fail)
    is reported and, unless it was the third, followed after the pause by
    another attempt: the run ends with nil at the first attempt whose get
    or create succeeds, after one get more than failed attempts; or it
    ends, after 3 gets, 3 creates, 3 reported failures and 2 pauses, with
    the error of the third create, the last one reported.  So on a cluster
    where no get and no create succeeds there are exactly 3 gets, 3 creates
    and 2 pauses, and an error is returned. *)
Theorem C3_cluster_admin_role_get_or_create env h o :
  let r := EnableClusterAdminRole env h o in
  let name :=
    naming_ToValidName env
      (naming_ToValidName env (Username o) +:+ "-" +:+ UserClusterRole (Flags o) +:+ "-binding") in
  let binding :=
    {| crb_Name := name;
       crb_Subjects :=
         [ {| subject_APIGroup := "rbac.authorization.k8s.io";
              subject_Kind := "User";
              subject_Name := Username o |} ];
       crb_RoleRef :=
         {| roleref_APIGroup := "rbac.authorization.k8s.io";
            roleref_Kind := "ClusterRole";
            roleref_Name := UserClusterRole (Flags o) |} |} in
  let trying e :=
    EvLog Debug "Trying to create ClusterRoleBinding %s for role: %s for user %s\n %v"
      [Str name; Str (UserClusterRole (Flags o)); Str (Username o); ErrArg e] in
  let gets := count is_GetClusterRoleBinding (emitted r) in
  let creates := count is_CreateClusterRoleBinding (emitted r) in
  let failed := count is_ReportFailedAttempt (emitted r) in
  let pauses := count is_Sleep (emitted r) in
  (SkipClusterRole (Flags o) = true → r = mkOut (Some None) o []) ∧
  ((gets ≤ 3)%nat ∧ (creates ≤ gets)%nat ∧ pauses = pred gets ∧
   ∀ d, EvSleep d ∈ emitted r → d = 10 * time_Second) ∧
  (SkipClusterRole (Flags o) = false → KubeClient env h = None → Username o ≠ "" →
     (ClusterRoleBindings_Get env (h ++ [EvKubeClient]) name = None →
        r = mkOut (Some None) o [EvKubeClient; EvGetClusterRoleBinding name]) ∧
     (∀ e, ClusterRoleBindings_Get env (h ++ [EvKubeClient]) name = Some e →
        ClusterRoleBindings_Create env
          (h ++ [EvKubeClient; EvGetClusterRoleBinding name; trying e]) binding = None →
        r = mkOut (Some None) o
              [EvKubeClient; EvGetClusterRoleBinding name; trying e;
               EvCreateClusterRoleBinding binding;
               EvLog Debug "Created ClusterRoleBinding %s" [Str name]])) ∧
  (SkipClusterRole (Flags o) = false → KubeClient env h = None → Username o = "" →
     ∀ user, GetClusterUserName env (h ++ [EvKubeClient]) = (user, None) → user ≠ "" →
       let found := set_Username user o in
       ClusterRoleBindings_Get env (h ++ [EvKubeClient; EvGetClusterUserName])
         (clusterRoleBindingName env found) = None →
       r = mkOut (Some None) found
             [EvKubeClient; EvGetClusterUserName;
              EvGetClusterRoleBinding (clusterRoleBindingName env found)]) ∧
  is_Some (value r) ∧
  (SkipClusterRole (Flags o) = false → KubeClient env h = None →
     Username o ≠ "" ∨
       (∃ user, GetClusterUserName env (h ++ [EvKubeClient]) = (user, None) ∧ user ≠ "") →
     (1 ≤ gets)%nat) ∧
  ((1 ≤ gets)%nat →
     (value r = Some None ∧ gets = S failed ∧ pauses = failed ∧
      ∃ h', ClusterRoleBindings_Get env h' (clusterRoleBindingName env (state r)) = None ∨
            ClusterRoleBindings_Create env h' (clusterRoleBinding env (state r)) = None) ∨
     (∃ e, value r = Some (Some e) ∧
           gets = 3%nat ∧ creates = 3%nat ∧ failed = 3%nat ∧ pauses = 2%nat ∧
           last (emitted r) = Some (EvReportFailedAttempt e) ∧
           ∃ h', ClusterRoleBindings_Create env h' (clusterRoleBinding env (state r)) = Some e)) ∧
  ((∀ h' name', ClusterRoleBindings_Get env h' name' ≠ None) →
   (∀ h' binding', ClusterRoleBindings_Create env h' binding' ≠ None) →
   (1 ≤ gets)%nat →
   gets = 3%nat ∧ creates = 3%nat ∧ pauses = 2%nat ∧
   ∃ e, value r = Some (Some e) ∧ last (emitted r) = Some (EvReportFailedAttempt e)).
Proof.
  intros r name binding trying gets creates failed pauses.
  destruct (EnableClusterAdminRole_attempts env h o) as (H1 & H2 & H3 & H4).
  destruct (EnableClusterAdminRole_retries env h o) as (Hreturns & Hfailed & Hreached & Hretries).
  cbv zeta in *. fold r in H1, H2, H3, H4, Hreturns, Hfailed, Hreached, Hretries.
  fold gets creates failed pauses in H1, H2, H3, Hfailed, Hreached, Hretries.
  assert ((1 ≤ gets)%nat →
     (value r = Some None ∧ gets = S failed ∧ pauses = failed ∧
      ∃ h', ClusterRoleBindings_Get env h' (clusterRoleBindingName env (state r)) = None ∨
            ClusterRoleBindings_Create env h' (clusterRoleBinding env (state r)) = None) ∨
     (∃ e, value r = Some (Some e) ∧
           gets = 3%nat ∧ creates = 3%nat ∧ failed = 3%nat ∧ pauses = 2%nat ∧
           last (emitted r) = Some (EvReportFailedAttempt e) ∧
           ∃ h', ClusterRoleBindings_Create env h' (clusterRoleBinding env (state r)) = Some e))
    as Hdiscipline.
  { intros Hgets.
    destruct (Hretries Hgets) as [_ [(Hv & Hg & Hex)|(e & Hv & Hg & Hf & Hlast & Hex)]].
    - left. split_and!; [done..|lia|done].
    - right. exists e. split_and!; [done|done|lia|done|lia|done|done]. }
  split_and!.
  - intros Hskip. subst r. unfold EnableClusterAdminRole. mhyps. by mrun.
  - done.
  - done.
  - done.
  - by apply sleeps_only_elem_of.
  - intros Hskip Hkube Huser. subst r. unfold EnableClusterAdminRole. mhyps.
    msimpl. rewrite Hskip. msimpl. rewrite app_nil_r, Hkube. msimpl.
    rewrite (decide_False _ _ Huser). msimpl. rewrite (decide_False _ _ Huser). msimpl.
    rewrite !app_nil_r. split.
    + intros Hget. erewrite Retry_first_success; [reflexivity|].
      msimpl. subst name. rewrite Hget. reflexivity.
    + intros e Hget Hcreate. erewrite Retry_first_success; [reflexivity|].
      msimpl. subst name. rewrite Hget. msimpl. mlists.
      subst trying binding. cbv beta in Hcreate. rewrite Hcreate. reflexivity.
  - intros Hskip Hkube Hempty user Hanswer Hknown Hget. subst r.
    unfold EnableClusterAdminRole, clusterRoleBindingName in *. mhyps.
    msimpl. rewrite Hskip. msimpl. rewrite app_nil_r, Hkube. msimpl.
    rewrite (decide_True _ _ Hempty). msimpl. rewrite Hanswer. msimpl.
    rewrite (decide_False _ _ Hknown). msimpl. mlists.
    erewrite Retry_first_success; [reflexivity|].
    msimpl. rewrite Hget. reflexivity.
  - done.
  - intros Hskip Hkube Huser.
    destruct (EnableClusterAdminRole_user_found env h o Hskip Hkube Huser) as [u Hu].
    by apply (Hreached u).
  - done.
  - intros Hget Hcreate Hgets.
    destruct (Hdiscipline Hgets)
      as [(_ & _ & _ & h' & [Hok|Hok])|(e & Hv & Hg & Hc & _ & Hp & Hlast & _)].
    + by destruct (Hget _ _ Hok).
    + by destruct (Hcreate _ _ Hok).
    + split_and!; [done..|]. by exists e.
Qed.

Lemma C3_witness :
  let env := example_env (1, None) None
               (Some (ExternalError "not found")) (Some (ExternalError "forbidden")) in
  let o := example_options (example_flags "gke" "kube-system" "" false true true true false) in
  let r := EnableClusterAdminRole env [] o in
  count is_GetClusterRoleBinding (emitted r) = 3%nat ∧
  count is_CreateClusterRoleBinding (emitted r) = 3%nat ∧
  count is_Sleep (emitted r) = 2%nat ∧
  value r = Some (Some (ExternalError "forbidden")).
Proof.
  intros env o r.
  destruct (C3_cluster_admin_role_get_or_create env [] o)
    as (_ & _ & _ & _ & _ & _ & _ & Hnever).
  destruct Hnever as (Hgets & Hcreates & Hpauses & _).
  - intros h' name'. discriminate.
  - intros h' binding'. discriminate.
  - vm_compute. lia.
  - split_and!; [exact Hgets|exact Hcreates|exact Hpauses|reflexivity].
Defined.
End InitClusterRoleBinding.

(** ** The init command: what decides the way through the ingress provisioning *)

Section InitIngressDecisions.
Import initcmd.
Variable env : Env.

(** C6: on OpenShift, [InitIngress] never counts the pods of the ingress
    deployment, never installs the chart, never waits for the deployment or
    for an external IP and never resolves the domain, whatever the cluster
    answers; what [kube.DeploymentPodCount] would answer plays no part, so
    this holds also when it would count no pod; and once the kube client
    is there and the ingress namespace is ensured, [InitIngress] returns
    nil right after the line that says so, with the options as they
    were. *)
Theorem C6_openshift_short_circuits_ingress fuel h o :
  Provider (Flags o) = cloud_OPENSHIFT env →
  let r := InitIngress env fuel h o in
  let ns := IngressNamespace (Flags o) in
  (count is_DeploymentPodCount (emitted r) = 0%nat ∧
   count is_InstallChart (emitted r) = 0%nat ∧
   count is_WaitForDeploymentToBeReady (emitted r) = 0%nat ∧
   count is_WaitForExternalIP (emitted r) = 0%nat ∧
   count is_GetDomain (emitted r) = 0%nat) ∧
  (∀ pods, InitIngress (set_kube_DeploymentPodCount pods env) fuel h o = r) ∧
  (KubeClient env h = None →
   kube_EnsureNamespaceCreated env (h ++ [EvKubeClient]) ns = None →
   r = mkOut (Some None) o
         [EvKubeClient;
          EvEnsureNamespaceCreated ns [("jenkins.io/kind", "ingress")];
          EvLog Info "Not installing ingress as using OpenShift which uses Route and its own mechanism of ingress" []]).
Proof.
  intros Hprovider r ns. subst r ns.
  pose proof (isOpenShiftProvider_true env _ Hprovider) as Hopenshift.
  split; [by apply InitIngress_openshift_skips_ingress_events|]. split.
  - intros pods. unfold InitIngress.
    change (isOpenShiftProvider (set_kube_DeploymentPodCount pods env))
      with (isOpenShiftProvider env).
    unfold set_kube_DeploymentPodCount.
    cbn [KubeClient kube_EnsureNamespaceCreated]. mhyps. name_texts. mexec; reflexivity.
  - intros Hkube Hensure. unfold InitIngress. mhyps. msimpl.
    rewrite app_nil_r, Hkube. msimpl. rewrite app_nil_r, Hensure. msimpl.
    by rewrite Hopenshift.
Qed.


End InitIngressDecisions.

Lemma C6_witness :
  let env := initcmd.example_env (0, None) None None None in
  let o := initcmd.example_options
             (initcmd.example_flags "openshift" "kube-system" "" false true true true false) in
  initcmd.count initcmd.is_InstallChart (emitted (initcmd.InitIngress env 4 [] o)) = 0%nat ∧
  initcmd.InitIngress env 4 [] o =
    mkOut (Some None) o
      [initcmd.EvKubeClient;
       initcmd.EvEnsureNamespaceCreated "kube-system" [("jenkins.io/kind", "ingress")];
       initcmd.EvLog initcmd.Info "Not installing ingress as using OpenShift which uses Route and its own mechanism of ingress" []].
Proof.
  intros env o.
  destruct (C6_openshift_short_circuits_ingress env 4 [] o) as ((_ & Hinstall & _) & _ & H);
    [reflexivity|].
  split; [exact Hinstall|]. apply H; reflexivity.
Defined.



(** ** The context switcher: refusing a name, and switching once *)

Section ContextSwitching.
Import cmd.
Variable env : Env.

Local Arguments Run_contextNames : simpl never.

(** The candidates, whatever the order of the visit: the names that are
    offered, in ascending order. *)
Lemma Run_contextNames_candidates filter h (m : gmap string (option Context)) :
  range_visits_each_entry_once env →
  let names := Run_contextNames filter (range_Contexts env h m) in
  names = Run_contextNames filter (map_to_list m) ∧
  StronglySorted String.le names ∧
  (∀ name, name ∈ names ↔ offered filter m name).
Proof.
  intros Hrange names.
  assert (names = Run_contextNames filter (map_to_list m)) as Hnames
    by apply Run_contextNames_Permutation, Hrange.
  split_and!; [done| |].
  - subst names. unfold Run_contextNames, sort_Strings.
    apply StronglySorted_merge_sort; apply _.
  - intros name. rewrite Hnames. unfold Run_contextNames, sort_Strings.
    rewrite merge_sort_Permutation, Run_collect_omap. apply collected_offered.
Qed.

(** C8: a positional name that is not among the candidates (the names that
    are not empty, are bound to a context that is not nil and contain the
    filter, in ascending order) is refused: [Run] returns the
    invalid-argument error with that name and the sorted candidates as the
    valid choices, right after the load of the configuration; nothing is
    written, nobody is asked, and the persisted configuration is as it
    was. *)
Theorem C8_unknown_positional_name_is_refused o h config name rest :
  range_visits_each_entry_once env →
  kube_LoadConfig_err env h = None →
  Contexts config ≠ ∅ →
  Args o = name :: rest →
  ¬ offered (Filter o) (Contexts config) name →
  let candidates := Run_contextNames (Filter o) (map_to_list (Contexts config)) in
  Run env o h (Some config) =
    mkOut (Some (Some (InvalidArg name candidates))) (Some config) [EvLoadConfig] ∧
  StronglySorted String.le candidates ∧
  (∀ candidate, candidate ∈ candidates ↔ offered (Filter o) (Contexts config) candidate).
Proof.
  intros Hrange Hload Hne Hargs Hno candidates. subst candidates.
  destruct (Run_contextNames_candidates (Filter o) (h ++ [EvLoadConfig]) (Contexts config) Hrange)
    as (Heq & Hsorted & Hin).
  cbv zeta in *. rewrite <- Heq. split_and!; [|done..].
  rewrite Run_loaded by done. rewrite Hargs. cbv zeta.
  rewrite decide_True; [done|].
  apply util_StringArrayIndex_negative. by rewrite Hin.
Qed.

End ContextSwitching.

Lemma C8_witness :
  cmd.Run (cmd.example_env ("", None) None)
      {| cmd.Args := ["missing"]; cmd.BatchMode := true; cmd.Filter := "" |} []
      (Some cmd.example_config) =
    mkOut (Some (Some (InvalidArg "missing" ["prod"; "staging"])))
          (Some cmd.example_config) [cmd.EvLoadConfig].
Proof.
  destruct (C8_unknown_positional_name_is_refused (cmd.example_env ("", None) None)
              {| cmd.Args := ["missing"]; cmd.BatchMode := true; cmd.Filter := "" |} []
              cmd.example_config "missing" []) as [Hrun _].
  - intros h m. reflexivity.
  - reflexivity.
  - apply insert_non_empty.
  - reflexivity.
  - intros (_ & [ctx Hctx] & _). vm_compute in Hctx. discriminate.
  - exact Hrun.
Defined.

